(** * NovaTrace: classification analytics and orbital projection

    A shallow embedding of the data pipeline of the NovaTrace front end and
    the properties of its specification:

    - [ClassificationResults]: the counts per disposition, their percentages
      and the rows of the selected disposition;
    - [DataExploration]: the tally of dispositions, the summary statistics of
      the numeric columns, the colour of a disposition, the scatter plot and
      the histogram with the square-root number of bins;
    - [DataExplorationFixedBins]: the earlier DataExploration of the sources,
      with 20 bins and without the guards of the later one;
    - [PlanetSystem3D]: the projection of the classified rows to orbits;
    - [HistogramBars], [OverviewPanel] and [DataExploration25]: the bars of
      the histogram, the donut chart of the overview, and the histogram of
      the DataExploration with 25 bins;
    - [DataPreview]: the search, the sort and the pages of the preview;
    - [ResultsTable]: the table of the selected rows of
      ClassificationResults;
    - [FileUpload], [App] and [RetrainModel]: the handling of a file, the
      tabs and the selection, the hyperparameters and the retrain request.

    The components are functions of their props; a memo is its factory.

    JavaScript numbers are modelled with their special values (NaN and the
    two infinities) and exact rational arithmetic on finite values: binary64
    rounding and the sign of zero are abstracted away, everything that drives
    control flow (falsy 0 and NaN, [isNaN], division by zero) is kept.
    [Math.random] is the sequence of its draws, threaded through the code
    that calls it. A row is a finite map from column names to values. *)

From Stdlib Require Import ZArith QArith Qround Qabs Lqa Lia List String Ascii.
From Stdlib Require Import Sorted Permutation DecimalString DecimalN.
From stdpp Require Import base gmap strings.
Import ListNotations.

Local Open Scope Z_scope.

(** ** JavaScript numbers *)

Module JS.

Inductive number : Type :=
  | NaN
  | PInf
  | NInf
  | Fin (q : Q).

(** A numeric literal; finite results are kept in lowest terms so that equal
    values are equal terms. *)
Definition lit (q : Q) : number := Fin (Qred q).

Definition of_Z (z : Z) : number := Fin (z # 1).
Definition of_nat (n : nat) : number := of_Z (Z.of_nat n).

Definition inf_of_sign (s : Z) : number :=
  match s with
  | Z0 => NaN
  | Zpos _ => PInf
  | Zneg _ => NInf
  end.

Definition num_sgn (a : number) : Z :=
  match a with
  | NaN => 0
  | PInf => 1
  | NInf => -1
  | Fin q => Z.sgn (Qnum q)
  end.

Definition isNaN (a : number) : bool :=
  match a with NaN => true | _ => false end.

Definition isFinite (a : number) : bool :=
  match a with Fin _ => true | _ => false end.

(** [a + b] *)
Definition num_add (a b : number) : number :=
  match a, b with
  | NaN, _ | _, NaN => NaN
  | PInf, NInf | NInf, PInf => NaN
  | PInf, _ | _, PInf => PInf
  | NInf, _ | _, NInf => NInf
  | Fin x, Fin y => lit (x + y)
  end.

Definition num_neg (a : number) : number :=
  match a with
  | NaN => NaN
  | PInf => NInf
  | NInf => PInf
  | Fin x => lit (- x)
  end.

(** [a - b] *)
Definition num_sub (a b : number) : number :=
  match a, b with
  | NaN, _ | _, NaN => NaN
  | PInf, PInf | NInf, NInf => NaN
  | PInf, _ | _, NInf => PInf
  | NInf, _ | _, PInf => NInf
  | Fin x, Fin y => lit (x - y)
  end.

(** [a * b]: an infinity times zero is NaN. *)
Definition num_mul (a b : number) : number :=
  match a, b with
  | NaN, _ | _, NaN => NaN
  | Fin x, Fin y => lit (x * y)
  | _, _ => inf_of_sign (num_sgn a * num_sgn b)
  end.

(** [a / b]: a finite value over zero is an infinity of its sign, and
    [0 / 0] is NaN. *)
Definition num_div (a b : number) : number :=
  match a, b with
  | NaN, _ | _, NaN => NaN
  | Fin x, Fin y =>
      if Qeq_bool y 0 then inf_of_sign (num_sgn a) else lit (x / y)
  | Fin _, _ => Fin 0
  | _, Fin y =>
      inf_of_sign (num_sgn a * (if Qeq_bool y 0 then 1 else num_sgn b))
  | _, _ => NaN
  end.

(** [a < b], false as soon as one side is NaN. *)
Definition num_lt (a b : number) : bool :=
  match a, b with
  | NaN, _ | _, NaN => false
  | _, NInf => false
  | NInf, _ => true
  | PInf, _ => false
  | _, PInf => true
  | Fin x, Fin y => negb (Qle_bool y x)
  end.

(** [a <= b] *)
Definition num_le (a b : number) : bool :=
  match a, b with
  | NaN, _ | _, NaN => false
  | NInf, _ => true
  | _, PInf => true
  | _, NInf => false
  | PInf, _ => false
  | Fin x, Fin y => Qle_bool x y
  end.

Definition num_gt (a b : number) : bool := num_lt b a.

(** [a === b] on numbers: NaN differs from itself. *)
Definition num_eq (a b : number) : bool :=
  match a, b with
  | PInf, PInf | NInf, NInf => true
  | Fin x, Fin y => Qeq_bool x y
  | _, _ => false
  end.

(** Truthiness of a number: [0] and [NaN] are falsy. *)
Definition num_truthy (a : number) : bool :=
  match a with
  | NaN => false
  | Fin q => negb (Qeq_bool q 0)
  | _ => true
  end.

(** [Math.max(...xs)]: [-Infinity] on no argument, NaN as soon as one
    argument is NaN. *)
Definition max2 (a b : number) : number :=
  match a, b with
  | NaN, _ | _, NaN => NaN
  | _, _ => if num_lt a b then b else a
  end.

Definition Math_max (xs : list number) : number := fold_left max2 xs NInf.

(** [Math.min(a, b)] *)
Definition Math_min (a b : number) : number :=
  match a, b with
  | NaN, _ | _, NaN => NaN
  | _, _ => if num_lt b a then b else a
  end.

(** [Math.floor] *)
Definition Math_floor (a : number) : number :=
  match a with
  | Fin q => of_Z (Qfloor q)
  | _ => a
  end.

(** [Math.round]: the nearest integer, ties towards [+Infinity]. *)
Definition Math_round (a : number) : number :=
  match a with
  | Fin q => of_Z (Qfloor (q + (1 # 2)))
  | _ => a
  end.

(** Irrational results ([Math.sqrt], [Math.pow]) are rounded down to a
    multiple of [2^-52]. *)
Definition grid : Z := 2 ^ 52.

Definition on_grid (z : Z) : number := lit (Qmake z (Z.to_pos grid)).

(** [Math.sqrt] *)
Definition Math_sqrt (a : number) : number :=
  match a with
  | NaN | NInf => NaN
  | PInf => PInf
  | Fin q =>
      if Qle_bool 0 q
      then on_grid (Z.sqrt (grid * grid * Qnum q / Z.pos (Qden q)))
      else NaN
  end.

(** The largest [r >= 0] with [r ^ d <= m], found bit by bit. *)
Fixpoint iroot_bits (d : positive) (m : Z) (bits : nat) (r : Z) : Z :=
  match bits with
  | O => r
  | S b =>
      let r' := r + 2 ^ Z.of_nat b in
      iroot_bits d m b (if r' ^ Z.pos d <=? m then r' else r)
  end.

Definition iroot (d : positive) (m : Z) : Z :=
  iroot_bits d m (Z.to_nat (Z.log2 m + 1)) 0.

(** [x ^ (n / d)] for a positive rational [x], rounded down to the grid;
    exact when [d = 1]. *)
Definition pow_pos (x : Q) (n d : positive) : number :=
  match d with
  | xH => lit (x ^ Z.pos n)
  | _ =>
      on_grid (iroot d (grid ^ Z.pos d * Qnum x ^ Z.pos n
                        / Z.pos (Qden x) ^ Z.pos n))
  end.

(** [x ^ y] for a finite base and a positive finite exponent [n / d] in
    lowest terms: a negative base has a result only for an integer
    exponent. *)
Definition pow_fin (x : Q) (n d : positive) : number :=
  match Qnum x with
  | Z0 => Fin 0
  | Zpos _ => pow_pos x n d
  | Zneg _ =>
      match d with
      | xH => lit (x ^ Z.pos n)
      | _ => NaN
      end
  end.

Definition odd_integer (y : Q) : bool :=
  match Qden (Qred y) with
  | xH => Z.odd (Qnum (Qred y))
  | _ => false
  end.

(** [Math.pow(base, exponent)] *)
Definition Math_pow (a b : number) : number :=
  match b with
  | NaN => NaN
  | PInf | NInf =>
      let abs := if num_lt a (Fin 0) then num_neg a else a in
      match a with
      | NaN => NaN
      | _ =>
          if num_eq abs (Fin 1) then NaN
          else if Bool.eqb (num_lt (Fin 1) abs) (num_eq b PInf) then PInf
          else Fin 0
      end
  | Fin y =>
      match Qnum (Qred y), Qden (Qred y) with
      | Z0, _ => Fin 1
      | Zpos n, d =>
          match a with
          | NaN => NaN
          | PInf => PInf
          | NInf => if odd_integer y then NInf else PInf
          | Fin x => pow_fin x n d
          end
      | Zneg n, d =>
          match a with
          | NaN => NaN
          | PInf => Fin 0
          | NInf => Fin 0
          | Fin x => num_div (Fin 1) (pow_fin x n d)
          end
      end
  end.

(** ** Strings *)

Definition is_lower (c : ascii) : bool :=
  let n := N_of_ascii c in ((97 <=? n) && (n <=? 122))%N.

Definition upper_ascii (c : ascii) : ascii :=
  if is_lower c then ascii_of_N (N_of_ascii c - 32) else c.

(** [s.toUpperCase()], on the ASCII letters; other bytes are left as they
    are (the special casing of Unicode is not modelled). *)
Fixpoint toUpperCase (s : string) : string :=
  match s with
  | EmptyString => EmptyString
  | String c s' => String (upper_ascii c) (toUpperCase s')
  end.

(** White space and line terminators of the ASCII range. *)
Definition is_space (c : ascii) : bool :=
  let n := N_of_ascii c in ((n =? 32) || ((9 <=? n) && (n <=? 13)))%N.

Fixpoint trim_left (s : string) : string :=
  match s with
  | String c s' => if is_space c then trim_left s' else s
  | EmptyString => EmptyString
  end.

Fixpoint trim_right (s : string) : string :=
  match s with
  | String c s' =>
      match trim_right s' with
      | EmptyString => if is_space c then EmptyString else String c EmptyString
      | r => String c r
      end
  | EmptyString => EmptyString
  end.

(** The value of a digit in base 16 (and so in every smaller base). *)
Definition digit_of (c : ascii) : option Z :=
  let n := Z.of_N (N_of_ascii c) in
  if (48 <=? n) && (n <=? 57) then Some (n - 48)
  else if (97 <=? n) && (n <=? 102) then Some (n - 87)
  else if (65 <=? n) && (n <=? 70) then Some (n - 55)
  else None.

(** Reads the longest run of digits of base [b], continuing the value [acc];
    returns the value, the number of digits read and the rest. *)
Fixpoint digits (b : Z) (s : string) (acc : Z) (n : nat) : Z * nat * string :=
  match s with
  | String c s' =>
      match digit_of c with
      | Some d => if d <? b then digits b s' (b * acc + d) (S n) else (acc, n, s)
      | None => (acc, n, s)
      end
  | EmptyString => (acc, n, s)
  end.

Definition scale (m e : Z) : number := lit (inject_Z m * (10 # 1) ^ e).

(** ExponentPart: consumed only when a digit follows. *)
Definition exponent_part (s : string) : Z * string :=
  match s with
  | String c s1 =>
      if (Ascii.eqb c "e" || Ascii.eqb c "E")%bool then
        let '(sg, s2) :=
          match s1 with
          | String "+"%char t => (1, t)
          | String "-"%char t => (-1, t)
          | _ => (1, s1)
          end in
        let '(e, n, s3) := digits 10 s2 0 0 in
        match n with
        | O => (0, s)
        | _ => (sg * e, s3)
        end
      else (0, s)
  | EmptyString => (0, s)
  end.

Fixpoint string_drop (n : nat) (s : string) : string :=
  match n, s with
  | S n', String _ s' => string_drop n' s'
  | _, _ => s
  end.

(** The longest prefix that is a StrUnsignedDecimalLiteral, with the rest. *)
Definition unsigned_decimal (s : string) : option (number * string) :=
  if String.prefix "Infinity" s then Some (PInf, string_drop 8 s)
  else
    let '(i, ni, s1) := digits 10 s 0 0 in
    match s1 with
    | String "."%char s2 =>
        let '(m, nf, s3) := digits 10 s2 i 0 in
        if (ni + nf =? 0)%nat then None
        else
          let '(e, s4) := exponent_part s3 in
          Some (scale m (e - Z.of_nat nf), s4)
    | _ =>
        if (ni =? 0)%nat then None
        else let '(e, s4) := exponent_part s1 in Some (scale i e, s4)
    end.

Definition decimal_literal (s : string) : option (number * string) :=
  match s with
  | String "+"%char t => unsigned_decimal t
  | String "-"%char t =>
      match unsigned_decimal t with
      | Some (v, r) => Some (num_neg v, r)
      | None => None
      end
  | _ => unsigned_decimal s
  end.

(** [parseFloat] of a string: leading white space is skipped, the longest
    decimal prefix is read, and anything else is NaN. *)
Definition parseFloat_string (s : string) : number :=
  match decimal_literal (trim_left s) with
  | Some (v, _) => v
  | None => NaN
  end.

(** [0x], [0o] and [0b] literals of StringToNumber. *)
Definition non_decimal_literal (s : string) : number :=
  match s with
  | String "0"%char (String c t) =>
      let b :=
        if (Ascii.eqb c "x" || Ascii.eqb c "X")%bool then 16
        else if (Ascii.eqb c "o" || Ascii.eqb c "O")%bool then 8
        else if (Ascii.eqb c "b" || Ascii.eqb c "B")%bool then 2
        else 0 in
      match digits b t 0 0 with
      | (v, S _, EmptyString) => of_Z v
      | _ => NaN
      end
  | _ => NaN
  end.

(** StringToNumber, the conversion [Number(s)] applies to a string: the
    whole trimmed string has to be a literal, and the empty string is 0. *)
Definition Number_string (s : string) : number :=
  match trim_right (trim_left s) with
  | EmptyString => Fin 0
  | t =>
      match decimal_literal t with
      | Some (v, EmptyString) => v
      | _ => non_decimal_literal t
      end
  end.

Definition string_of_Z (z : Z) : string :=
  NilZero.string_of_uint (N.to_uint (Z.to_N z)).

(** ** Values *)

(** The values a cell of a row parsed from JSON holds, and [undefined] for
    an absent key. *)
Inductive jsval : Type :=
  | JUndefined
  | JNull
  | JBool (b : bool)
  | JNum (n : number)
  | JStr (s : string).

(** Number::toString prints a finite number as the shortest decimal that
    reads back as the same binary64 value; that has no counterpart on exact
    values, so the digits of a finite number are an interface of the
    runtime. *)
Class Runtime : Type := { shortest_decimal : Q -> string }.

Definition Number_toString `{Runtime} (a : number) : string :=
  match a with
  | NaN => "NaN"
  | PInf => "Infinity"
  | NInf => "-Infinity"
  | Fin q => shortest_decimal q
  end.

(** [String(v)] *)
Definition ToString `{Runtime} (v : jsval) : string :=
  match v with
  | JUndefined => "undefined"
  | JNull => "null"
  | JBool true => "true"
  | JBool false => "false"
  | JNum n => Number_toString n
  | JStr s => s
  end.

(** Truthiness. *)
Definition truthy (v : jsval) : bool :=
  match v with
  | JUndefined | JNull => false
  | JBool b => b
  | JNum n => num_truthy n
  | JStr EmptyString => false
  | JStr _ => true
  end.

(** [a || b] *)
Definition or_else (a b : jsval) : jsval := if truthy a then a else b.

(** [a ?? b] *)
Definition nullish (a b : jsval) : jsval :=
  match a with
  | JUndefined | JNull => b
  | _ => a
  end.

(** [parseFloat(v)]. The argument is first converted to a string; a number
    printed by Number::toString reads back as itself. *)
Definition parseFloat (v : jsval) : number :=
  match v with
  | JNum n => n
  | JStr s => parseFloat_string s
  | _ => NaN
  end.

(** [Number(v)] *)
Definition Number (v : jsval) : number :=
  match v with
  | JUndefined => NaN
  | JNull => Fin 0
  | JBool true => Fin 1
  | JBool false => Fin 0
  | JNum n => n
  | JStr s => Number_string s
  end.

(** [x.toFixed(f)]: the nearest decimal with [f] fraction digits of the
    absolute value, the larger one on a tie, with the sign in front. *)
Definition pad_zeros (n : nat) (s : string) : string :=
  String.concat "" (repeat "0"%string (n - String.length s)) ++ s.

Definition toFixed `{Runtime} (x : number) (f : nat) : string :=
  match x with
  | Fin q =>
      let s := if Qle_bool 0 q then "" else "-" in
      let a := Qabs q in
      if Qle_bool ((10 # 1) ^ 21) a then s ++ Number_toString (lit a)
      else
        let n := Qfloor (a * (10 # 1) ^ Z.of_nat f + (1 # 2)) in
        let m := pad_zeros (S f) (string_of_Z n) in
        let k := (String.length m - f)%nat in
        s ++ substring 0 k m
          ++ (match f with O => "" | _ => "." ++ substring k f m end)
  | _ => Number_toString x
  end%string.

(** Math.random: the unseeded source of the runtime, as the sequence of the
    draws to come. *)
Definition RNG : Type := nat -> number.

Definition Math_random (g : RNG) : number * RNG := (g O, fun n => g (S n)).

(** ** Tables *)

(** A row is an object keyed by column name. *)
Abbreviation row := (gmap string jsval).

(** [r.key] and [r[key]]: an absent key reads as [undefined]. *)
Definition get (r : row) (key : string) : jsval := default JUndefined (r !! key).

(** The [data] prop: [{ columns, rows }], where either field may be missing
    or not an array; [None] stands for that. *)
Record table : Type := {
  columns : option (list string);
  rows : option (list row)
}.

(** [arr.sort(compare)]: the sort is stable, and [compare x y > 0] puts [x]
    after [y]. *)
Fixpoint sort_insert (compare : number -> number -> number)
    (x : number) (l : list number) : list number :=
  match l with
  | [] => [x]
  | y :: l' =>
      if num_gt (compare x y) (Fin 0) then y :: sort_insert compare x l'
      else x :: l
  end.

Definition Array_sort (compare : number -> number -> number)
    (l : list number) : list number :=
  fold_right (sort_insert compare) [] l.

(** [arr.reduce((a, b) => a + b, 0)] *)
Definition sum_numbers (l : list number) : number :=
  fold_left num_add l (Fin 0).

End JS.

Import JS.

(** ** ClassificationResults: counts per disposition and their percentages *)

Module ClassificationResults.
Section Component.
Context `{Runtime}.

(** [String(row.Predicted_Disposition || "").toUpperCase()] *)
Definition disposition_of (r : row) : string :=
  toUpperCase (ToString (or_else (get r "Predicted_Disposition") (JStr ""))).

(** [{ CONFIRMED: 0, CANDIDATE: 0, "FALSE POSITIVE": 0 }] *)
Definition initial_counts : gmap string nat :=
  <["CONFIRMED"%string := O]>
    (<["CANDIDATE"%string := O]> (<["FALSE POSITIVE"%string := O]> ∅)).

(** The body of the [forEach]: [if (d in counts) counts[d]++]. An upper-cased
    string is never the name of an inherited property, so [in] is membership
    among the three keys. *)
Definition count_row (counts : gmap string nat) (r : row) : gmap string nat :=
  let d := disposition_of r in
  match counts !! d with
  | Some n => <[d := S n]> counts
  | None => counts
  end.

Definition dispositionCounts (rows : list row) : gmap string nat :=
  fold_left count_row rows initial_counts.

Definition filteredRows (rows : list row) (selectedDisposition : string)
    : list row :=
  List.filter (fun r => String.eqb (disposition_of r) selectedDisposition) rows.

(** [(count / data.rows.length) * 100] *)
Definition percentage_value (count : nat) (rows : list row) : number :=
  num_mul (num_div (of_nat count) (of_nat (length rows))) (Fin 100).

(** [((count / data.rows.length) * 100).toFixed(1)] *)
Definition percentage (count : nat) (rows : list row) : string :=
  toFixed (percentage_value count rows) 1.

(** One summary card per entry of [dispositionCounts], in the order of its
    keys. *)
Record card : Type := {
  card_disposition : string;
  card_count : nat;
  card_percentage : string
}.

Definition cards (rows : list row) : list card :=
  let counts := dispositionCounts rows in
  map (fun disp =>
         let count := default O (counts !! disp) in
         {| card_disposition := disp;
            card_count := count;
            card_percentage := percentage count rows |})
      ["CONFIRMED"; "CANDIDATE"; "FALSE POSITIVE"]%string.

Record view : Type := {
  view_cards : list card;
  view_filteredRows : list row
}.

(** The component: a placeholder ([None]) unless [data.rows] and
    [data.columns] are arrays. *)
Definition ClassificationResults (data : option table)
    (selectedDisposition : string) : option view :=
  match data with
  | Some {| JS.columns := Some _; JS.rows := Some rs |} =>
      Some {| view_cards := cards rs;
              view_filteredRows := filteredRows rs selectedDisposition |}
  | _ => None
  end.

End Component.
End ClassificationResults.

(** ** DataExploration: summary statistics, scatter plot and histogram *)

Module DataExploration.

Record ColumnStatistic : Type := {
  min : number;
  max : number;
  mean : number;
  median : number;
  count : nat
}.

Record Stats : Type := {
  dispositions : gmap string nat;
  columns : gmap string ColumnStatistic;
  total : nat
}.

Definition numericCols : list string :=
  ["koi_period"; "pl_orbper"; "koi_prad"; "pl_rade"; "koi_depth"; "koi_teff";
   "st_teff"; "pl_trandep"]%string.

(** [data.rows.map((r) => parseFloat(r[col])).filter((v) => !isNaN(v))
      .sort((a, b) => a - b)] *)
Definition column_values (rows : list row) (col : string) : list number :=
  Array_sort num_sub
    (List.filter (fun v => negb (isNaN v))
       (map (fun r => parseFloat (get r col)) rows)).

(** The body of [numericCols.reduce]: no entry for a column without a
    numeric value. Past the guard the three indices are in range. *)
Definition summarize (rows : list row) (acc : gmap string ColumnStatistic)
    (col : string) : gmap string ColumnStatistic :=
  let vals := column_values rows col in
  match vals with
  | [] => acc
  | first :: _ =>
      let mean := num_div (sum_numbers vals) (of_nat (length vals)) in
      <[col := {| min := first;
                  max := List.last vals first;
                  mean := mean;
                  median := nth (length vals / 2) vals first;
                  count := length vals |}]> acc
  end.

Section Component.
Context `{Runtime}.

(** [String(row.Predicted_Disposition || "Unknown").toUpperCase()] *)
Definition disposition_key (r : row) : string :=
  toUpperCase
    (ToString (or_else (get r "Predicted_Disposition") (JStr "Unknown"))).

(** [acc[disp] = (acc[disp] || 0) + 1] *)
Definition count_disposition (acc : gmap string nat) (r : row)
    : gmap string nat :=
  let disp := disposition_key r in
  <[disp := (default O (acc !! disp) + 1)%nat]> acc.

Definition stats (data : option table) : Stats :=
  match data with
  | Some {| JS.rows := Some rs |} =>
      {| dispositions := fold_left count_disposition rs ∅;
         columns := fold_left (summarize rs) numericCols ∅;
         total := length rs |}
  | _ => {| dispositions := ∅; columns := ∅; total := O |}
  end.

(** The colour of a disposition, shared by the charts and the legend.
    [(disp || "").toUpperCase()] throws a TypeError ([None]) on a truthy
    value that is not a string. *)
Definition color (disp : jsval) : option string :=
  match or_else disp (JStr "") with
  | JStr s =>
      let u := toUpperCase s in
      if (String.eqb u "CP" || String.eqb u "CONFIRMED")%bool
      then Some "#10b981"%string
      else if (String.eqb u "PC" || String.eqb u "CANDIDATE")%bool
      then Some "#facc15"%string
      else if (String.eqb u "FP" || String.eqb u "FALSE POSITIVE")%bool
      then Some "#ef4444"%string
      else Some "#94a3b8"%string
  | _ => None
  end.


(** *** ScatterPlot *)

Record ScatterPoint : Type := {
  x : number;
  y : number;
  disp : string;
  raw : row
}.

Definition scatter_point (r : row) : ScatterPoint :=
  {| x := parseFloat (nullish (get r "period") (JStr ""));
     y := parseFloat (nullish (get r "radius")
                        (nullish (get r "depth") (JStr "")));
     disp := toUpperCase
               (ToString (nullish (get r "Predicted_Disposition")
                            (nullish (get r "koi_disposition")
                               (JStr "UNKNOWN"))));
     raw := r |}.

(** [if (!data?.rows) return []], then the points with both coordinates
    numeric. *)
Definition scatter (data : option table) : list ScatterPoint :=
  match data with
  | Some {| JS.rows := Some rs |} =>
      List.filter (fun p => negb (isNaN (x p)) && negb (isNaN (y p)))
        (map scatter_point rs)
  | _ => []
  end.

(** [Math.max(...scatter.map((d) => d.x), 1)] *)
Definition maxX (pts : list ScatterPoint) : number :=
  Math_max (map x pts ++ [Fin 1]).

Definition maxY (pts : list ScatterPoint) : number :=
  Math_max (map y pts ++ [Fin 1]).

(** [plot = { left: 40, top: 30, width: 320, height: 180, bottom: 210 }] *)
Definition plot_left : number := Fin 40.
Definition plot_top : number := Fin 30.
Definition plot_width : number := Fin 320.
Definition plot_height : number := Fin 180.
Definition plot_bottom : number := Fin 210.

(** The part of a coordinate the normalization produces:
    [(p.x / maxX) * plot.width] and [(p.y / maxY) * plot.height]. *)
Definition normalized_x (pts : list ScatterPoint) (p : ScatterPoint) : number :=
  num_mul (num_div (x p) (maxX pts)) plot_width.

Definition normalized_y (pts : list ScatterPoint) (p : ScatterPoint) : number :=
  num_mul (num_div (y p) (maxY pts)) plot_height.

(** [cx = plot.left + (p.x / maxX) * plot.width] and
    [cy = plot.bottom - (p.y / maxY) * plot.height] *)
Definition cx (pts : list ScatterPoint) (p : ScatterPoint) : number :=
  num_add plot_left (normalized_x pts p).

Definition cy (pts : list ScatterPoint) (p : ScatterPoint) : number :=
  num_sub plot_bottom (normalized_y pts p).

Record circle : Type := {
  circle_cx : number;
  circle_cy : number;
  circle_fill : option string
}.

Definition ScatterPlot (data : option table) : list circle :=
  let pts := scatter data in
  map (fun p => {| circle_cx := cx pts p;
                   circle_cy := cy pts p;
                   circle_fill := color (JStr (disp p)) |}) pts.

End Component.

(** *** HistogramChart *)

(** [data?.rows?.map((r) => parseFloat(r.period ?? ""))
      .filter((v) => !isNaN(v) && v > 0) || []], sorted in place. *)
Definition periods (data : option table) : list number :=
  match data with
  | Some {| JS.rows := Some rs |} =>
      Array_sort num_sub
        (List.filter (fun v => negb (isNaN v) && num_gt v (Fin 0))
           (map (fun r => parseFloat (nullish (get r "period") (JStr ""))) rs))
  | _ => []
  end.

(** The index a number denotes in an array, if it is one. *)
Definition to_index (i : number) : option nat :=
  match i with
  | Fin q =>
      match Qred q with
      | Qmake z xH => if 0 <=? z then Some (Z.to_nat z) else None
      | _ => None
      end
  | _ => None
  end.

(** [Array(n).fill(0)] *)
Definition zeros (n : number) : list nat :=
  match to_index n with
  | Some k => repeat O k
  | None => []
  end.

(** [histogram[i]++]: when [i] is not an index (NaN), the increment lands on
    a property beside the elements and no bin changes. The index never
    exceeds the last bin, by [Math.min(bins - 1, ...)]. *)
Definition increment (histogram : list nat) (i : number) : list nat :=
  match to_index i with
  | Some k =>
      match histogram !! k with
      | Some c => <[k := S c]> histogram
      | None => histogram
      end
  | None => histogram
  end.

(** [Math.max(5, Math.round(Math.sqrt(periods.length)))] *)
Definition bin_count (n : nat) : number :=
  Math_max [Fin 5; Math_round (Math_sqrt (of_nat n))].

(** [(max - min) / bins || 1] *)
Definition bin_width (min max bins : number) : number :=
  let w := num_div (num_sub max min) bins in
  if num_truthy w then w else Fin 1.

(** [Math.min(bins - 1, Math.floor((v - min) / width))] *)
Definition bin_index (min width bins v : number) : number :=
  Math_min (num_sub bins (Fin 1)) (Math_floor (num_div (num_sub v min) width)).

Record Histogram : Type := {
  bins : number;
  range_min : number;
  range_max : number;
  width : number;
  histogram : list nat;
  maxCount : nat
}.

(** The chart: "No valid orbital data." ([None]) without a positive period. *)
Definition HistogramChart (data : option table) : option Histogram :=
  let ps := periods data in
  match ps with
  | [] => None
  | first :: _ =>
      let bins := bin_count (length ps) in
      let min := first in
      let max := List.last ps first in
      let width := bin_width min max bins in
      let histogram :=
        fold_left (fun h v => increment h (bin_index min width bins v))
          ps (zeros bins) in
      Some {| bins := bins;
              range_min := min;
              range_max := max;
              width := width;
              histogram := histogram;
              maxCount := fold_left Nat.max (histogram ++ [1%nat]) O |}
  end.

End DataExploration.

(** ** The earlier DataExploration, with a fixed bin count

    The second DataExploration component of the sources (the text that
    follows the upload form in src/frontend/src/components/DownloadButton.tsx):
    the same three views, without the guards of the later one. *)

Module DataExplorationFixedBins.

Import DataExploration(ColumnStatistic, Build_ColumnStatistic).

Definition numericColumns : list string :=
  ["koi_period"; "koi_prad"; "koi_slogg"]%string.

(** The body of [numericColumns.reduce]: the values are sorted once there is
    one. *)
Definition summarize (rows : list row) (acc : gmap string ColumnStatistic)
    (col : string) : gmap string ColumnStatistic :=
  let values :=
    List.filter (fun val => negb (isNaN val))
      (map (fun r => parseFloat (get r col)) rows) in
  if (0 <? length values)%nat then
    let values := Array_sort num_sub values in
    let first := nth O values NaN in
    <[col := {| DataExploration.min := first;
                DataExploration.max := List.last values first;
                DataExploration.mean :=
                  num_div (sum_numbers values) (of_nat (length values));
                DataExploration.median := nth (length values / 2) values first;
                DataExploration.count := length values |}]> acc
  else acc.

Definition columnStats (rows : list row) : gmap string ColumnStatistic :=
  fold_left (summarize rows) numericColumns ∅.

Record ScatterPoint : Type := {
  x : number;
  y : number;
  disposition : jsval
}.

Definition scatter_point (r : row) : ScatterPoint :=
  {| x := parseFloat (or_else (get r "koi_period") (get r "Period (days)"));
     y := parseFloat (or_else (get r "koi_prad") (get r "Radius (R⊕)"));
     disposition :=
       or_else (get r "Predicted_Disposition") (get r "Classification") |}.

Definition scatterData (data : option table) : list ScatterPoint :=
  match data with
  | Some {| JS.rows := Some rs |} =>
      List.filter (fun point => negb (isNaN (x point)) && negb (isNaN (y point)))
        (map scatter_point rs)
  | _ => []
  end.

(** [scatterData.length > 0 ? Math.max(...scatterData.map((d) => d.x)) : 0] *)
Definition maxX (pts : list ScatterPoint) : number :=
  if (0 <? length pts)%nat then Math_max (map x pts) else Fin 0.

Definition maxY (pts : list ScatterPoint) : number :=
  if (0 <? length pts)%nat then Math_max (map y pts) else Fin 0.

(** [(point.x / maxX) * 320] and [(point.y / maxY) * 180] *)
Definition normalized_x (pts : list ScatterPoint) (p : ScatterPoint) : number :=
  num_mul (num_div (x p) (maxX pts)) (Fin 320).

Definition normalized_y (pts : list ScatterPoint) (p : ScatterPoint) : number :=
  num_mul (num_div (y p) (maxY pts)) (Fin 180).

(** [40 + (point.x / maxX) * 320] and [210 - (point.y / maxY) * 180] *)
Definition circle_x (pts : list ScatterPoint) (p : ScatterPoint) : number :=
  num_add (Fin 40) (normalized_x pts p).

Definition circle_y (pts : list ScatterPoint) (p : ScatterPoint) : number :=
  num_sub (Fin 210) (normalized_y pts p).

Definition ScatterPlot (data : option table) : list (number * number) :=
  let pts := scatterData data in
  map (fun p => (circle_x pts p, circle_y pts p)) pts.

Record HistogramBin : Type := {
  binStart : number;
  binEnd : number;
  count : nat
}.

(** [data?.rows?.map((row) => parseFloat(row.koi_period)) ?? []], then the
    positive ones, sorted. *)
Definition validPeriods (data : option table) : list number :=
  let periods :=
    match data with
    | Some {| JS.rows := Some rs |} =>
        map (fun r => parseFloat (get r "koi_period")) rs
    | _ => []
    end in
  Array_sort num_sub
    (List.filter (fun val => negb (isNaN val) && num_gt val (Fin 0)) periods).

Definition bins : number := Fin 20.

(** [Math.min(bins - 1, Math.floor((period - min) / binWidth))] *)
Definition binIndex (min binWidth period : number) : number :=
  Math_min (num_sub bins (Fin 1))
    (Math_floor (num_div (num_sub period min) binWidth)).

Definition histogramData (data : option table) : list HistogramBin :=
  let ps := validPeriods data in
  match ps with
  | [] => []
  | min :: _ =>
      let max := List.last ps min in
      let binWidth := num_div (num_sub max min) bins in
      let histogram :=
        fold_left
          (fun h period =>
             DataExploration.increment h (binIndex min binWidth period))
          ps (DataExploration.zeros bins) in
      imap (fun index count =>
              {| binStart := num_add min (num_mul (of_nat index) binWidth);
                 binEnd := num_add min (num_mul (of_nat (index + 1)) binWidth);
                 count := count |})
        histogram
  end.

End DataExplorationFixedBins.

(** ** PlanetSystem3D: the orbital projection *)

Module PlanetSystem3D.

Record PlanetProps : Type := {
  orbitalRadius : number;
  planetRadius : number;
  color : string;
  speed : number;
  name : jsval
}.

Record SystemConfig : Type := {
  planets : list PlanetProps;
  title : string;
  detectedCount : nat
}.

(** [row.koi_prad ?? row.pl_rade ?? null] *)
Definition prad (r : row) : jsval :=
  nullish (get r "koi_prad") (nullish (get r "pl_rade") JNull).

(** [row.koi_period ?? row.pl_orbper ?? null] *)
Definition period (r : row) : jsval :=
  nullish (get r "koi_period") (nullish (get r "pl_orbper") JNull).

(** [prad ? Math.max(0.08, Number(prad) * 0.05) : 0.12] *)
Definition planetRadius_of (r : row) : number :=
  if truthy (prad r)
  then Math_max [lit 0.08; num_mul (Number (prad r)) (lit 0.05)]
  else lit 0.12.

(** [period ? 1.8 + Math.pow(Number(period), 0.3) : 3 + i * 1.8] *)
Definition orbitalRadius_of (r : row) (i : nat) : number :=
  if truthy (period r)
  then num_add (lit 1.8) (Math_pow (Number (period r)) (lit 0.3))
  else num_add (Fin 3) (num_mul (of_nat i) (lit 1.8)).

(** [0.25 + Math.random() * 0.7] *)
Definition speed_of (u : number) : number :=
  num_add (lit 0.25) (num_mul u (lit 0.7)).

(** The callback of [filtered.slice(0, 8).map((row, i) => ...)]; it draws
    once from [Math.random]. *)
Definition planet (disposition : string) (r : row) (i : nat) (g : RNG)
    : PlanetProps * RNG :=
  let '(u, g') := Math_random g in
  ({| orbitalRadius := orbitalRadius_of r i;
      planetRadius := planetRadius_of r;
      color := if String.eqb disposition "CONFIRMED"
               then "#3b82f6" else "#8b5cf6";
      speed := speed_of u;
      name := nullish (get r "kepoi_name")
                (nullish (get r "id")
                   (JStr ("Planet-" ++ string_of_Z (Z.of_nat i + 1)))) |},
   g').

(** [map] with the index, threading the random source in row order. *)
Fixpoint map_planets (disposition : string) (rs : list row) (i : nat)
    (g : RNG) : list PlanetProps * RNG :=
  match rs with
  | [] => ([], g)
  | r :: rs' =>
      let '(p, g1) := planet disposition r i g in
      let '(ps, g2) := map_planets disposition rs' (S i) g1 in
      (p :: ps, g2)
  end.

Section Component.
Context `{Runtime}.

(** [(data?.rows || []).filter((r) =>
       String(r.Predicted_Disposition || "").toUpperCase() === disposition)] *)
Definition filtered (data : option table) (disposition : string) : list row :=
  List.filter
    (fun r =>
       String.eqb
         (toUpperCase
            (ToString (or_else (get r "Predicted_Disposition") (JStr ""))))
         disposition)
    (match data with
     | Some {| JS.rows := Some rs |} => rs
     | _ => []
     end).

(** The factory of the memo: each evaluation draws afresh. *)
Definition systemConfig (data : option table) (disposition : string) (g : RNG)
    : SystemConfig * RNG :=
  let '(planets, g') :=
    map_planets disposition (take 8 (filtered data disposition)) O g in
  ({| planets := planets;
      title := if String.eqb disposition "CONFIRMED"
               then "Confirmed Planetary System"
               else if String.eqb disposition "CANDIDATE"
               then "Candidate Planet System"
               else "No Planetary System Detected";
      detectedCount := length planets |},
   g').

(** What the component shows: a notice without data, the false-positive
    panel, or the scene with one body per planet. *)
Inductive view : Type :=
  | NoData
  | FalsePositivePanel
  | Scene (config : SystemConfig).

Definition PlanetSystem3D (data : option table) (disposition : string)
    (g : RNG) : view * RNG :=
  let '(config, g') := systemConfig data disposition g in
  (match data with
   | Some {| JS.rows := Some _ |} =>
       if String.eqb disposition "FALSE POSITIVE" then FalsePositivePanel
       else Scene config
   | _ => NoData
   end,
   g').

End Component.
End PlanetSystem3D.

(** ** DataExploration: the bars of the histogram and the overview *)

Module HistogramBars.
Section Component.
Context `{Runtime}.

Import DataExploration.

Record bar : Type := {
  bar_x : number;
  bar_y : number;
  barW : number;
  bar_height : number;
  binMin : number;
  binMax : number;
  alpha : number;
  bar_fill : string;
  bar_count : nat
}.

(** [+(v).toFixed(3)] *)
Definition rounded3 (v : number) : number := Number (JStr (toFixed v 3)).

(** The callback of [histogram.map((count, i) => ...)]. *)
Definition bar_of (h : Histogram) (i count : nat) : bar :=
  let x := num_add plot_left
             (num_mul (of_nat i) (num_div plot_width (bins h))) in
  let barW := num_sub (num_div plot_width (bins h)) (Fin 2) in
  let height :=
    num_mul (num_div (of_nat count) (of_nat (maxCount h))) plot_height in
  let y := num_sub plot_bottom height in
  let binMin :=
    rounded3 (num_add (range_min h) (num_mul (of_nat i) (width h))) in
  let binMax :=
    rounded3 (num_add (range_min h)
                (num_mul (num_add (of_nat i) (Fin 1)) (width h))) in
  let alpha :=
    num_add (lit 0.4)
      (num_mul (lit 0.6) (num_div (of_nat count) (of_nat (maxCount h)))) in
  {| bar_x := x;
     bar_y := y;
     barW := barW;
     bar_height := height;
     binMin := binMin;
     binMax := binMax;
     alpha := alpha;
     bar_fill := "rgba(167,139,250," ++ Number_toString alpha ++ ")";
     bar_count := count |}.

Definition bars (h : Histogram) : list bar := imap (bar_of h) (histogram h).

End Component.
End HistogramBars.

Module OverviewPanel.
Section Component.
Context `{Runtime}.

(** [colors = ["#10b981", "#facc15", "#ef4444"]] *)
Definition colors : list string := ["#10b981"; "#facc15"; "#ef4444"]%string.

(** [colors[i % colors.length]] *)
Definition color_at (i : nat) : string :=
  nth (i mod length colors) colors EmptyString.

(** [entries.reduce((a, [_, v]) => a + v, 0)] *)
Definition totalConfirmed (entries : list (string * nat)) : nat :=
  fold_left (fun a e => (a + snd e)%nat) entries O.

Record segment : Type := {
  seg_start : number;
  seg_end : number;
  strokeDashoffset : number;
  strokeDasharray : string;
  stroke : string
}.

(** [(cumulative / totalConfirmed) * 100] *)
Definition share (cumulative total : nat) : number :=
  num_mul (num_div (of_nat cumulative) (of_nat total)) (Fin 100).

(** The callback of [entries.map(([disp, count], i) => ...)], with the
    running [cumulative] it updates. *)
Fixpoint segments_from (total : nat) (entries : list (string * nat))
    (i cumulative : nat) : list segment :=
  match entries with
  | [] => []
  | (_, count) :: rest =>
      let start := share cumulative total in
      let cumulative := (cumulative + count)%nat in
      let end_ := share cumulative total in
      let offset := num_sub (Fin 100) end_ in
      {| seg_start := start;
         seg_end := end_;
         strokeDashoffset := offset;
         strokeDasharray :=
           Number_toString (num_sub end_ start) ++ " "
           ++ Number_toString (num_sub (Fin 100) (num_sub end_ start));
         stroke := color_at i |}
      :: segments_from total rest (S i) cumulative
  end.

(** The donut chart of [entries = Object.entries(stats.dispositions)]. *)
Definition segments (entries : list (string * nat)) : list segment :=
  segments_from (totalConfirmed entries) entries O O.

(** [stats.total || 1], the number in the middle of the donut. *)
Definition total (stats : DataExploration.Stats) : nat :=
  match DataExploration.total stats with
  | O => 1
  | n => n
  end.

End Component.
End OverviewPanel.

(** ** The DataExploration with 25 bins

    The third DataExploration of the sources: its histogram reads the
    column [period] as the later one does, and divides the range by a
    fixed number of bins without a guard, as the earlier one does. *)

Module DataExploration25.

(** [bins = 25] *)
Definition bins : number := Fin 25.

Record bar : Type := {
  bar_x : number;
  bar_y : number;
  bar_width : number;
  bar_height : number
}.

Record Histogram : Type := {
  range_min : number;
  range_max : number;
  width : number;
  histogram : list nat;
  maxCount : number;
  bars : list bar
}.

(** The callback of [histogram.map((count, i) => ...)]. *)
Definition bar_of (maxCount : number) (i count : nat) : bar :=
  let x := num_add (Fin 40) (num_mul (of_nat i) (num_div (Fin 320) bins)) in
  let height := num_mul (num_div (of_nat count) maxCount) (Fin 180) in
  let y := num_sub (Fin 210) height in
  {| bar_x := x;
     bar_y := y;
     bar_width := num_sub (num_div (Fin 320) bins) (Fin 2);
     bar_height := height |}.

(** The chart: "No valid orbital data." ([None]) without a positive
    period. *)
Definition HistogramChart (data : option table) : option Histogram :=
  let periods := DataExploration.periods data in
  match periods with
  | [] => None
  | min :: _ =>
      let max := List.last periods min in
      let width := num_div (num_sub max min) bins in
      let histogram :=
        fold_left
          (fun h v =>
             DataExploration.increment h
               (DataExploration.bin_index min width bins v))
          periods (DataExploration.zeros bins) in
      let maxCount := Math_max (map of_nat histogram) in
      Some {| range_min := min;
              range_max := max;
              width := width;
              histogram := histogram;
              maxCount := maxCount;
              bars := imap (bar_of maxCount) histogram |}
  end.

End DataExploration25.

(** ** More of the runtime: text search, comparison of values, slices *)

Module JSText.

Definition is_upper (c : ascii) : bool :=
  let n := N_of_ascii c in ((65 <=? n) && (n <=? 90))%N.

Definition lower_ascii (c : ascii) : ascii :=
  if is_upper c then ascii_of_N (N_of_ascii c + 32) else c.

(** [s.toLowerCase()], on the ASCII letters, as [toUpperCase]. *)
Fixpoint toLowerCase (s : string) : string :=
  match s with
  | EmptyString => EmptyString
  | String c s' => String (lower_ascii c) (toLowerCase s')
  end.

(** [s.includes(t)]: [t] starts at some position of [s]. *)
Fixpoint includes (s t : string) : bool :=
  String.prefix t s
  || match s with
     | EmptyString => false
     | String _ s' => includes s' t
     end.

(** [s.endsWith(t)] *)
Definition endsWith (s t : string) : bool :=
  (String.length t <=? String.length s)%nat
  && String.eqb
       (substring (String.length s - String.length t) (String.length t) s) t.

(** [a < b] on primitive values: two strings are compared as strings, unit
    by unit; any other pair as numbers, and no number is below or above
    NaN. *)
Definition less_than (a b : jsval) : bool :=
  match a, b with
  | JStr s, JStr t => String.ltb s t
  | _, _ => num_lt (Number a) (Number b)
  end.

(** [arr.sort(compare)] on any elements: as [Array_sort], the stable sort
    the language asks for. *)
Fixpoint sort_insert_by {A : Type} (compare : A -> A -> number)
    (x : A) (l : list A) : list A :=
  match l with
  | [] => [x]
  | y :: l' =>
      if num_gt (compare x y) (Fin 0) then y :: sort_insert_by compare x l'
      else x :: l
  end.

Definition Array_sort_by {A : Type} (compare : A -> A -> number)
    (l : list A) : list A :=
  fold_right (sort_insert_by compare) [] l.

(** The position an integer argument of [slice] denotes: counted from the
    end when negative, and never outside the array. *)
Definition relative_index (len k : Z) : Z :=
  if k <? 0 then Z.max (len + k) 0 else Z.min k len.

(** [arr.slice(start, end)] *)
Definition Array_slice {A : Type} (l : list A) (start end_ : Z) : list A :=
  let len := Z.of_nat (length l) in
  let from := relative_index len start in
  let to := relative_index len end_ in
  take (Z.to_nat (to - from)) (drop (Z.to_nat from) l).

End JSText.

(** ** DataPreview *)

Module DataPreview.
Section Component.
Context `{Runtime}.

Import JSText.

Inductive direction : Type := asc | desc.

Definition rowsPerPage : Z := 10.

(** [Object.values(row).some((value) =>
      String(value).toLowerCase().includes(searchTerm.toLowerCase()))] *)
Definition matches (searchTerm : string) (r : row) : bool :=
  existsb
    (fun value =>
       includes (toLowerCase (ToString value)) (toLowerCase searchTerm))
    (map snd (map_to_list r)).

(** The comparator of [filtered.sort]. *)
Definition compare (sortColumn : string) (sortDirection : direction)
    (a b : row) : number :=
  let aVal := get a sortColumn in
  let bVal := get b sortColumn in
  if less_than aVal bVal then
    match sortDirection with asc => Fin (-1) | desc => Fin 1 end
  else if less_than bVal aVal then
    match sortDirection with asc => Fin 1 | desc => Fin (-1) end
  else Fin 0.

(** The rows that match the search, sorted [if (sortColumn)]: neither
    without a column ([null]) nor on the column of the empty name. *)
Definition filteredAndSortedRows (rows : list row) (searchTerm : string)
    (sortColumn : option string) (sortDirection : direction) : list row :=
  let filtered := List.filter (matches searchTerm) rows in
  match sortColumn with
  | Some (String _ _ as column) =>
      Array_sort_by (compare column sortDirection) filtered
  | _ => filtered
  end.

(** [Math.ceil(filteredAndSortedRows.length / rowsPerPage)] *)
Definition totalPages (shown : list row) : Z :=
  Qceiling (inject_Z (Z.of_nat (length shown)) / inject_Z rowsPerPage).

(** [filteredAndSortedRows.slice(startIndex, endIndex)] *)
Definition currentRows (shown : list row) (currentPage : Z) : list row :=
  let startIndex := currentPage * rowsPerPage in
  let endIndex := startIndex + rowsPerPage in
  Array_slice shown startIndex endIndex.

(** The state of the component. *)
Record state : Type := {
  currentPage : Z;
  searchTerm : string;
  sortColumn : option string;
  sortDirection : direction
}.

Definition initial : state :=
  {| currentPage := 0;
     searchTerm := "";
     sortColumn := None;
     sortDirection := asc |}.

Definition shown (rows : list row) (st : state) : list row :=
  filteredAndSortedRows rows (searchTerm st) (sortColumn st)
    (sortDirection st).

(** [handleSort] *)
Definition handleSort (st : state) (column : string) : state :=
  if decide (sortColumn st = Some column) then
    {| currentPage := currentPage st;
       searchTerm := searchTerm st;
       sortColumn := sortColumn st;
       sortDirection :=
         match sortDirection st with asc => desc | desc => asc end |}
  else
    {| currentPage := currentPage st;
       searchTerm := searchTerm st;
       sortColumn := Some column;
       sortDirection := asc |}.

(** What the user does: types in the search box, clicks the header of a
    column, clicks Previous or Next. *)
Inductive event : Type :=
  | Search (term : string)
  | Sort (column : string)
  | Previous
  | Next.

(** The handlers. A disabled button does not call its handler: Previous is
    disabled on [currentPage === 0], Next on
    [currentPage >= totalPages - 1]. *)
Definition step (rows : list row) (st : state) (e : event) : state :=
  match e with
  | Search term =>
      {| currentPage := 0;
         searchTerm := term;
         sortColumn := sortColumn st;
         sortDirection := sortDirection st |}
  | Sort column => handleSort st column
  | Previous =>
      if currentPage st =? 0 then st
      else
        {| currentPage := Z.max 0 (currentPage st - 1);
           searchTerm := searchTerm st;
           sortColumn := sortColumn st;
           sortDirection := sortDirection st |}
  | Next =>
      if totalPages (shown rows st) - 1 <=? currentPage st then st
      else
        {| currentPage :=
             Z.min (totalPages (shown rows st) - 1) (currentPage st + 1);
           searchTerm := searchTerm st;
           sortColumn := sortColumn st;
           sortDirection := sortDirection st |}
  end.

(** [typeof row[column] === "number" ? row[column].toFixed(4)
      : String(row[column] ?? "—")] *)
Definition cell (r : row) (column : string) : string :=
  match get r column with
  | JNum n => toFixed n 4
  | v => ToString (nullish v (JStr "—"))
  end.

Record view : Type := {
  view_rows : list (list string);
  view_shown : nat;
  view_records : nat;
  view_page : Z;
  view_pages : Z;
  view_total : nat;
  view_columns : nat
}.

(** The component: a placeholder without [data], [data.rows] or
    [data.columns] ([None]; the guard tests that the fields are there, and
    a field that is there is taken for the array it is declared to be). *)
Definition DataPreview (data : option table) (st : state) : option view :=
  match data with
  | Some {| JS.columns := Some columns; JS.rows := Some rows |} =>
      let all := shown rows st in
      let page := currentRows all (currentPage st) in
      Some {| view_rows := map (fun r => map (cell r) columns) page;
              view_shown := length page;
              view_records := length all;
              view_page := currentPage st + 1;
              view_pages := totalPages all;
              view_total := length rows;
              view_columns := length columns |}
  | _ => None
  end.

End Component.
End DataPreview.

(** ** ClassificationResults: the table of the selected rows *)

Module ResultsTable.
Section Component.
Context `{Runtime}.

Record config : Type := {
  icon : string;
  color : string;
  bg : string;
  border : string;
  description : string
}.

(** [dispositionConfig[key]]. Outside the three keys the lookup gives
    [undefined], or a member of [Object.prototype], which has neither an
    [icon] nor a [color]; nothing can be rendered from either, and [None]
    stands for both. *)
Definition dispositionConfig (key : string) : option config :=
  if String.eqb key "CONFIRMED" then
    Some {| icon := "CheckCircle";
            color := "text-green-400";
            bg := "bg-green-500/20";
            border := "border-green-500/30";
            description := "High confidence exoplanet detections" |}
  else if String.eqb key "CANDIDATE" then
    Some {| icon := "AlertTriangle";
            color := "text-yellow-400";
            bg := "bg-yellow-500/20";
            border := "border-yellow-500/30";
            description :=
              "Potential exoplanets requiring further verification" |}
  else if String.eqb key "FALSE POSITIVE" then
    Some {| icon := "XCircle";
            color := "text-red-400";
            bg := "bg-red-500/20";
            border := "border-red-500/30";
            description :=
              "Non-planetary signals (eclipsing binaries, noise, etc.)" |}
  else None.

(** [v ? v.toFixed(digits) : "—"]: a truthy value that is not a number has
    no [toFixed], and the call throws a TypeError ([None]). *)
Definition fixed_or_dash (v : jsval) (digits : nat) : option string :=
  if truthy v then
    match v with
    | JNum n => Some (toFixed n digits)
    | _ => None
    end
  else Some "—"%string.

(** [(row.Confidence ?? 0) * 100] *)
Definition confidence (r : row) : number :=
  num_mul (Number (nullish (get r "Confidence") (JNum (Fin 0)))) (Fin 100).

Record line : Type := {
  line_name : jsval;
  line_period : string;
  line_radius : string;
  line_teff : string;
  line_config : config;
  line_label : jsval;
  line_bar_width : string;
  line_confidence : string
}.

(** The callback of [filteredRows.slice(0, 20).map((row, i) => ...)]: the
    line of the table for a row, or [None] when making it throws. *)
Definition detail (r : row) (i : nat) : option line :=
  match dispositionConfig (ToString (get r "Predicted_Disposition")) with
  | None => None
  | Some config =>
      match fixed_or_dash (get r "koi_period") 2,
            fixed_or_dash (get r "koi_prad") 2,
            fixed_or_dash (get r "koi_teff") 0 with
      | Some period, Some radius, Some teff =>
          Some {| line_name :=
                    nullish (get r "kepoi_name")
                      (nullish (get r "id")
                         (JStr ("Object-" ++ string_of_Z (Z.of_nat i + 1))%string));
                  line_period := period;
                  line_radius := radius;
                  line_teff := teff;
                  line_config := config;
                  line_label := get r "Predicted_Disposition";
                  line_bar_width := (Number_toString (confidence r) ++ "%")%string;
                  line_confidence := (toFixed (confidence r) 0 ++ "%")%string |}
      | _, _, _ => None
      end
  end.

Record detailed : Type := {
  results : nat;
  lines : list line;
  notice : option string
}.

(** The lower half of the component: the number of results, the lines of
    the first 20 of them and, past 20, the notice below the table. One line
    that throws leaves nothing rendered ([None]). *)
Definition DetailedResults (rows : list row) (selectedDisposition : string)
    : option detailed :=
  let filteredRows :=
    ClassificationResults.filteredRows rows selectedDisposition in
  match mapM id (imap (fun i r => detail r i) (take 20 filteredRows)) with
  | Some ls =>
      Some {| results := length filteredRows;
              lines := ls;
              notice :=
                if (20 <? length filteredRows)%nat
                then Some ("Showing first 20 of "
                           ++ string_of_Z (Z.of_nat (length filteredRows))
                           ++ " results")%string
                else None |}
  | None => None
  end.

End Component.
End ResultsTable.

(** ** FileUpload: the handling of a chosen file *)

Module FileUpload.

(** What a [catch] receives: an [Error] with its message, or another
    value. *)
Inductive thrown : Type :=
  | ErrorWith (message : string)
  | NotAnError.

(** The body of a response, read with [.json()]: the parsed data (an
    object, or [null] as [None]), or the error of the parser. *)
Inductive body : Type :=
  | Json (data : option table)
  | NoJson (t : thrown).

(** How a request ends: [fetch] rejects, or resolves to a response with
    its [ok], its [statusText] and its body. *)
Inductive response : Type :=
  | Rejected (t : thrown)
  | Status (ok : bool) (statusText : string) (b : body).

(** What the handler does to the world around it, in order. *)
Inductive action : Type :=
  | SetError (e : option string)
  | SetLoading (loading : bool)
  | Fetch (url : string)
  | OnUpload (data : option table)
  | ConsoleLog (data : option table)
  | OnClassify (data : option table).

Definition allowed : list string := [".csv"; ".xlsx"; ".xls"]%string.

(** [allowed.some((ext) => file.name.toLowerCase().endsWith(ext))] *)
Definition accepted (name : string) : bool :=
  existsb (fun ext => JSText.endsWith (JSText.toLowerCase name) ext) allowed.

(** [err instanceof Error ? err.message : "Upload failed"] *)
Definition message_of (t : thrown) : string :=
  match t with
  | ErrorWith message => message
  | NotAnError => "Upload failed"
  end.

(** One request of the [try] block: the [fetch], the test of [response.ok]
    and the reading of the body. It gives the data, or what it throws. *)
Definition request (failure : string) (r : response)
    : option table + thrown :=
  match r with
  | Rejected t => inr t
  | Status false statusText _ => inr (ErrorWith (failure ++ statusText))
  | Status true _ (NoJson t) => inr t
  | Status true _ (Json data) => inl data
  end.

Definition preview_url : string := "http://localhost:8000/upload?preview=true".
Definition classify_url : string := "http://localhost:8000/upload?preview=false".

(** [handleFiles]: [file] is the name of [files[0]], if there is one;
    [preview] and [classify] are the ways the two requests end, the
    second one being looked at only when it is sent. *)
Definition handleFiles (file : option string) (preview classify : response)
    : list action :=
  match file with
  | None => []
  | Some name =>
      if negb (accepted name) then
        [SetError (Some "Please upload a CSV or Excel file"%string)]
      else
        [SetError None; SetLoading true]
        ++ (Fetch preview_url ::
            match request "Preview upload failed: " preview with
            | inr t => [SetError (Some (message_of t))]
            | inl previewData =>
                OnUpload previewData :: Fetch classify_url ::
                match request "Classification failed: " classify with
                | inr t => [SetError (Some (message_of t))]
                | inl classifyData =>
                    [ConsoleLog classifyData; OnClassify classifyData]
                end
            end)
        ++ [SetLoading false]
  end.

End FileUpload.

(** ** App: the tabs and the data they show *)

Module App.

Inductive TabType : Type :=
  | upload
  | preview
  | classification
  | visualization
  | exploration.

Record state : Type := {
  activeTab : TabType;
  previewData : option table;
  classificationData : option table;
  loading : bool;
  selectedDisposition : string
}.

Definition initial : state :=
  {| activeTab := upload;
     previewData := None;
     classificationData := None;
     loading := false;
     selectedDisposition := "CONFIRMED" |}.

(** [tab.id !== "upload" && !previewData && !classificationData] *)
Definition disabled (st : state) (tab : TabType) : bool :=
  negb (match tab with upload => true | _ => false end)
  && negb (bool_decide (is_Some (previewData st)))
  && negb (bool_decide (is_Some (classificationData st))).

(** The click on a tab; a disabled button does not call its handler. *)
Definition click (st : state) (tab : TabType) : state :=
  if disabled st tab then st
  else {| activeTab := tab;
          previewData := previewData st;
          classificationData := classificationData st;
          loading := loading st;
          selectedDisposition := selectedDisposition st |}.

(** The props [onUpload], [onClassify] and [setLoading] given to
    FileUpload; its other actions do not reach the state of App. *)
Definition handle (st : state) (a : FileUpload.action) : state :=
  match a with
  | FileUpload.OnUpload data =>
      {| activeTab := preview;
         previewData := data;
         classificationData := classificationData st;
         loading := loading st;
         selectedDisposition := selectedDisposition st |}
  | FileUpload.OnClassify data =>
      {| activeTab := classification;
         previewData := previewData st;
         classificationData := data;
         loading := loading st;
         selectedDisposition := selectedDisposition st |}
  | FileUpload.SetLoading l =>
      {| activeTab := activeTab st;
         previewData := previewData st;
         classificationData := classificationData st;
         loading := l;
         selectedDisposition := selectedDisposition st |}
  | _ => st
  end.

(** The panel under the tabs. *)
Inductive panel : Type :=
  | FileUploadPanel
  | DataPreviewPanel (data : table)
  | ClassificationResultsPanel (data : table) (selectedDisposition : string)
  | PlanetSystem3DPanel (disposition : string) (data : table)
  | DataExplorationPanel (data : table)
  | Nothing.

Definition main (st : state) : panel :=
  match activeTab st with
  | upload => FileUploadPanel
  | preview =>
      match previewData st with
      | Some data => DataPreviewPanel data
      | None => Nothing
      end
  | classification =>
      match classificationData st with
      | Some data => ClassificationResultsPanel data (selectedDisposition st)
      | None => Nothing
      end
  | visualization =>
      match classificationData st with
      | Some data => PlanetSystem3DPanel (selectedDisposition st) data
      | None => Nothing
      end
  | exploration =>
      match classificationData st with
      | Some data => DataExplorationPanel data
      | None => Nothing
      end
  end.

Section Component.
Context `{Runtime}.

(** The cards that can be clicked: those of ClassificationResults, when it
    is the panel shown and has its data. *)
Definition cards_shown (st : state) : list string :=
  match main st with
  | ClassificationResultsPanel data selected =>
      match ClassificationResults.ClassificationResults (Some data) selected
      with
      | Some v =>
          map ClassificationResults.card_disposition
            (ClassificationResults.view_cards v)
      | None => []
      end
  | _ => []
  end.

(** What happens to App: a click on a tab, an action of FileUpload, a click
    on the card [disp] ([setSelectedDisposition(disp)]). *)
Inductive event : Type :=
  | Click (tab : TabType)
  | FromUpload (a : FileUpload.action)
  | Select (disp : string).

Definition step (st : state) (e : event) : state :=
  match e with
  | Click tab => click st tab
  | FromUpload a => handle st a
  | Select disp =>
      if existsb (String.eqb disp) (cards_shown st) then
        {| activeTab := activeTab st;
           previewData := previewData st;
           classificationData := classificationData st;
           loading := loading st;
           selectedDisposition := disp |}
      else st
  end.

End Component.

End App.

(** ** RetrainModel: the hyperparameters and the request *)

Module RetrainModel.

(** The Number an integer is read as: the integer itself up to [2 ^ 53] in
    magnitude; beyond, the nearest binary64 number, which is a multiple of
    a power of 2 with 53 significant bits, the even one on a tie; and an
    infinity when that is [2 ^ 1024] or more. *)
Definition Number_of_integer (n : Z) : number :=
  let a := Z.abs n in
  if a <=? 2 ^ 53 then of_Z n
  else
    let e := Z.log2 a - 52 in
    let q := a / 2 ^ e in
    let r := a mod 2 ^ e in
    let up := ((2 ^ (e - 1) <? r) || ((2 ^ (e - 1) =? r) && Z.odd q))%bool in
    let v := (if up then q + 1 else q) * 2 ^ e in
    if 2 ^ 1024 <=? v then inf_of_sign (Z.sgn n) else of_Z (Z.sgn n * v).

(** [parseInt(s)], without a radix: white space is skipped, then a sign,
    then [0x] or [0X] for base 16, then the longest run of digits; NaN
    when there is no digit, and otherwise the Number of the integer the
    digits denote. *)
Definition parseInt (s : string) : number :=
  let t := trim_left s in
  let '(sign, u) :=
    match t with
    | String "+"%char r => (1, r)
    | String "-"%char r => (-1, r)
    | _ => (1, t)
    end in
  let '(base, v) :=
    match u with
    | String "0"%char (String c r) =>
        if (Ascii.eqb c "x" || Ascii.eqb c "X")%bool then (16, r)
        else (10, u)
    | _ => (10, u)
    end in
  match digits base v 0 0 with
  | (n, S _, _) => Number_of_integer (sign * n)
  | _ => NaN
  end.

Section Component.

(** What the server answers with. *)
Variable payload : Type.

Record state : Type := {
  learningRate : number;
  nEstimators : number;
  maxDepth : number;
  loading : bool;
  result : option payload;
  error : option string
}.

Definition initial : state :=
  {| learningRate := lit 0.05;
     nEstimators := Fin 500;
     maxDepth := Fin 6;
     loading := false;
     result := None;
     error := None |}.

(** A number as [JSON.stringify] writes it: NaN and the infinities become
    [null]. *)
Definition json_number (n : number) : option Q :=
  match n with
  | Fin q => Some q
  | _ => None
  end.

(** The body of the request. *)
Record body : Type := {
  learning_rate : option Q;
  n_estimators : option Q;
  max_depth : option Q;
  threshold : option Q
}.

Definition request_body (st : state) : body :=
  {| learning_rate := json_number (learningRate st);
     n_estimators := json_number (nEstimators st);
     max_depth := json_number (maxDepth st);
     threshold := json_number (lit 0.6) |}.

(** How the request ends: [fetch] rejects, or resolves to a response with
    its [ok], its [statusText] and its body, that [.json()] reads as the
    payload ([None] for [null]) or fails to read. *)
Inductive response : Type :=
  | Rejected (t : FileUpload.thrown)
  | Status (ok : bool) (statusText : string)
      (json : option payload + FileUpload.thrown).

(** [err.message || "Retrain failed"]; what [fetch] and [.json()] reject
    with is an object, so reading its [message] does not throw. *)
Definition message_of (t : FileUpload.thrown) : string :=
  match t with
  | FileUpload.ErrorWith (String c m) => String c m
  | _ => "Retrain failed"
  end.

(** The [try] block: the data, or what is thrown. *)
Definition request (r : response) : option payload + FileUpload.thrown :=
  match r with
  | Rejected t => inr t
  | Status false statusText _ =>
      inr (FileUpload.ErrorWith ("Retrain failed: " ++ statusText))
  | Status true _ json => json
  end.

(** [handleRetrain], from the state it is called in to the state it
    leaves, given how the request ends. *)
Definition handleRetrain (st : state) (r : response) : state :=
  let started :=
    {| learningRate := learningRate st;
       nEstimators := nEstimators st;
       maxDepth := maxDepth st;
       loading := true;
       result := None;
       error := None |} in
  let settled :=
    match request r with
    | inl data =>
        {| learningRate := learningRate started;
           nEstimators := nEstimators started;
           maxDepth := maxDepth started;
           loading := loading started;
           result := data;
           error := error started |}
    | inr t =>
        {| learningRate := learningRate started;
           nEstimators := nEstimators started;
           maxDepth := maxDepth started;
           loading := loading started;
           result := result started;
           error := Some (message_of t) |}
    end in
  {| learningRate := learningRate settled;
     nEstimators := nEstimators settled;
     maxDepth := maxDepth settled;
     loading := false;
     result := result settled;
     error := error settled |}.

(** The three controls: [setLearningRate(parseFloat(e.target.value))],
    [setNEstimators(parseInt(e.target.value))] and
    [setMaxDepth(parseInt(e.target.value))]. *)
Inductive control : Type := LearningRate | NEstimators | MaxDepth.

Definition onChange (st : state) (c : control) (value : string) : state :=
  {| learningRate :=
       match c with
       | LearningRate => parseFloat_string value
       | _ => learningRate st
       end;
     nEstimators :=
       match c with NEstimators => parseInt value | _ => nEstimators st end;
     maxDepth :=
       match c with MaxDepth => parseInt value | _ => maxDepth st end;
     loading := loading st;
     result := result st;
     error := error st |}.

End Component.

End RetrainModel.

(** ** Vocabulary of the properties *)

(** An array of numbers in ascending order. *)
Definition ascending : list number -> Prop :=
  StronglySorted (fun a b => num_le a b = true).

Definition no_nan (l : list number) : Prop :=
  Forall (fun v => isNaN v = false) l.

(** [sum(counts.values())] *)
Definition total_count (counts : gmap string nat) : nat :=
  map_fold (fun _ c acc => (c + acc)%nat) O counts.

(** The rows the three summary cards account for. *)
Definition recognized `{Runtime} (r : row) : bool :=
  let d := ClassificationResults.disposition_of r in
  (String.eqb d "CONFIRMED" || String.eqb d "CANDIDATE"
   || String.eqb d "FALSE POSITIVE")%bool.

(** The three keys are there from the start and none is ever added. *)
Definition same_keys (m : gmap string nat) : Prop :=
  forall k : string,
    is_Some (m !! k) <-> is_Some (ClassificationResults.initial_counts !! k).

(** The body the projection makes of row [r] at index [i] when the draw of
    [Math.random] is [u]. *)
Definition body (disposition : string) (r : row) (i : nat) (u : number)
    : PlanetSystem3D.PlanetProps :=
  fst (PlanetSystem3D.planet disposition r i (fun _ => u)).

(** What a body is apart from its speed. *)
Definition geometry (p : PlanetSystem3D.PlanetProps)
    : number * number * string * jsval :=
  (PlanetSystem3D.orbitalRadius p, PlanetSystem3D.planetRadius p,
   PlanetSystem3D.color p, PlanetSystem3D.name p).

(** A field that holds the number 0. *)
Definition is_zero (v : jsval) : bool :=
  match v with
  | JNum n => num_eq n (Fin 0)
  | _ => false
  end.

(** A field that is null or absent. *)
Definition is_missing (v : jsval) : bool :=
  match v with
  | JUndefined | JNull => true
  | _ => false
  end.



(** The values of a column that are numbers, in row order. *)
Definition numeric_values (rows : list row) (col : string) : list number :=
  List.filter (fun v => negb (isNaN v))
    (map (fun r => parseFloat (get r col)) rows).

(** The summary in the words of the specification: nothing for an empty
    list; otherwise the ends of the sorted list, the arithmetic mean, the
    value at index [floor(n / 2)] and the number of values. *)
Definition spec_columnSummary (sorted : list number)
    : option DataExploration.ColumnStatistic :=
  match length sorted with
  | O => None
  | n =>
      Some {| DataExploration.min := nth 0 sorted NaN;
              DataExploration.max := nth (n - 1) sorted NaN;
              DataExploration.mean :=
                num_div (sum_numbers sorted) (of_nat n);
              DataExploration.median := nth (n / 2) sorted NaN;
              DataExploration.count := n |}
  end.

(** *** Tables for the scenarios *)

Fixpoint strip_zeros (s : string) : string :=
  match s with
  | EmptyString => EmptyString
  | String c s' =>
      match strip_zeros s' with
      | EmptyString =>
          if Ascii.eqb c "0" then EmptyString else String c EmptyString
      | r => String c r
      end
  end.

(** A printer for the scenarios: the plain decimal notation, which is what
    Number::toString prints for an integer below [1e21] and for a short
    decimal fraction; a longer fraction is cut after 17 digits. *)
Definition plain_decimal (q : Q) : string :=
  let i := Qfloor (Qabs q) in
  let f := Qfloor ((Qabs q - inject_Z i) * (10 # 1) ^ 17) in
  let fraction := strip_zeros (pad_zeros 17 (string_of_Z f)) in
  ((if Qle_bool 0 q then "" else "-")
   ++ string_of_Z i
   ++ (match fraction with
       | EmptyString => ""
       | _ => "." ++ fraction
       end))%string.

Definition decimal_runtime : Runtime := {| shortest_decimal := plain_decimal |}.

Definition make_row (cells : list (string * jsval)) : row := list_to_map cells.

Definition make_table (cols : list string) (rs : list row) : option table :=
  Some {| JS.columns := Some cols; JS.rows := Some rs |}.

(** A row that only has a disposition. *)
Definition labelled (disposition : string) : row :=
  make_row [("Predicted_Disposition"%string, JStr disposition)].

(** A CONFIRMED row of the KOI catalogue with a period and a radius. *)
Definition koi (period radius : jsval) : row :=
  make_row [("Predicted_Disposition", JStr "CONFIRMED");
            ("koi_period", period); ("koi_prad", radius)]%string.

(** A row of a normalized table: the period under both names. *)
Definition with_period (period : Q) : row :=
  make_row [("koi_period", JNum (lit period));
            ("period", JNum (lit period))]%string.

(** The keys of the summary cards. *)
Definition card_keys : list string :=
  ["CONFIRMED"; "CANDIDATE"; "FALSE POSITIVE"]%string.

(** A radius that is given and is not a number. *)
Definition radius_not_numeric (r : row) : bool :=
  truthy (PlanetSystem3D.prad r) && isNaN (Number (PlanetSystem3D.prad r)).

(** A period that is given and is not a number, or is a negative number. *)
Definition period_out_of_domain (r : row) : bool :=
  truthy (PlanetSystem3D.period r)
  && (isNaN (Number (PlanetSystem3D.period r))
      || (isFinite (Number (PlanetSystem3D.period r))
          && num_lt (Number (PlanetSystem3D.period r)) (Fin 0))).

(** A draw of [Math.random]: a number of [[0, 1)]. *)
Definition unit_draw (u : number) : Prop :=
  exists q, u = Fin q /\ (0 <= q < 1)%Q.

(** What holds of a bar that stays inside the plot area: its height is
    between 0 and the height of the plot, its top between the top and the
    bottom of the plot, its opacity between 0.4 and 1, and it starts and
    ends between the left and the right edge. *)
Definition bar_within_plot (b : HistogramBars.bar) : Prop :=
  num_le (Fin 0) (HistogramBars.bar_height b) = true
  /\ num_le (HistogramBars.bar_height b) DataExploration.plot_height = true
  /\ num_le DataExploration.plot_top (HistogramBars.bar_y b) = true
  /\ num_le (HistogramBars.bar_y b) DataExploration.plot_bottom = true
  /\ num_le (lit 0.4) (HistogramBars.alpha b) = true
  /\ num_le (HistogramBars.alpha b) (Fin 1) = true
  /\ num_le DataExploration.plot_left (HistogramBars.bar_x b) = true
  /\ num_le (num_add (HistogramBars.bar_x b) (HistogramBars.barW b))
       (num_add DataExploration.plot_left DataExploration.plot_width) = true.

(** A bar as tall as the plot. *)
Definition bar_reaches_top (b : HistogramBars.bar) : Prop :=
  HistogramBars.bar_height b = DataExploration.plot_height
  /\ HistogramBars.bar_y b = DataExploration.plot_top.

(** The page the preview is on is one of its pages, or the first one when
    there is none. *)
Definition page_in_range `{Runtime} (rows : list row)
    (st : DataPreview.state) : Prop :=
  (0 <= DataPreview.currentPage st)%Z
  /\ (DataPreview.currentPage st = 0%Z
      \/ (DataPreview.currentPage st
          < DataPreview.totalPages (DataPreview.shown rows st))%Z).

(** The state of the preview after a sequence of events. *)
Definition preview_after `{Runtime} (rows : list row)
    (events : list DataPreview.event) : DataPreview.state :=
  fold_left (DataPreview.step rows) events DataPreview.initial.

(** The rows are in the order of column [column]: ascending, or
    descending. *)
Definition in_order (column : string) (d : DataPreview.direction)
    (l : list row) : Prop :=
  StronglySorted
    (fun a b =>
       match d with
       | DataPreview.asc =>
           num_le (Number (get a column)) (Number (get b column))
       | DataPreview.desc =>
           num_le (Number (get b column)) (Number (get a column))
       end = true) l.

(** A cell the detail table can print with [toFixed]: a number, or a value
    that counts as missing. *)
Definition printable (v : jsval) : Prop :=
  truthy v = false \/ exists n, v = JNum n.

(** A row the detail table can draw when [selected] is the selection: its
    disposition reads [selected] letter for letter, and its period, radius
    and temperature are printable. *)
Definition drawable `{Runtime} (selected : string) (r : row) : Prop :=
  ToString (get r "Predicted_Disposition") = selected
  /\ printable (get r "koi_period")
  /\ printable (get r "koi_prad")
  /\ printable (get r "koi_teff").

(** *** More tables for the scenarios *)

(** Two confirmed planets of the KOI catalogue. *)
Definition catalogue : option table :=
  make_table ["Predicted_Disposition"; "koi_period"; "koi_prad"]%string
    [koi (JNum (Fin 1)) (JNum (Fin 1)); koi (JNum (Fin 8)) (JNum (Fin 4))].

(** A normalized table with the periods 3, 5 and 4. *)
Definition three_periods : list row :=
  [with_period 3; with_period 5; with_period 4].

(** A row of a normalized table with a period and a radius. *)
Definition point (period radius : Q) : row :=
  make_row [("period", JNum (lit period));
            ("radius", JNum (lit radius))]%string.

(** Three classified rows and a row without a label. *)
Definition classified : option table :=
  make_table ["Predicted_Disposition"]%string
    [labelled "CONFIRMED"; labelled "candidate"; labelled "CONFIRMED";
     make_row []].

(** The field of the request that a control of RetrainModel feeds. *)
Definition field_of {payload : Type} (c : RetrainModel.control)
    (st : RetrainModel.state payload) : option Q :=
  match c with
  | RetrainModel.LearningRate =>
      RetrainModel.learning_rate (RetrainModel.request_body payload st)
  | RetrainModel.NEstimators =>
      RetrainModel.n_estimators (RetrainModel.request_body payload st)
  | RetrainModel.MaxDepth =>
      RetrainModel.max_depth (RetrainModel.request_body payload st)
  end.

(** A bar of the histogram of 25 bins that is within the plot, from the
    bottom line up. *)
Definition bar25_within_plot (b : DataExploration25.bar) : Prop :=
  num_le (Fin 0) (DataExploration25.bar_height b) = true
  /\ num_le (DataExploration25.bar_height b) (Fin 180) = true
  /\ num_le (Fin 30) (DataExploration25.bar_y b) = true
  /\ num_le (DataExploration25.bar_y b) (Fin 210) = true.

(** The names of the columns that [stats] summarizes. *)
Definition summarized : list string :=
  ["koi_period"; "pl_orbper"; "koi_prad"; "pl_rade"; "koi_depth"; "koi_teff";
   "st_teff"; "pl_trandep"]%string.

(** A table with the one column [col], holding the given values in row
    order. *)
Definition column_of (col : string) (values : list Q) : option table :=
  make_table [col] (map (fun v => make_row [(col, JNum (lit v))]) values).

(** * Properties *)

(** ** Facts on numbers *)

Section NumberFacts.

Local Open Scope Q_scope.

Lemma Qle_bool_false (x y : Q) : Qle_bool x y = false <-> y < x.
Proof.
  split; intros E.
  - apply Qnot_le_lt. intros L. apply Qle_bool_iff in L. congruence.
  - destruct (Qle_bool x y) eqn:B; [|reflexivity].
    apply Qle_bool_iff in B. lra.
Qed.

Lemma Qeq_bool_false (x y : Q) : Qeq_bool x y = false <-> ~ x == y.
Proof.
  split; intros E.
  - intros L. apply Qeq_bool_iff in L. congruence.
  - destruct (Qeq_bool x y) eqn:B; [|reflexivity].
    apply Qeq_bool_iff in B. tauto.
Qed.

Lemma Qle_bool_red_l (x y : Q) : Qle_bool (Qred x) y = Qle_bool x y.
Proof.
  apply eq_true_iff_eq. rewrite !Qle_bool_iff, Qred_correct. reflexivity.
Qed.

Lemma Qle_bool_red_r (x y : Q) : Qle_bool x (Qred y) = Qle_bool x y.
Proof.
  apply eq_true_iff_eq. rewrite !Qle_bool_iff, Qred_correct. reflexivity.
Qed.

Lemma Qeq_bool_red_l (x y : Q) : Qeq_bool (Qred x) y = Qeq_bool x y.
Proof.
  apply eq_true_iff_eq. rewrite !Qeq_bool_iff, Qred_correct. reflexivity.
Qed.

(** Equal rationals have the same literal. *)
Lemma lit_eq (x y : Q) : x == y -> lit x = lit y.
Proof. intros E. unfold lit. f_equal. now apply Qred_complete. Qed.

Lemma num_le_fin (x y : Q) : num_le (Fin x) (Fin y) = true <-> x <= y.
Proof. apply Qle_bool_iff. Qed.

Lemma num_lt_fin (x y : Q) : num_lt (Fin x) (Fin y) = true <-> x < y.
Proof.
  simpl. rewrite Bool.negb_true_iff. apply Qle_bool_false.
Qed.

Lemma num_le_lit (x y : Q) : num_le (lit x) (lit y) = true <-> x <= y.
Proof.
  unfold lit. rewrite num_le_fin, !Qred_correct. reflexivity.
Qed.

(** The comparator [(a, b) => a - b] orders as [<] does. *)
Lemma compare_sub (x y : number) :
  num_gt (num_sub x y) (Fin 0) = num_lt y x.
Proof.
  destruct x as [| | |x], y as [| | |y]; try reflexivity.
  unfold num_gt, num_sub, lit. cbn [num_lt]. f_equal.
  rewrite Qle_bool_red_l.
  apply eq_true_iff_eq. rewrite !Qle_bool_iff. split; intros; lra.
Qed.

Lemma num_le_refl (x : number) : isNaN x = false -> num_le x x = true.
Proof.
  destruct x; try reflexivity; try discriminate.
  intros _. apply num_le_fin. lra.
Qed.

Lemma num_le_trans (x y z : number) :
  num_le x y = true -> num_le y z = true -> num_le x z = true.
Proof.
  destruct x as [| | |x], y as [| | |y], z as [| | |z];
    try reflexivity; try discriminate.
  rewrite !num_le_fin. intros; lra.
Qed.

(** On numbers that are not NaN the order is total. *)
Lemma num_lt_false (x y : number) :
  isNaN x = false -> isNaN y = false ->
  num_lt y x = false -> num_le x y = true.
Proof.
  destruct x as [| | |x], y as [| | |y];
    try reflexivity; try discriminate.
  intros _ _. cbn [num_lt]. rewrite Bool.negb_false_iff, num_le_fin.
  now rewrite Qle_bool_iff.
Qed.

Lemma num_lt_le (x y : number) : num_lt x y = true -> num_le x y = true.
Proof.
  destruct x as [| | |x], y as [| | |y];
    try reflexivity; try discriminate.
  rewrite num_lt_fin, num_le_fin. intros; lra.
Qed.

Lemma num_le_not_nan (x y : number) :
  num_le x y = true -> isNaN x = false /\ isNaN y = false.
Proof. destruct x, y; try discriminate; auto. Qed.

End NumberFacts.

(** ** Facts on sorting *)

Section SortFacts.

Lemma sort_insert_perm (x : number) (l : list number) :
  Permutation (x :: l) (sort_insert num_sub x l).
Proof.
  induction l as [|y l IH]; cbn [sort_insert]; [reflexivity|].
  destruct (num_gt (num_sub x y) (Fin 0)); [|reflexivity].
  rewrite perm_swap. now apply perm_skip.
Qed.

Lemma Array_sort_perm (l : list number) :
  Permutation l (Array_sort num_sub l).
Proof.
  induction l as [|x l IH]; cbn [Array_sort fold_right]; [reflexivity|].
  rewrite <- sort_insert_perm. now apply perm_skip.
Qed.

Lemma sort_insert_ascending (x : number) (l : list number) :
  isNaN x = false -> no_nan l -> ascending l ->
  ascending (sort_insert num_sub x l).
Proof.
  intros Hx Hl Hs. induction Hs as [|y l Hs IH Hy]; cbn [sort_insert].
  - repeat constructor.
  - apply Forall_cons_iff in Hl as [Hny Hl].
    rewrite compare_sub. destruct (num_lt y x) eqn:E.
    + constructor; [now apply IH|].
      rewrite <- (sort_insert_perm x l). constructor; [|exact Hy].
      now apply num_lt_le.
    + assert (L : num_le x y = true) by now apply num_lt_false.
      constructor; [now constructor|].
      constructor; [exact L|].
      eapply Forall_impl; [exact Hy|]. intros z Hz. simpl in Hz.
      now apply num_le_trans with y.
Qed.

Lemma Array_sort_no_nan (l : list number) :
  no_nan l -> no_nan (Array_sort num_sub l).
Proof.
  intros Hl. unfold no_nan. now rewrite <- (Array_sort_perm l).
Qed.

Lemma Array_sort_ascending (l : list number) :
  no_nan l -> ascending (Array_sort num_sub l).
Proof.
  induction 1 as [|x l Hx Hl IH]; cbn [Array_sort fold_right]; [constructor|].
  apply sort_insert_ascending; auto. now apply Array_sort_no_nan.
Qed.


(** The first element of an ascending list is a lower bound, the last one an
    upper bound. *)
Lemma ascending_first (a : number) (l : list number) :
  no_nan (a :: l) -> ascending (a :: l) ->
  Forall (fun v => num_le a v = true) (a :: l).
Proof.
  intros Hn Hs. inversion Hs; subst. constructor; [|assumption].
  apply num_le_refl. now inversion Hn.
Qed.

Lemma ascending_last (l : list number) (d : number) :
  no_nan l -> ascending l ->
  Forall (fun v => num_le v (List.last l d) = true) l.
Proof.
  intros Hn Hs. induction Hs as [|a l Hs IH Ha]; [constructor|].
  apply Forall_cons_iff in Hn as [Hna Hn]. specialize (IH Hn).
  destruct l as [|b l].
  - repeat constructor. now apply num_le_refl.
  - change (List.last (a :: b :: l) d) with (List.last (b :: l) d).
    constructor; [|exact IH].
    apply Forall_cons_iff in IH as [Hb _].
    apply Forall_cons_iff in Ha as [Hab _].
    now apply num_le_trans with b.
Qed.

Lemma last_In (l : list number) (d : number) : l <> [] -> In (List.last l d) l.
Proof.
  induction l as [|a l IH]; [congruence|]. intros _.
  destruct l as [|b l]; [now left|].
  right. apply IH. congruence.
Qed.

End SortFacts.

(** ** ClassificationResults *)

Section ClassificationFacts.
Context `{Runtime}.

Lemma total_count_insert (m : gmap string nat) (k : string) (n : nat) :
  m !! k = None -> total_count (<[k := n]> m) = (n + total_count m)%nat.
Proof.
  intros Hk. unfold total_count.
  apply (map_fold_insert_L (fun _ c acc => (c + acc)%nat)); [|exact Hk].
  intros; lia.
Qed.

Lemma total_count_replace (m : gmap string nat) (k : string) (n n' : nat) :
  m !! k = Some n ->
  (total_count (<[k := n']> m) + n = total_count m + n')%nat.
Proof.
  intros Hk. rewrite <- (insert_delete_eq m k n').
  rewrite <- (insert_delete_id m k n Hk) at 2.
  rewrite !total_count_insert by apply lookup_delete_eq. lia.
Qed.

Lemma total_count_initial :
  total_count ClassificationResults.initial_counts = O.
Proof.
  unfold ClassificationResults.initial_counts.
  rewrite !total_count_insert; [reflexivity|reflexivity..].
Qed.

Lemma count_row_keys (m : gmap string nat) (r : row) :
  same_keys m -> same_keys (ClassificationResults.count_row m r).
Proof.
  intros Hm k. unfold ClassificationResults.count_row.
  destruct (m !! ClassificationResults.disposition_of r) as [n|] eqn:E;
    [|apply Hm].
  rewrite lookup_insert_is_Some'. rewrite <- (Hm k). split; [|tauto].
  intros [<-|Hk]; [rewrite E; eauto|exact Hk].
Qed.

Lemma initial_counts_recognized (r : row) :
  is_Some (ClassificationResults.initial_counts
             !! ClassificationResults.disposition_of r)
  <-> recognized r = true.
Proof.
  unfold recognized, ClassificationResults.initial_counts.
  set (d := ClassificationResults.disposition_of r).
  rewrite !lookup_insert_is_Some', lookup_empty, !Bool.orb_true_iff,
    !String.eqb_eq.
  split.
  - intros [E|[E|[E|[? E]]]]; [auto..|discriminate].
  - intros [[E|E]|E]; auto.
Qed.

Lemma count_row_total (m : gmap string nat) (r : row) :
  same_keys m ->
  total_count (ClassificationResults.count_row m r)
  = (total_count m + if recognized r then 1 else 0)%nat.
Proof.
  intros Hm. unfold ClassificationResults.count_row.
  pose proof (initial_counts_recognized r) as Hr.
  rewrite <- (Hm (ClassificationResults.disposition_of r)) in Hr.
  destruct (m !! ClassificationResults.disposition_of r) as [n|] eqn:E.
  - rewrite (proj1 Hr) by eauto.
    pose proof (total_count_replace m _ n (S n) E). lia.
  - destruct (recognized r); [|lia].
    destruct (proj2 Hr eq_refl); discriminate.
Qed.

Lemma fold_count_row_total (rows : list row) (m : gmap string nat) :
  same_keys m ->
  total_count (fold_left ClassificationResults.count_row rows m)
  = (total_count m + length (List.filter recognized rows))%nat.
Proof.
  revert m. induction rows as [|r rows IH]; intros m Hm; cbn [fold_left].
  - simpl. lia.
  - rewrite IH by now apply count_row_keys.
    rewrite count_row_total by exact Hm.
    cbn [List.filter]. destruct (recognized r); simpl; lia.
Qed.

Lemma filter_length_le {A : Type} (f : A -> bool) (l : list A) :
  (length (List.filter f l) <= length l)%nat.
Proof.
  induction l as [|a l IH]; simpl; [lia|]. destruct (f a); simpl; lia.
Qed.

Lemma fold_count_disposition_total (rows : list row)
    (acc : gmap string nat) :
  total_count (fold_left DataExploration.count_disposition rows acc)
  = (total_count acc + length rows)%nat.
Proof.
  revert acc. induction rows as [|r rows IH]; intros acc; cbn [fold_left].
  - simpl. lia.
  - rewrite IH. unfold DataExploration.count_disposition.
    destruct (acc !! DataExploration.disposition_key r) as [n|] eqn:E; simpl.
    + pose proof (total_count_replace acc _ n (n + 1) E). lia.
    + rewrite total_count_insert by exact E. lia.
Qed.

(** C1, as the code has it: the three cards of ClassificationResults count
    the rows whose upper-cased disposition is CONFIRMED, CANDIDATE or
    FALSE POSITIVE and no other row, so their counts sum to the number of
    those rows, which is at most the number of rows; the tally of
    DataExploration, which files every row under its own key (UNKNOWN for a
    missing one), sums to the number of rows. *)
Theorem dispositionCounts_total (cols : option (list string))
    (rows : list row) :
  total_count (ClassificationResults.dispositionCounts rows)
  = length (List.filter recognized rows)
  /\ (total_count (ClassificationResults.dispositionCounts rows)
      <= length rows)%nat
  /\ total_count
       (DataExploration.dispositions
          (DataExploration.stats
             (Some {| JS.columns := cols; JS.rows := Some rows |})))
     = length rows.
Proof.
  assert (E : total_count (ClassificationResults.dispositionCounts rows)
              = length (List.filter recognized rows)).
  { unfold ClassificationResults.dispositionCounts.
    rewrite fold_count_row_total by (intros k; reflexivity).
    now rewrite total_count_initial. }
  split; [exact E|]. split.
  - rewrite E. apply filter_length_le.
  - cbn [DataExploration.stats DataExploration.dispositions].
    rewrite fold_count_disposition_total. reflexivity.
Qed.

(** On a table with rows the percentage is [count / rows * 100]. *)
Lemma percentage_value_rows (count : nat) (r : row) (rows : list row) :
  ClassificationResults.percentage_value count (r :: rows)
  = lit ((Z.of_nat count # 1)
         / (Z.of_nat (length (r :: rows)) # 1) * 100)%Q.
Proof.
  unfold ClassificationResults.percentage_value, of_nat, of_Z, num_div.
  replace (Qeq_bool (Z.of_nat (length (r :: rows)) # 1) 0) with false.
  - unfold num_mul, lit at 1. apply lit_eq. now rewrite Qred_correct.
  - symmetry. apply Qeq_bool_false. unfold Qeq. cbn. lia.
Qed.

(** C3: the percentage of a card is [count / rows * 100] printed with one
    decimal, with nothing in front of the division: on a table without rows
    it is [0 / 0], and each of the three cards shows NaN where the
    specification wants 0. *)
Theorem percentage_of_no_rows (cols : list string) (selected : string) :
  ClassificationResults.percentage_value 0 [] = NaN
  /\ ClassificationResults.percentage 0 [] = "NaN"%string
  /\ ClassificationResults.view_cards
       <$> ClassificationResults.ClassificationResults
             (Some {| JS.columns := Some cols; JS.rows := Some [] |}) selected
     = Some
         [{| ClassificationResults.card_disposition := "CONFIRMED"%string;
             ClassificationResults.card_count := 0;
             ClassificationResults.card_percentage := "NaN"%string |};
          {| ClassificationResults.card_disposition := "CANDIDATE"%string;
             ClassificationResults.card_count := 0;
             ClassificationResults.card_percentage := "NaN"%string |};
          {| ClassificationResults.card_disposition := "FALSE POSITIVE"%string;
             ClassificationResults.card_count := 0;
             ClassificationResults.card_percentage := "NaN"%string |}].
Proof. repeat split. Qed.

End ClassificationFacts.

(** ** PlanetSystem3D *)

Section RootFacts.

Local Open Scope Z_scope.

Lemma iroot_bits_spec (d : positive) (m : Z) (bits : nat) (r : Z) :
  0 <= r -> r ^ Z.pos d <= m < (r + 2 ^ Z.of_nat bits) ^ Z.pos d ->
  0 <= iroot_bits d m bits r
  /\ iroot_bits d m bits r ^ Z.pos d <= m
     < (iroot_bits d m bits r + 1) ^ Z.pos d.
Proof.
  revert r. induction bits as [|b IH]; intros r Hr Hm.
  - exact (conj Hr Hm).
  - cbn [iroot_bits].
    assert (E : 2 ^ Z.of_nat (S b) = 2 ^ Z.of_nat b + 2 ^ Z.of_nat b).
    { rewrite Nat2Z.inj_succ, Z.pow_succ_r by lia. lia. }
    assert (0 < 2 ^ Z.of_nat b) by (apply Z.pow_pos_nonneg; lia).
    rewrite E in Hm.
    destruct (Z.leb_spec ((r + 2 ^ Z.of_nat b) ^ Z.pos d) m) as [L|L].
    + apply IH; [lia|]. split; [exact L|].
      now rewrite <- Z.add_assoc.
    + apply IH; [lia|]. split; [tauto|exact L].
Qed.

Lemma iroot_spec (d : positive) (m : Z) :
  0 <= m ->
  0 <= iroot d m /\ iroot d m ^ Z.pos d <= m < (iroot d m + 1) ^ Z.pos d.
Proof.
  intros Hm. apply iroot_bits_spec; [lia|].
  rewrite Z.add_0_l, Z.pow_0_l by lia. split; [exact Hm|].
  rewrite Z2Nat.id by (pose proof (Z.log2_nonneg m); lia).
  assert (B : m < 2 ^ (Z.log2 m + 1)).
  { destruct (Z.eq_dec m 0) as [->|]; [reflexivity|].
    apply Z.log2_spec. lia. }
  eapply Z.lt_le_trans; [exact B|].
  rewrite <- (Z.pow_1_r (2 ^ (Z.log2 m + 1))) at 1.
  apply Z.pow_le_mono_r; [|lia].
  apply Z.pow_pos_nonneg; [lia|]. pose proof (Z.log2_nonneg m); lia.
Qed.

Lemma iroot_mono (d : positive) (m1 m2 : Z) :
  0 <= m1 <= m2 -> iroot d m1 <= iroot d m2.
Proof.
  intros Hm.
  destruct (iroot_spec d m1) as (P1 & L1 & _); [lia|].
  destruct (iroot_spec d m2) as (P2 & _ & U2); [lia|].
  destruct (Z_le_gt_dec (iroot d m1) (iroot d m2)) as [L|G]; [exact L|].
  assert ((iroot d m2 + 1) ^ Z.pos d <= iroot d m1 ^ Z.pos d)
    by (apply Z.pow_le_mono_l; lia).
  lia.
Qed.

(** Flooring a quotient keeps the order of the fractions. *)
Lemma div_le_cross (a b c e : Z) :
  0 < b -> 0 < e -> a * e <= c * b -> a / b <= c / e.
Proof.
  intros Hb He Hx. apply Z.div_le_lower_bound; [exact He|].
  pose proof (Z.mul_div_le a b Hb).
  apply Z.mul_le_mono_pos_l with b; [exact Hb|]. nia.
Qed.

End RootFacts.

Section PowFacts.

Local Open Scope Q_scope.

Lemma Math_pow_03 (a : number) :
  Math_pow a (lit 0.3)
  = match a with
    | NaN => NaN
    | PInf | NInf => PInf
    | Fin x => pow_fin x 3 10
    end.
Proof. destruct a; reflexivity. Qed.

Lemma on_grid_le (z1 z2 : Z) :
  (z1 <= z2)%Z -> num_le (on_grid z1) (on_grid z2) = true.
Proof.
  intros Hz. unfold on_grid. apply num_le_lit.
  unfold Qle. cbn [Qnum Qden]. nia.
Qed.

(** [x ^ 0.3] is non-decreasing on the positive numbers. *)
Lemma pow_fin_mono (x y : Q) :
  0 < x -> x <= y -> num_le (pow_fin x 3 10) (pow_fin y 3 10) = true.
Proof.
  intros Hx Hxy. unfold pow_fin.
  destruct x as [nx dx], y as [ny dy]; unfold Qlt, Qle in *;
    cbn [Qnum Qden] in *.
  destruct nx as [|px|px]; try lia. destruct ny as [|py|py]; try lia.
  unfold pow_pos. cbn [Qnum Qden]. apply on_grid_le, iroot_mono.
  set (G := (grid ^ 10)%Z). assert (0 < G)%Z by reflexivity.
  clearbody G.
  assert (Hc : (Z.pos px ^ 3 * Z.pos dy ^ 3 <= Z.pos py ^ 3 * Z.pos dx ^ 3)%Z).
  { rewrite <- !Z.pow_mul_l. apply Z.pow_le_mono_l. lia. }
  split.
  - apply Z.div_pos; [|lia]. apply Z.mul_nonneg_nonneg; lia.
  - apply div_le_cross; try lia. nia.
Qed.

Lemma pow_fin_finite (x : Q) :
  0 < x -> exists q, pow_fin x 3 10 = Fin q.
Proof.
  intros Hx. unfold pow_fin. destruct x as [nx dx]; unfold Qlt in Hx;
    cbn [Qnum Qden] in *.
  destruct nx; try lia. unfold pow_pos, on_grid, lit. eauto.
Qed.

Lemma num_add_le_l (a x y : Q) :
  num_le (Fin x) (Fin y) = true ->
  num_le (num_add (lit a) (Fin x)) (num_add (lit a) (Fin y)) = true.
Proof.
  rewrite num_le_fin. intros L. unfold num_add, lit at 1 3.
  apply num_le_lit. rewrite !Qred_correct. lra.
Qed.

(** A value whose number is positive is truthy. *)
Lemma Number_pos_truthy (v : jsval) :
  num_lt (Fin 0) (Number v) = true -> truthy v = true.
Proof.
  destruct v as [| |[|]|n|s]; try discriminate; try reflexivity.
  - destruct n as [| | |q]; try discriminate; try reflexivity.
    cbn [Number truthy num_truthy]. rewrite num_lt_fin.
    intros L. apply Bool.negb_true_iff, Qeq_bool_false. lra.
  - destruct s; [discriminate|reflexivity].
Qed.

End PowFacts.

Section ProjectionFacts.
Context `{Runtime}.

(** The i-th row of the slice gets the i-th draw. *)
Lemma map_planets_imap (disposition : string) (rs : list row) (i : nat)
    (g : RNG) :
  fst (PlanetSystem3D.map_planets disposition rs i g)
  = imap (fun k r => body disposition r (i + k) (g k)) rs.
Proof.
  revert i g. induction rs as [|r rs IH]; intros i g; [reflexivity|].
  cbn [PlanetSystem3D.map_planets].
  destruct (PlanetSystem3D.planet disposition r i g) as [p g1] eqn:Ep.
  specialize (IH (S i) g1).
  destruct (PlanetSystem3D.map_planets disposition rs (S i) g1) as [ps g2].
  cbn [fst] in *. rewrite imap_cons. f_equal.
  - unfold PlanetSystem3D.planet, Math_random in Ep.
    injection Ep as <- _. unfold body, PlanetSystem3D.planet, Math_random.
    cbn [fst]. now rewrite Nat.add_0_r.
  - rewrite IH. apply imap_ext. intros k r' _. cbn.
    unfold PlanetSystem3D.planet, Math_random in Ep.
    injection Ep as _ <-. now rewrite Nat.add_succ_r.
Qed.

Lemma systemConfig_planets (data : option table) (disposition : string)
    (g : RNG) :
  PlanetSystem3D.planets (fst (PlanetSystem3D.systemConfig data disposition g))
  = imap (fun i r => body disposition r i (g i))
      (take 8 (PlanetSystem3D.filtered data disposition)).
Proof.
  unfold PlanetSystem3D.systemConfig.
  pose proof (map_planets_imap disposition
                (take 8 (PlanetSystem3D.filtered data disposition)) O g) as E.
  destruct (PlanetSystem3D.map_planets disposition
              (take 8 (PlanetSystem3D.filtered data disposition)) O g)
    as [ps g'].
  cbn [fst PlanetSystem3D.planets] in *. exact E.
Qed.

Lemma systemConfig_lookup (data : option table) (disposition : string)
    (g : RNG) (i : nat) :
  PlanetSystem3D.planets (fst (PlanetSystem3D.systemConfig data disposition g))
    !! i
  = (fun r => body disposition r i (g i))
      <$> take 8 (PlanetSystem3D.filtered data disposition) !! i.
Proof. rewrite systemConfig_planets. apply list_lookup_imap. Qed.

Lemma imap_seq_const {A B : Type} (h : nat -> B) (l : list A) :
  imap (fun k _ => h k) l = map h (seq 0 (length l)).
Proof.
  revert h. induction l as [|a l IH]; intros h; [reflexivity|].
  rewrite imap_cons. cbn [length seq map]. f_equal.
  rewrite <- seq_shift, map_map. apply (IH (fun k => h (S k))).
Qed.

Lemma list_fmap_imap_map {A B C : Type} (f : nat -> A -> B) (h : B -> C)
    (l : list A) :
  imap (fun k a => h (f k a)) l = map h (imap f l).
Proof. symmetry. apply (fmap_imap f h). Qed.

(** A draw of [Math.random] is in [[0, 1)], so a speed is in [[0.25, 0.95)]. *)
Lemma speed_of_range (u : Q) :
  (0 <= u < 1)%Q ->
  num_le (lit 0.25) (PlanetSystem3D.speed_of (Fin u)) = true
  /\ num_lt (PlanetSystem3D.speed_of (Fin u)) (lit 0.95) = true.
Proof.
  intros Hu. unfold PlanetSystem3D.speed_of, num_mul, num_add, lit at 3 4 6 7.
  split.
  - apply num_le_lit. rewrite !Qred_correct. lra.
  - unfold lit. apply num_lt_fin. rewrite !Qred_correct. lra.
Qed.

(** C2, as the code has it: the speed of the i-th body is
    [0.25 + u * 0.7] for the i-th draw [u] that [Math.random] returns during
    the invocation, so two invocations on the same input give the same
    speeds whenever the runtime returns them the same draws; the code has
    neither a seed nor a key of the row to make it so. The orbital radius,
    the body radius, the colour and the name do not depend on the draws. *)
Theorem speed_follows_the_draws (data : option table) (disposition : string)
    (g g' : RNG) :
  let bodies g :=
    PlanetSystem3D.planets
      (fst (PlanetSystem3D.systemConfig data disposition g)) in
  map PlanetSystem3D.speed (bodies g)
  = map (fun i => PlanetSystem3D.speed_of (g i)) (seq 0 (length (bodies g)))
  /\ length (bodies g) = length (bodies g')
  /\ map geometry (bodies g) = map geometry (bodies g')
  /\ ((forall i, (i < length (bodies g))%nat -> g i = g' i) ->
      bodies g = bodies g').
Proof.
  cbv beta zeta. rewrite !systemConfig_planets, !length_imap.
  generalize (take 8 (PlanetSystem3D.filtered data disposition)).
  intros rs. split; [|split; [reflexivity|split]].
  - rewrite <- imap_seq_const. rewrite <- list_fmap_imap_map.
    apply imap_ext. reflexivity.
  - rewrite <- !list_fmap_imap_map. apply imap_ext. reflexivity.
  - intros G. apply imap_ext. intros i r Hr.
    apply lookup_lt_Some in Hr. unfold body. cbn beta.
    unfold PlanetSystem3D.planet, Math_random.
    cbn [fst]. now rewrite (G i Hr).
Qed.

Lemma orbitalRadius_of_mono (rA rB : row) (i j : nat) :
  num_lt (Fin 0) (Number (PlanetSystem3D.period rA)) = true ->
  num_lt (Number (PlanetSystem3D.period rA))
         (Number (PlanetSystem3D.period rB)) = true ->
  num_le (PlanetSystem3D.orbitalRadius_of rA i)
         (PlanetSystem3D.orbitalRadius_of rB j) = true.
Proof.
  intros HA HAB. unfold PlanetSystem3D.orbitalRadius_of.
  rewrite (Number_pos_truthy _ HA).
  assert (HB : num_lt (Fin 0) (Number (PlanetSystem3D.period rB)) = true).
  { destruct (Number (PlanetSystem3D.period rA)) as [| | |x],
      (Number (PlanetSystem3D.period rB)) as [| | |y];
      try discriminate; try reflexivity.
    rewrite num_lt_fin in *. lra. }
  rewrite (Number_pos_truthy _ HB), !Math_pow_03.
  destruct (Number (PlanetSystem3D.period rA)) as [| | |x]; try discriminate.
  - destruct (Number (PlanetSystem3D.period rB)); discriminate.
  - apply num_lt_fin in HA.
    destruct (pow_fin_finite x HA) as [qx Ex].
    destruct (Number (PlanetSystem3D.period rB)) as [| | |y];
      try discriminate.
    + rewrite Ex. reflexivity.
    + apply num_lt_fin in HAB, HB.
      destruct (pow_fin_finite y HB) as [qy Ey].
      pose proof (pow_fin_mono x y HA) as M. rewrite Ex, Ey in *.
      apply num_add_le_l, M. lra.
Qed.

(** C9, as the code has it: for two rows of the slice whose periods are
    positive numbers with [periodA < periodB], the orbital radius of the body
    of row A is at most that of the body of row B. (A period of 0 takes the
    index-based radius, and a negative one has no radius.) *)
Theorem orbitalRadius_monotone (data : option table) (disposition : string)
    (g : RNG) (i j : nat) (rA rB : row) :
  take 8 (PlanetSystem3D.filtered data disposition) !! i = Some rA ->
  take 8 (PlanetSystem3D.filtered data disposition) !! j = Some rB ->
  num_lt (Fin 0) (Number (PlanetSystem3D.period rA)) = true ->
  num_lt (Number (PlanetSystem3D.period rA))
         (Number (PlanetSystem3D.period rB)) = true ->
  exists pA pB,
    PlanetSystem3D.planets
      (fst (PlanetSystem3D.systemConfig data disposition g)) !! i = Some pA
    /\ PlanetSystem3D.planets
         (fst (PlanetSystem3D.systemConfig data disposition g)) !! j = Some pB
    /\ num_le (PlanetSystem3D.orbitalRadius pA)
              (PlanetSystem3D.orbitalRadius pB) = true.
Proof.
  intros Hi Hj HA HAB.
  exists (body disposition rA i (g i)), (body disposition rB j (g j)).
  rewrite !systemConfig_lookup, Hi, Hj.
  split; [reflexivity|]. split; [reflexivity|].
  now apply orbitalRadius_of_mono.
Qed.

Lemma Fin_red_neq (a b : Q) : ~ (a == b)%Q -> lit a <> lit b.
Proof.
  intros N E. apply N. injection E as E.
  rewrite <- (Qred_correct a), <- (Qred_correct b), E. reflexivity.
Qed.

Lemma planetRadius_of_zero (r : row) :
  (is_zero (PlanetSystem3D.prad r) || is_missing (PlanetSystem3D.prad r))%bool
  = true ->
  PlanetSystem3D.planetRadius_of r = lit 0.12
  /\ PlanetSystem3D.planetRadius_of r
     <> Math_max [lit 0.08; num_mul (Number (PlanetSystem3D.prad r)) (lit 0.05)].
Proof.
  unfold PlanetSystem3D.planetRadius_of.
  destruct (PlanetSystem3D.prad r) as [| |b|[| | |q]|s]; try discriminate.
  - intros _. split; [reflexivity|discriminate].
  - intros _. split; [reflexivity|discriminate].
  - cbn [is_zero is_missing num_eq truthy num_truthy Number].
    rewrite Bool.orb_false_r. intros Hq. rewrite Hq. cbn [negb].
    split; [reflexivity|].
    apply Qeq_bool_iff in Hq.
    replace (num_mul (Fin q) (lit 0.05)) with (Fin 0); [discriminate|].
    symmetry. apply (lit_eq _ 0). rewrite Hq. reflexivity.
Qed.

Lemma orbitalRadius_of_zero (r : row) (i : nat) :
  is_zero (PlanetSystem3D.period r) = true ->
  PlanetSystem3D.orbitalRadius_of r i
  = num_add (Fin 3) (num_mul (of_nat i) (lit 1.8))
  /\ PlanetSystem3D.orbitalRadius_of r i
     <> num_add (lit 1.8)
          (Math_pow (Number (PlanetSystem3D.period r)) (lit 0.3)).
Proof.
  unfold PlanetSystem3D.orbitalRadius_of.
  destruct (PlanetSystem3D.period r) as [| |b|[| | |q]|s]; try discriminate.
  cbn [is_zero num_eq truthy num_truthy Number]. intros Hq. rewrite Hq.
  cbn [negb]. split; [reflexivity|].
  apply Qeq_bool_iff in Hq. rewrite Math_pow_03.
  assert (E : pow_fin q 3 10 = Fin 0).
  { unfold pow_fin. destruct q as [[|p|p] d]; try reflexivity;
      unfold Qeq in Hq; cbn in Hq; lia. }
  rewrite E. unfold num_add, num_mul, of_nat, of_Z, lit at 2 3.
  apply Fin_red_neq. rewrite !Qred_correct.
  assert (0 <= Z.of_nat i # 1)%Q by (unfold Qle; cbn; lia). lra.
Qed.

(** C10: the projection takes a radius or a period of 0 for a missing one.
    When the radius of a row of the slice is 0, null or absent, the body has
    the default radius 0.12 and not [max(0.08, radius * 0.05)]; when its
    period is 0, the orbit has the radius [3 + index * 1.8] of the fallback
    and not [1.8 + period ^ 0.3]. *)
Theorem zero_taken_for_missing (data : option table) (disposition : string)
    (g : RNG) (i : nat) (r : row) :
  take 8 (PlanetSystem3D.filtered data disposition) !! i = Some r ->
  exists p,
    PlanetSystem3D.planets
      (fst (PlanetSystem3D.systemConfig data disposition g)) !! i = Some p
    /\ ((is_zero (PlanetSystem3D.prad r)
         || is_missing (PlanetSystem3D.prad r))%bool = true ->
        PlanetSystem3D.planetRadius p = lit 0.12
        /\ PlanetSystem3D.planetRadius p
           <> Math_max [lit 0.08;
                        num_mul (Number (PlanetSystem3D.prad r)) (lit 0.05)])
    /\ (is_zero (PlanetSystem3D.period r) = true ->
        PlanetSystem3D.orbitalRadius p
        = num_add (Fin 3) (num_mul (of_nat i) (lit 1.8))
        /\ PlanetSystem3D.orbitalRadius p
           <> num_add (lit 1.8)
                (Math_pow (Number (PlanetSystem3D.period r)) (lit 0.3))).
Proof.
  intros Hi. exists (body disposition r i (g i)).
  rewrite systemConfig_lookup, Hi. split; [reflexivity|]. split.
  - apply planetRadius_of_zero.
  - apply orbitalRadius_of_zero.
Qed.

End ProjectionFacts.

(** ** DataExploration: labels and column summaries *)

Section LabelFacts.
Context `{Runtime}.







End LabelFacts.

Section SummaryFacts.
Context `{Runtime}.

Lemma last_default (l : list number) (a d d' : number) :
  List.last (a :: l) d = List.last (a :: l) d'.
Proof.
  revert a. induction l as [|b l IH]; intros a; [reflexivity|].
  change (List.last (b :: l) d = List.last (b :: l) d'). apply IH.
Qed.

Lemma nth_length_last (l : list number) (a d : number) :
  nth (length l) (a :: l) d = List.last (a :: l) d.
Proof.
  revert a. induction l as [|b l IH]; intros a; [reflexivity|].
  change (nth (length l) (b :: l) d = List.last (b :: l) d). apply IH.
Qed.

Lemma nth_last_index (l : list number) (a d : number) :
  nth (length (a :: l) - 1) (a :: l) d = List.last (a :: l) a.
Proof.
  cbn [length]. rewrite Nat.sub_succ, Nat.sub_0_r, nth_length_last.
  apply last_default.
Qed.

(** The callback of the code computes the summary of the specification. *)
Lemma summarize_spec (rows : list row) (acc : gmap string DataExploration.ColumnStatistic)
    (col : string) :
  DataExploration.summarize rows acc col
  = match spec_columnSummary (DataExploration.column_values rows col) with
    | Some s => <[col := s]> acc
    | None => acc
    end.
Proof.
  unfold DataExploration.summarize, spec_columnSummary.
  destruct (DataExploration.column_values rows col) as [|first vals];
    [reflexivity|].
  pose proof (nth_last_index vals first NaN) as E1.
  assert (E2 : nth (length (first :: vals) / 2) (first :: vals) NaN
               = nth (length (first :: vals) / 2) (first :: vals) first).
  { apply nth_indep, Nat.div_lt; cbn [length]; lia. }
  change (length (first :: vals)) with (S (length vals)) in *.
  cbv iota beta. rewrite E1, E2. reflexivity.
Qed.

Lemma fold_summarize_lookup (rows : list row) (cols : list string)
    (acc : gmap string DataExploration.ColumnStatistic) (col : string) :
  fold_left (DataExploration.summarize rows) cols acc !! col
  = if existsb (String.eqb col) cols
    then match spec_columnSummary (DataExploration.column_values rows col) with
         | Some s => Some s
         | None => acc !! col
         end
    else acc !! col.
Proof.
  revert acc. induction cols as [|c cols IH]; intros acc; [reflexivity|].
  cbn [fold_left existsb]. rewrite IH, summarize_spec.
  destruct (String.eqb_spec col c) as [->|N]; cbn [orb].
  - destruct (spec_columnSummary (DataExploration.column_values rows c)) as [s|];
      [|now destruct (existsb _ _)].
    rewrite lookup_insert_eq. now destruct (existsb _ _).
  - destruct (spec_columnSummary (DataExploration.column_values rows c));
      [|reflexivity].
    now rewrite lookup_insert_ne by congruence.
Qed.

Lemma numeric_values_no_nan (rows : list row) (col : string) :
  no_nan (numeric_values rows col).
Proof.
  unfold no_nan, numeric_values. apply Forall_forall. intros v Hv.
  apply list_elem_of_In, filter_In in Hv as [_ Hv].
  now apply Bool.negb_true_iff.
Qed.

(** C8, as the code has it: [stats] summarizes the eight columns of
    [numericCols] and no other. Each of the eight has the summary of the
    specification, computed on the numeric values of the column sorted in
    ascending order: the first and the last of them, their mean, the one at
    index [floor(n / 2)] and their number; one of them without a numeric
    value has no entry. In each of the eight the values 1 to 5, in this or
    in another order, give min 1, max 5, mean 3, median 3 and count 5. A
    column that is not one of the eight has no entry, whatever it holds. *)
Theorem column_summary (cols : option (list string)) (rows : list row)
    (col : string) :
  let sorted := DataExploration.column_values rows col in
  let summary :=
    DataExploration.columns
      (DataExploration.stats
         (Some {| JS.columns := cols; JS.rows := Some rows |})) !! col in
  ascending sorted
  /\ Permutation (numeric_values rows col) sorted
  /\ summary = (if existsb (String.eqb col) summarized
                then spec_columnSummary sorted
                else None)
  /\ (numeric_values rows col = [] -> summary = None)
  /\ (In col summarized -> numeric_values rows col <> [] ->
      summary
      = Some {| DataExploration.min := nth 0 sorted NaN;
                DataExploration.max := nth (length sorted - 1) sorted NaN;
                DataExploration.mean :=
                  num_div (sum_numbers sorted) (of_nat (length sorted));
                DataExploration.median :=
                  nth (length sorted / 2) sorted NaN;
                DataExploration.count :=
                  length (numeric_values rows col) |})
  /\ (In col summarized ->
      DataExploration.columns
        (DataExploration.stats (column_of col [1; 2; 3; 4; 5]%Q)) !! col
      = Some {| DataExploration.min := Fin 1;
                DataExploration.max := Fin 5;
                DataExploration.mean := Fin 3;
                DataExploration.median := Fin 3;
                DataExploration.count := 5 |}
      /\ DataExploration.columns
           (DataExploration.stats (column_of col [3; 1; 5; 2; 4]%Q)) !! col
         = Some {| DataExploration.min := Fin 1;
                   DataExploration.max := Fin 5;
                   DataExploration.mean := Fin 3;
                   DataExploration.median := Fin 3;
                   DataExploration.count := 5 |}).
Proof.
  cbv zeta.
  assert (S : DataExploration.columns
                (DataExploration.stats
                   (Some {| JS.columns := cols; JS.rows := Some rows |}))
              !! col
              = (if existsb (String.eqb col) summarized
                 then spec_columnSummary
                        (DataExploration.column_values rows col)
                 else None)).
  { cbn [DataExploration.stats DataExploration.columns].
    rewrite fold_summarize_lookup, lookup_empty.
    change DataExploration.numericCols with summarized.
    now destruct (spec_columnSummary _). }
  assert (P : Permutation (numeric_values rows col)
                (DataExploration.column_values rows col))
    by apply Array_sort_perm.
  split; [apply Array_sort_ascending, numeric_values_no_nan|].
  split; [exact P|]. split; [exact S|]. split; [|split].
  - intros E. rewrite S.
    unfold DataExploration.column_values. fold (numeric_values rows col).
    rewrite E. now destruct (existsb _ _).
  - intros I N. rewrite S.
    replace (existsb (String.eqb col) summarized) with true.
    2:{ symmetry. apply existsb_exists. exists col.
        split; [exact I|apply String.eqb_refl]. }
    rewrite (Permutation_length P). unfold spec_columnSummary.
    destruct (length (DataExploration.column_values rows col)) as [|n] eqn:L;
      [|reflexivity].
    apply length_zero_iff_nil in L. rewrite L in P.
    apply Permutation_nil_r in P. contradiction.
  - intros I.
    repeat (destruct I as [<-|I]; [split; vm_compute; reflexivity|]).
    destruct I.
Qed.

End SummaryFacts.

(** ** DataExploration: the histogram *)

Section HistogramFacts.
Context `{Runtime}.

Local Open Scope Q_scope.

Lemma Qred_of_Z (k : Z) : Qred (k # 1) = k # 1.
Proof.
  unfold Qred.
  pose proof (Z.ggcd_gcd k 1) as G.
  pose proof (Z.ggcd_correct_divisors k 1) as D.
  destruct (Z.ggcd k 1) as [g [a b]]. cbn [fst snd] in *.
  rewrite Z.gcd_1_r in G. subst g. destruct D as [-> D].
  rewrite Z.mul_1_l in D. subst b. f_equal. lia.
Qed.

Lemma lit_of_Z (q : Q) (k : Z) : q == k # 1 -> lit q = of_Z k.
Proof.
  intros E. unfold lit, of_Z. rewrite (Qred_complete _ _ E).
  now rewrite Qred_of_Z.
Qed.

Lemma to_index_of_Z (k : Z) :
  (0 <= k)%Z -> DataExploration.to_index (of_Z k) = Some (Z.to_nat k).
Proof.
  intros Hk. unfold DataExploration.to_index, of_Z. rewrite Qred_of_Z.
  destruct (Z.leb_spec 0 k); [reflexivity|lia].
Qed.

Lemma zeros_of_Z (k : Z) :
  (0 <= k)%Z -> DataExploration.zeros (of_Z k) = repeat O (Z.to_nat k).
Proof.
  intros Hk. unfold DataExploration.zeros. now rewrite to_index_of_Z.
Qed.

Lemma list_sum_repeat_0 (n : nat) : list_sum (repeat O n) = O.
Proof. induction n as [|n IH]; [reflexivity|exact IH]. Qed.

Lemma Math_max_pair (a b : Q) :
  Math_max [Fin a; Fin b] = if num_lt (Fin a) (Fin b) then Fin b else Fin a.
Proof. reflexivity. Qed.

Lemma Math_sqrt_of_nat (n : nat) : exists q, Math_sqrt (of_nat n) = Fin q.
Proof.
  unfold Math_sqrt, of_nat, of_Z.
  assert (P : Qle_bool 0 (Z.of_nat n # 1) = true).
  { apply Qle_bool_iff. unfold Qle. cbn. lia. }
  rewrite P. unfold on_grid, lit. eauto.
Qed.

(** The number of bins is an integer, and at least 5. *)
Lemma bin_count_spec (n : nat) :
  exists k, DataExploration.bin_count n = of_Z k /\ (5 <= k)%Z.
Proof.
  unfold DataExploration.bin_count.
  destruct (Math_sqrt_of_nat n) as [q ->]. unfold Math_round, of_Z.
  rewrite Math_max_pair.
  destruct (num_lt (Fin 5) (Fin (Qfloor (q + (1 # 2)) # 1))) eqn:E.
  - eexists. split; [reflexivity|].
    apply num_lt_fin in E. unfold Qlt in E. cbn [Qnum Qden] in E. lia.
  - exists 5%Z. split; [reflexivity|lia].
Qed.

Lemma list_sum_insert (h : list nat) (k c : nat) :
  h !! k = Some c -> list_sum (<[k := S c]> h) = S (list_sum h).
Proof.
  revert k. induction h as [|a h IH]; intros [|k] Hk; try discriminate.
  - injection Hk as ->. reflexivity.
  - change (list_sum (a :: <[k := S c]> h) = S (list_sum (a :: h))).
    change (h !! k = Some c) in Hk.
    cbn [list_sum fold_right]. fold (list_sum (<[k := S c]> h)).
    fold (list_sum h). rewrite (IH k Hk). lia.
Qed.

(** An increment at an index of the array adds one to the total. *)
Lemma increment_sum (h : list nat) (j : Z) :
  (0 <= j < Z.of_nat (length h))%Z ->
  list_sum (DataExploration.increment h (of_Z j)) = S (list_sum h)
  /\ length (DataExploration.increment h (of_Z j)) = length h.
Proof.
  intros Hj. unfold DataExploration.increment.
  rewrite to_index_of_Z by lia.
  destruct (lookup_lt_is_Some_2 h (Z.to_nat j)) as [c Hc]; [lia|].
  rewrite Hc. split; [now apply list_sum_insert|apply length_insert].
Qed.

(** An increment at NaN changes no bin. *)
Lemma increment_nan (h : list nat) : DataExploration.increment h NaN = h.
Proof. reflexivity. Qed.

Lemma bins_minus_one (k : Z) : num_sub (of_Z k) (Fin 1) = of_Z (k - 1).
Proof.
  unfold num_sub, of_Z at 1. apply lit_of_Z.
  unfold Qeq, Qminus, Qplus, Qopp. cbn. lia.
Qed.

Lemma Math_min_of_Z (a b : Z) :
  Math_min (of_Z a) (of_Z b) = of_Z (Z.min a b).
Proof.
  unfold Math_min, of_Z. cbn [num_lt].
  destruct (Qle_bool (a # 1) (b # 1)) eqn:E; cbn [negb].
  - apply Qle_bool_iff in E. unfold Qle in E. cbn in E.
    rewrite Z.min_l by lia. reflexivity.
  - apply Qle_bool_false in E. unfold Qlt in E. cbn in E.
    rewrite Z.min_r by lia. reflexivity.
Qed.

(** The bin of a finite value, when the width is not 0. *)
Lemma bin_index_fin (m w v : Q) (k : Z) :
  ~ w == 0 ->
  DataExploration.bin_index (Fin m) (Fin w) (of_Z k) (Fin v)
  = of_Z (Z.min (k - 1) (Qfloor (Qred (Qred (v - m) / w)))).
Proof.
  intros Hw. unfold DataExploration.bin_index.
  rewrite bins_minus_one. unfold num_sub at 1, lit at 1.
  unfold num_div. rewrite (proj2 (Qeq_bool_false w 0) Hw).
  unfold lit, Math_floor. apply Math_min_of_Z.
Qed.

Lemma bin_index_range (m w v : Q) (k : Z) :
  0 < w -> m <= v -> (1 <= k)%Z ->
  exists j, DataExploration.bin_index (Fin m) (Fin w) (of_Z k) (Fin v) = of_Z j
            /\ (0 <= j < k)%Z.
Proof.
  intros Hw Hv Hk. rewrite bin_index_fin by lra.
  eexists. split; [reflexivity|].
  assert (0 <= Qfloor (Qred (Qred (v - m) / w)))%Z; [|lia].
  change 0%Z with (Qfloor 0). apply Qfloor_resp_le.
  rewrite !Qred_correct. apply Qle_shift_div_l; lra.
Qed.

(** The width is a positive number, whatever the range. *)
Lemma bin_width_pos (m M : Q) (k : Z) :
  m <= M -> (1 <= k)%Z ->
  exists w, DataExploration.bin_width (Fin m) (Fin M) (of_Z k) = Fin w
            /\ 0 < w.
Proof.
  intros HM Hk. unfold DataExploration.bin_width, num_sub, lit at 1.
  unfold num_div, of_Z.
  assert (Pk : 0 < k # 1) by (unfold Qlt; cbn; lia).
  rewrite (proj2 (Qeq_bool_false (k # 1) 0)) by lra.
  unfold lit, num_truthy.
  destruct (Qeq_bool (Qred (Qred (M - m) / (k # 1))) 0) eqn:E; cbn [negb].
  - exists 1. split; [reflexivity|lra].
  - eexists. split; [reflexivity|].
    apply Qeq_bool_false in E. rewrite !Qred_correct in *.
    assert (0 <= (M - m) / (k # 1)) by (apply Qle_shift_div_l; lra).
    lra.
Qed.

(** On a range of one point the width is 1. *)
Lemma bin_width_degenerate (m M : Q) (k : Z) :
  m == M -> (1 <= k)%Z ->
  DataExploration.bin_width (Fin m) (Fin M) (of_Z k) = Fin 1.
Proof.
  intros HM Hk. unfold DataExploration.bin_width, num_sub, lit at 1.
  unfold num_div, of_Z.
  assert (Pk : 0 < k # 1) by (unfold Qlt; cbn; lia).
  rewrite (proj2 (Qeq_bool_false (k # 1) 0)) by lra.
  unfold lit, num_truthy.
  replace (Qeq_bool (Qred (Qred (M - m) / (k # 1))) 0) with true;
    [reflexivity|].
  symmetry. apply Qeq_bool_iff. rewrite !Qred_correct.
  unfold Qdiv. rewrite HM. lra.
Qed.

Lemma bin_index_degenerate (m v : Q) (k : Z) :
  v == m -> (1 <= k)%Z ->
  DataExploration.bin_index (Fin m) (Fin 1) (of_Z k) (Fin v) = of_Z 0.
Proof.
  intros Hv Hk. rewrite bin_index_fin by lra. f_equal.
  assert (E : Qred (Qred (v - m) / 1) == 0).
  { rewrite !Qred_correct. rewrite Hv. field. }
  rewrite (Qfloor_comp _ _ E). change (Qfloor 0) with 0%Z. lia.
Qed.

(** Every value of a range that starts at [m] lands in a bin. *)
Lemma histogram_fold_total (m w : Q) (k : Z) (vs : list number)
    (h : list nat) :
  0 < w -> (1 <= k)%Z -> length h = Z.to_nat k ->
  Forall (fun v => exists q, v = Fin q /\ m <= q) vs ->
  list_sum
    (fold_left
       (fun h v =>
          DataExploration.increment h
            (DataExploration.bin_index (Fin m) (Fin w) (of_Z k) v)) vs h)
  = (list_sum h + length vs)%nat.
Proof.
  intros Hw Hk Hh Hvs. revert h Hh.
  induction Hvs as [|v vs (q & -> & Hq) _ IH]; intros h Hh; cbn [fold_left].
  - cbn [length]. lia.
  - destruct (bin_index_range m w q k Hw Hq Hk) as (j & -> & Hj).
    destruct (increment_sum h j) as [Es El]; [lia|].
    rewrite IH by congruence. rewrite Es. cbn [length]. lia.
Qed.





Lemma periods_no_nan (data : option table) :
  no_nan (DataExploration.periods data).
Proof.
  destruct data as [[cols [rs|]]|]; try constructor.
  unfold DataExploration.periods. apply Array_sort_no_nan, Forall_forall.
  intros v Hv. apply list_elem_of_In, filter_In in Hv as [_ Hv].
  apply Bool.andb_true_iff in Hv as [Hv _]. now apply Bool.negb_true_iff.
Qed.

Lemma periods_ascending (data : option table) :
  ascending (DataExploration.periods data).
Proof.
  destruct data as [[cols [rs|]]|]; try constructor.
  unfold DataExploration.periods. apply Array_sort_ascending, Forall_forall.
  intros v Hv. apply list_elem_of_In, filter_In in Hv as [_ Hv].
  apply Bool.andb_true_iff in Hv as [Hv _]. now apply Bool.negb_true_iff.
Qed.

(** The chart, past the guard. *)
Lemma HistogramChart_fields (data : option table)
    (h : DataExploration.Histogram) (first : number) (ps : list number) :
  DataExploration.periods data = first :: ps ->
  DataExploration.HistogramChart data = Some h ->
  DataExploration.bins h = DataExploration.bin_count (length (first :: ps))
  /\ DataExploration.range_min h = first
  /\ DataExploration.range_max h = List.last (first :: ps) first
  /\ DataExploration.width h
     = DataExploration.bin_width first (List.last (first :: ps) first)
         (DataExploration.bin_count (length (first :: ps)))
  /\ DataExploration.histogram h
     = fold_left
         (fun acc v =>
            DataExploration.increment acc
              (DataExploration.bin_index first (DataExploration.width h)
                 (DataExploration.bin_count (length (first :: ps))) v))
         (first :: ps)
         (DataExploration.zeros
            (DataExploration.bin_count (length (first :: ps)))).
Proof.
  intros E Hh. unfold DataExploration.HistogramChart in Hh.
  rewrite E in Hh. injection Hh as <-. repeat split.
Qed.

(** The bins of the chart hold every period, when the periods are finite. *)
Lemma HistogramChart_total (data : option table)
    (h : DataExploration.Histogram) :
  DataExploration.HistogramChart data = Some h ->
  Forall (fun v => isFinite v = true) (DataExploration.periods data) ->
  list_sum (DataExploration.histogram h)
  = length (DataExploration.periods data).
Proof.
  pose proof (periods_no_nan data) as Hn.
  pose proof (periods_ascending data) as Hs.
  intros Hh Hf.
  destruct (DataExploration.periods data) as [|first ps] eqn:E.
  { unfold DataExploration.HistogramChart in Hh. rewrite E in Hh.
    discriminate. }
  destruct (HistogramChart_fields data h first ps E Hh)
    as (_ & _ & _ & Ew & ->).
  rewrite Ew. clear Ew Hh.
  pose proof (ascending_first first ps Hn Hs) as Hlow.
  assert (Hlast : In (List.last (first :: ps) first) (first :: ps))
    by (apply last_In; discriminate).
  destruct (bin_count_spec (length (first :: ps))) as (k & -> & Hk).
  assert (Hfin : forall v, In v (first :: ps) ->
                           exists q, v = Fin q).
  { intros v Hv. rewrite Forall_forall in Hf.
    specialize (Hf v (proj2 (list_elem_of_In _ _) Hv)).
    destruct v; try discriminate. eauto. }
  destruct (Hfin first (or_introl eq_refl)) as [m Em]. rewrite Em in *.
  assert (Hvs : Forall (fun v => exists q, v = Fin q /\ m <= q)
                  (Fin m :: ps)).
  { apply Forall_forall. intros v Hv. apply list_elem_of_In in Hv.
    destruct (Hfin v Hv) as [q ->]. exists q. split; [reflexivity|].
    rewrite Forall_forall in Hlow.
    apply num_le_fin, (Hlow (Fin q)), list_elem_of_In, Hv. }
  destruct (Hfin _ Hlast) as [M EM]. rewrite EM.
  assert (HM : m <= M).
  { rewrite Forall_forall in Hlow. apply num_le_fin. rewrite <- EM.
    apply Hlow, list_elem_of_In, Hlast. }
  destruct (bin_width_pos m M k HM) as (w & -> & Hw); [lia|].
  rewrite (histogram_fold_total m w k) by
    (try assumption; try lia; rewrite zeros_of_Z by lia; apply repeat_length).
  rewrite zeros_of_Z by lia. now rewrite list_sum_repeat_0.
Qed.



(** On a range of one point, all the values are in the first bin: the
    histogram of the later DataExploration takes the width 1. *)
Lemma HistogramChart_degenerate (data : option table)
    (h : DataExploration.Histogram) :
  DataExploration.HistogramChart data = Some h ->
  Forall (fun v => isFinite v = true) (DataExploration.periods data) ->
  num_eq (DataExploration.range_max h) (DataExploration.range_min h) = true ->
  DataExploration.width h = Fin 1
  /\ exists n, DataExploration.bins h = of_nat (S n)
     /\ DataExploration.histogram h
        = length (DataExploration.periods data) :: repeat O n.
Proof.
  pose proof (periods_no_nan data) as Hn.
  pose proof (periods_ascending data) as Hs.
  intros Hh Hf.
  destruct (DataExploration.periods data) as [|first ps] eqn:E.
  { unfold DataExploration.HistogramChart in Hh. rewrite E in Hh.
    discriminate. }
  destruct (HistogramChart_fields data h first ps E Hh)
    as (-> & -> & -> & Ew & ->).
  rewrite Ew. clear Ew Hh. intros Heq.
  pose proof (ascending_first first ps Hn Hs) as Hlow.
  pose proof (ascending_last (first :: ps) first Hn Hs) as Hhigh.
  destruct (bin_count_spec (length (first :: ps))) as (k & -> & Hk).
  assert (Hfin : forall v, In v (first :: ps) -> exists q, v = Fin q).
  { intros v Hv. rewrite Forall_forall in Hf.
    specialize (Hf v (proj2 (list_elem_of_In _ _) Hv)).
    destruct v; try discriminate. eauto. }
  destruct (Hfin first (or_introl eq_refl)) as [m Em]. rewrite Em in *.
  destruct (Hfin _ (last_In (Fin m :: ps) (Fin m) ltac:(discriminate)))
    as [M EM].
  rewrite EM in *. cbn [num_eq] in Heq. apply Qeq_bool_iff in Heq.
  rewrite bin_width_degenerate by (try lia; lra).
  split; [reflexivity|].
  exists (Z.to_nat (k - 1)). split.
  { unfold of_nat. f_equal. lia. }
  rewrite zeros_of_Z by lia.
  replace (Z.to_nat k) with (S (Z.to_nat (k - 1))) by lia.
  assert (Hvs : Forall (fun v => exists q, v = Fin q /\ q == m)
                  (Fin m :: ps)).
  { apply Forall_forall. intros v Hv. apply list_elem_of_In in Hv.
    destruct (Hfin v Hv) as [q ->]. exists q. split; [reflexivity|].
    rewrite Forall_forall in Hlow, Hhigh.
    pose proof (Hlow (Fin q) (proj2 (list_elem_of_In _ _) Hv)) as L1.
    pose proof (Hhigh (Fin q) (proj2 (list_elem_of_In _ _) Hv)) as L2.
    apply num_le_fin in L1, L2. lra. }
  revert Hvs. generalize (Fin m :: ps). intros vs Hvs.
  cbn [repeat]. generalize (repeat O (Z.to_nat (k - 1))). intros tl.
  change (length vs) with (0 + length vs)%nat. generalize O.
  induction Hvs as [|v vs (q & -> & Hq) _ IH]; intros c; cbn [fold_left].
  - cbn [length]. now rewrite Nat.add_0_r.
  - rewrite bin_index_degenerate by (try lia; exact Hq).
    change (DataExploration.increment (c :: tl) (of_Z 0)) with (S c :: tl).
    rewrite IH. cbn [length]. f_equal. lia.
Qed.

End HistogramFacts.

(** ** DataExploration: the scatter plot *)

Section ScatterFacts.
Context `{Runtime}.

Local Open Scope Q_scope.

Lemma fold_max2_zero (xs : list number) (acc : number) :
  Forall (fun v => num_eq v (Fin 0) = true) xs ->
  acc = NInf \/ (exists q, acc = Fin q /\ q == 0) ->
  fold_left max2 xs acc = NInf
  \/ exists q, fold_left max2 xs acc = Fin q /\ q == 0.
Proof.
  intros Hxs. revert acc. induction Hxs as [|v xs Hv _ IH]; intros acc Hacc;
    [exact Hacc|].
  cbn [fold_left]. apply IH. right.
  destruct v as [| | |q]; try discriminate. apply Qeq_bool_iff in Hv.
  destruct Hacc as [->|(a & -> & Ha)].
  - exists q. split; [reflexivity|exact Hv].
  - cbn [max2]. destruct (num_lt (Fin a) (Fin q)); eauto.
Qed.

(** With every value 0 the denominator is the 1 of the guard. *)
Lemma Math_max_zero_guard (xs : list number) :
  Forall (fun v => num_eq v (Fin 0) = true) xs ->
  Math_max (xs ++ [Fin 1]) = Fin 1.
Proof.
  intros Hxs. unfold Math_max. rewrite fold_left_app. cbn [fold_left].
  destruct (fold_max2_zero xs NInf Hxs (or_introl eq_refl))
    as [->|(q & -> & Hq)]; [reflexivity|].
  cbn [max2]. replace (num_lt (Fin q) (Fin 1)) with true; [reflexivity|].
  symmetry. apply num_lt_fin. lra.
Qed.

Lemma zero_over_one (v : number) (k : Q) :
  num_eq v (Fin 0) = true -> num_mul (num_div v (Fin 1)) (Fin k) = Fin 0.
Proof.
  destruct v as [| | |q]; try discriminate. intros Hq.
  apply Qeq_bool_iff in Hq. unfold num_div.
  change (Qeq_bool 1 0) with false. cbv iota.
  unfold num_mul, lit at 2. apply (lit_eq _ 0).
  rewrite Qred_correct, Hq. field.
Qed.

(** The later scatter plot on a column of zeros: the denominator is 1 and
    every point is at the coordinate 0 of the axis, that is at the left edge
    and at the bottom edge of the plot. *)
Lemma ScatterPlot_zero_column (data : option table)
    (p : DataExploration.ScatterPoint) :
  In p (DataExploration.scatter data) ->
  (Forall (fun p => num_eq (DataExploration.x p) (Fin 0) = true)
     (DataExploration.scatter data) ->
   DataExploration.maxX (DataExploration.scatter data) = Fin 1
   /\ DataExploration.normalized_x (DataExploration.scatter data) p = Fin 0
   /\ DataExploration.cx (DataExploration.scatter data) p
      = DataExploration.plot_left)
  /\ (Forall (fun p => num_eq (DataExploration.y p) (Fin 0) = true)
        (DataExploration.scatter data) ->
      DataExploration.maxY (DataExploration.scatter data) = Fin 1
      /\ DataExploration.normalized_y (DataExploration.scatter data) p = Fin 0
      /\ DataExploration.cy (DataExploration.scatter data) p
         = DataExploration.plot_bottom).
Proof.
  intros Hp. split; intros Hz.
  - assert (E : DataExploration.maxX (DataExploration.scatter data) = Fin 1).
    { apply Math_max_zero_guard. now apply Forall_map. }
    rewrite Forall_forall in Hz.
    specialize (Hz p (proj2 (list_elem_of_In _ _) Hp)).
    unfold DataExploration.cx, DataExploration.normalized_x. rewrite E.
    unfold DataExploration.plot_width. rewrite (zero_over_one _ _ Hz).
    repeat split.
  - assert (E : DataExploration.maxY (DataExploration.scatter data) = Fin 1).
    { apply Math_max_zero_guard. now apply Forall_map. }
    rewrite Forall_forall in Hz.
    specialize (Hz p (proj2 (list_elem_of_In _ _) Hp)).
    unfold DataExploration.cy, DataExploration.normalized_y. rewrite E.
    unfold DataExploration.plot_height. rewrite (zero_over_one _ _ Hz).
    repeat split.
Qed.

Lemma fold_max2_finite (xs : list number) (acc : number) :
  Forall (fun v => isFinite v = true) xs ->
  acc = NInf \/ isFinite acc = true ->
  fold_left max2 xs acc = NInf \/ isFinite (fold_left max2 xs acc) = true.
Proof.
  intros Hxs. revert acc. induction Hxs as [|v xs Hv _ IH]; intros acc Hacc;
    [exact Hacc|].
  cbn [fold_left]. apply IH. right.
  destruct v as [| | |q]; try discriminate.
  destruct Hacc as [->|Ha]; [reflexivity|].
  destruct acc as [| | |a]; try discriminate.
  cbn [max2]. now destruct (num_lt (Fin a) (Fin q)).
Qed.

(** With finite values the denominator is a finite number, at least 1. *)
Lemma Math_max_guard_finite (xs : list number) :
  Forall (fun v => isFinite v = true) xs ->
  exists q, Math_max (xs ++ [Fin 1]) = Fin q /\ 1 <= q.
Proof.
  intros Hxs. unfold Math_max. rewrite fold_left_app. cbn [fold_left].
  destruct (fold_max2_finite xs NInf Hxs (or_introl eq_refl)) as [->|Hf].
  - exists 1. split; [reflexivity|lra].
  - destruct (fold_left max2 xs NInf) as [| | |a]; try discriminate.
    cbn [max2]. destruct (num_lt (Fin a) (Fin 1)) eqn:E.
    + exists 1. split; [reflexivity|lra].
    + exists a. split; [reflexivity|].
      cbn [num_lt] in E. apply Bool.negb_false_iff, Qle_bool_iff in E. exact E.
Qed.

(** The later scatter plot has no NaN coordinate on finite values. *)
Lemma ScatterPlot_finite (data : option table)
    (p : DataExploration.ScatterPoint) :
  In p (DataExploration.scatter data) ->
  Forall (fun p => isFinite (DataExploration.x p) = true)
    (DataExploration.scatter data) ->
  isFinite (DataExploration.cx (DataExploration.scatter data) p) = true.
Proof.
  intros Hp Hf.
  destruct (Math_max_guard_finite
              (map DataExploration.x (DataExploration.scatter data)))
    as (q & E & Hq); [now apply Forall_map|].
  rewrite Forall_forall in Hf.
  specialize (Hf p (proj2 (list_elem_of_In _ _) Hp)).
  unfold DataExploration.cx, DataExploration.normalized_x,
    DataExploration.maxX.
  rewrite E. destruct (DataExploration.x p) as [| | |a]; try discriminate.
  unfold num_div. rewrite (proj2 (Qeq_bool_false q 0)) by lra.
  reflexivity.
Qed.

End ScatterFacts.

(** ** Scenarios *)

Section Scenarios.

#[local] Existing Instance decimal_runtime.

Local Open Scope string_scope.

(** What the cells of a table read as. *)
Example parseFloat_cells :
  map parseFloat
    [JNum (lit 12.5); JStr "12.5"; JStr "  3e2 days"; JStr ".5"; JStr "-7.";
     JStr "abc"; JStr ""; JNull; JUndefined; JBool true; JStr "Infinity"]
  = [lit 12.5; lit 12.5; Fin 300; lit 0.5; Fin (-7); NaN; NaN; NaN; NaN; NaN;
     PInf].
Proof. vm_compute. reflexivity. Qed.

Example Number_cells :
  map Number
    [JNum (lit 12.5); JStr " 12.5 "; JStr "3e2 days"; JStr "0x1A"; JStr "";
     JNull; JUndefined; JBool true; JStr "1e3"; JStr "-Infinity"]
  = [lit 12.5; lit 12.5; NaN; Fin 26; Fin 0; Fin 0; NaN; Fin 1; Fin 1000; NInf].
Proof. vm_compute. reflexivity. Qed.

Example ToString_cells :
  map ToString [JStr "fp"; JNum (Fin 5); JNum (lit (-0.25)); JNum NaN; JNull]
  = ["fp"; "5"; "-0.25"; "NaN"; "null"].
Proof. vm_compute. reflexivity. Qed.

(** Scenario A: two CONFIRMED and two CANDIDATE rows. *)
Example scenario_A :
  ClassificationResults.cards
    [labelled "CONFIRMED"; labelled "CONFIRMED"; labelled "CANDIDATE";
     labelled "CANDIDATE"]
  = [{| ClassificationResults.card_disposition := "CONFIRMED";
        ClassificationResults.card_count := 2;
        ClassificationResults.card_percentage := "50.0" |};
     {| ClassificationResults.card_disposition := "CANDIDATE";
        ClassificationResults.card_count := 2;
        ClassificationResults.card_percentage := "50.0" |};
     {| ClassificationResults.card_disposition := "FALSE POSITIVE";
        ClassificationResults.card_count := 0;
        ClassificationResults.card_percentage := "0.0" |}].
Proof. vm_compute. reflexivity. Qed.

(** C1 fails as stated: a row whose disposition is "exploded" is under none
    of the three counts. *)
Lemma unrecognized_row_not_counted :
  total_count
    (ClassificationResults.dispositionCounts
       [labelled "CONFIRMED"; labelled "exploded"])
  <> length [labelled "CONFIRMED"; labelled "exploded"].
Proof. vm_compute. discriminate. Qed.

(** C2 fails as stated: two invocations on the same row, the first with the
    draw 0.1 and the second with the draw 0.9, give the speeds 0.32 and
    0.88. *)
Lemma speeds_differ_between_invocations :
  map PlanetSystem3D.speed
    (PlanetSystem3D.planets
       (fst (PlanetSystem3D.systemConfig
               (make_table ["Predicted_Disposition"] [labelled "CONFIRMED"])
               "CONFIRMED" (fun _ => lit 0.1))))
  <> map PlanetSystem3D.speed
       (PlanetSystem3D.planets
          (fst (PlanetSystem3D.systemConfig
                  (make_table ["Predicted_Disposition"] [labelled "CONFIRMED"])
                  "CONFIRMED" (fun _ => lit 0.9)))).
Proof. vm_compute. discriminate. Qed.


(** C8 fails as stated of a column outside the eight: the column radius,
    which the scatter plot reads, holds the values 1 to 5 and has no
    summary. *)
Lemma unlisted_column_has_no_summary :
  numeric_values
    (map (fun v => make_row [("radius", JNum (lit v))]) [1; 2; 3; 4; 5]%Q)
    "radius"
  = [Fin 1; Fin 2; Fin 3; Fin 4; Fin 5]
  /\ DataExploration.columns
       (DataExploration.stats (column_of "radius" [1; 2; 3; 4; 5]%Q))
     !! "radius" = None.
Proof. split; vm_compute; reflexivity. Qed.



(** C6: the earlier histogram divides the range by 20 with nothing behind
    it. On the column 10, 10, 10 the width is 0, the index of every value is
    [floor(0 / 0)], which is NaN, and the three increments land beside the
    array: all 20 bins stay at 0, where the specification wants the three
    values in bin 0. *)
Theorem histogramData_constant_column :
  DataExplorationFixedBins.histogramData
    (make_table ["koi_period"]
       [make_row [("koi_period", JNum (Fin 10))];
        make_row [("koi_period", JNum (Fin 10))];
        make_row [("koi_period", JNum (Fin 10))]])
  = repeat {| DataExplorationFixedBins.binStart := Fin 10;
              DataExplorationFixedBins.binEnd := Fin 10;
              DataExplorationFixedBins.count := 0 |} 20
  /\ DataExplorationFixedBins.binIndex (Fin 10)
       (num_div (num_sub (Fin 10) (Fin 10)) DataExplorationFixedBins.bins)
       (Fin 10) = NaN.
Proof. split; vm_compute; reflexivity. Qed.

(** The earlier component on the periods -3, 5 and 7: its summary counts
    three values, its histogram two. *)
Example earlier_histogram_drops_nonpositive :
  DataExploration.count
    <$> DataExplorationFixedBins.columnStats
          [make_row [("koi_period", JNum (Fin (-3)))];
           make_row [("koi_period", JNum (Fin 5))];
           make_row [("koi_period", JNum (Fin 7))]] !! "koi_period"
  = Some 3%nat
  /\ list_sum
       (map DataExplorationFixedBins.count
          (DataExplorationFixedBins.histogramData
             (make_table ["koi_period"]
                [make_row [("koi_period", JNum (Fin (-3)))];
                 make_row [("koi_period", JNum (Fin 5))];
                 make_row [("koi_period", JNum (Fin 7))]])))
     = 2%nat.
Proof. split; vm_compute; reflexivity. Qed.

(** Scenario C on the later histogram: the three values are in bin 0. *)
Example scenario_C :
  DataExploration.histogram
    <$> DataExploration.HistogramChart
          (make_table ["koi_period"; "period"]
             [with_period 10; with_period 10; with_period 10])
  = Some [3; 0; 0; 0; 0]%nat.
Proof. vm_compute. reflexivity. Qed.

(** C7: the earlier scatter plot divides by the largest value with nothing
    behind it. On a period column of zeros the denominator is 0 and the
    horizontal coordinate of every point is [40 + (0 / 0) * 320], which is
    NaN, where the specification wants the coordinate 0. *)
Theorem ScatterPlot_zero_period_column :
  DataExplorationFixedBins.maxX
    (DataExplorationFixedBins.scatterData
       (make_table ["koi_period"; "koi_prad"]
          [make_row [("koi_period", JStr "0"); ("koi_prad", JNum (lit 1.5))];
           make_row [("koi_period", JStr "0"); ("koi_prad", JNum (Fin 3))]]))
  = Fin 0
  /\ DataExplorationFixedBins.ScatterPlot
       (make_table ["koi_period"; "koi_prad"]
          [make_row [("koi_period", JStr "0"); ("koi_prad", JNum (lit 1.5))];
           make_row [("koi_period", JStr "0"); ("koi_prad", JNum (Fin 3))]])
     = [(NaN, Fin 120); (NaN, Fin 30)].
Proof. split; vm_compute; reflexivity. Qed.

(** The same column on the later scatter plot: every point is at the left
    edge. *)
Example scatter_zero_period_column :
  map DataExploration.circle_cx
    (DataExploration.ScatterPlot
       (make_table ["period"; "radius"]
          [make_row [("period", JStr "0"); ("radius", JNum (lit 1.5))];
           make_row [("period", JStr "0"); ("radius", JNum (Fin 3))]]))
  = [Fin 40; Fin 40].
Proof. vm_compute. reflexivity. Qed.

(** C9 fails as stated: row A has the period 0 and row B the period 1; the
    body of A is on the orbit of radius 3 of the fallback, the body of B on
    the orbit of radius [1.8 + 1 ^ 0.3 = 2.8]. *)
Lemma zero_period_breaks_monotonicity :
  num_lt (Number (PlanetSystem3D.period (koi (JNum (Fin 0)) (JNum (Fin 1)))))
         (Number (PlanetSystem3D.period (koi (JNum (Fin 1)) (JNum (Fin 1)))))
  = true
  /\ map PlanetSystem3D.orbitalRadius
       (PlanetSystem3D.planets
          (fst (PlanetSystem3D.systemConfig
                  (make_table
                     ["Predicted_Disposition"; "koi_period"; "koi_prad"]
                     [koi (JNum (Fin 0)) (JNum (Fin 1));
                      koi (JNum (Fin 1)) (JNum (Fin 1))])
                  "CONFIRMED" (fun _ => lit 0.5))))
     = [Fin 3; lit 2.8]
  /\ num_le (Fin 3) (lit 2.8) = false.
Proof. repeat split; vm_compute; reflexivity. Qed.

Lemma orbitalRadius_monotone_witness :
  take 8
    (PlanetSystem3D.filtered
       (make_table ["Predicted_Disposition"; "koi_period"; "koi_prad"]
          [koi (JNum (Fin 1)) (JNum (Fin 1)); koi (JNum (Fin 8)) (JNum (Fin 1))])
       "CONFIRMED") !! 0%nat
  = Some (koi (JNum (Fin 1)) (JNum (Fin 1)))
  /\ exists pA pB,
       PlanetSystem3D.planets
         (fst (PlanetSystem3D.systemConfig
                 (make_table
                    ["Predicted_Disposition"; "koi_period"; "koi_prad"]
                    [koi (JNum (Fin 1)) (JNum (Fin 1));
                     koi (JNum (Fin 8)) (JNum (Fin 1))])
                 "CONFIRMED" (fun _ => lit 0.5))) !! 0%nat = Some pA
       /\ PlanetSystem3D.planets
            (fst (PlanetSystem3D.systemConfig
                    (make_table
                       ["Predicted_Disposition"; "koi_period"; "koi_prad"]
                       [koi (JNum (Fin 1)) (JNum (Fin 1));
                        koi (JNum (Fin 8)) (JNum (Fin 1))])
                    "CONFIRMED" (fun _ => lit 0.5))) !! 1%nat = Some pB
       /\ num_le (PlanetSystem3D.orbitalRadius pA)
                 (PlanetSystem3D.orbitalRadius pB) = true.
Proof.
  split; [reflexivity|].
  apply (orbitalRadius_monotone
           (make_table ["Predicted_Disposition"; "koi_period"; "koi_prad"]
              [koi (JNum (Fin 1)) (JNum (Fin 1));
               koi (JNum (Fin 8)) (JNum (Fin 1))])
           "CONFIRMED" (fun _ => lit 0.5) 0 1
           (koi (JNum (Fin 1)) (JNum (Fin 1)))
           (koi (JNum (Fin 8)) (JNum (Fin 1))));
    reflexivity.
Defined.

Lemma zero_taken_for_missing_witness :
  take 8
    (PlanetSystem3D.filtered
       (make_table ["Predicted_Disposition"; "koi_period"; "koi_prad"]
          [koi (JNum (Fin 5)) (JNum (Fin 2)); koi (JNum (Fin 0)) (JNum (Fin 0))])
       "CONFIRMED") !! 1%nat
  = Some (koi (JNum (Fin 0)) (JNum (Fin 0)))
  /\ is_zero (PlanetSystem3D.prad (koi (JNum (Fin 0)) (JNum (Fin 0)))) = true
  /\ is_zero (PlanetSystem3D.period (koi (JNum (Fin 0)) (JNum (Fin 0)))) = true
  /\ exists p,
       PlanetSystem3D.planets
         (fst (PlanetSystem3D.systemConfig
                 (make_table
                    ["Predicted_Disposition"; "koi_period"; "koi_prad"]
                    [koi (JNum (Fin 5)) (JNum (Fin 2));
                     koi (JNum (Fin 0)) (JNum (Fin 0))])
                 "CONFIRMED" (fun _ => lit 0.5))) !! 1%nat = Some p
       /\ PlanetSystem3D.planetRadius p = lit 0.12
       /\ PlanetSystem3D.orbitalRadius p = lit 4.8.
Proof.
  split; [reflexivity|]. split; [reflexivity|]. split; [reflexivity|].
  destruct (zero_taken_for_missing
              (make_table ["Predicted_Disposition"; "koi_period"; "koi_prad"]
                 [koi (JNum (Fin 5)) (JNum (Fin 2));
                  koi (JNum (Fin 0)) (JNum (Fin 0))])
              "CONFIRMED" (fun _ => lit 0.5) 1
              (koi (JNum (Fin 0)) (JNum (Fin 0))) eq_refl)
    as (p & Hp & Hr & Ho).
  exists p. split; [exact Hp|].
  split; [exact (proj1 (Hr eq_refl))|exact (proj1 (Ho eq_refl))].
Defined.

(** Scenario D: a row without period and radius has the default radii. *)
Example scenario_D :
  map (fun p => (PlanetSystem3D.orbitalRadius p, PlanetSystem3D.planetRadius p))
    (PlanetSystem3D.planets
       (fst (PlanetSystem3D.systemConfig
               (make_table ["Predicted_Disposition"] [labelled "CONFIRMED"])
               "CONFIRMED" (fun _ => lit 0.5))))
  = [(Fin 3, lit 0.12)].
Proof. vm_compute. reflexivity. Qed.

End Scenarios.

(** * Further properties of the components *)

(** ** The summary cards, the detail list and the bodies of the 3D view *)

Section CardFacts.
Context `{Runtime}.

Lemma count_row_lookup (m : gmap string nat) (r : row) (d : string) :
  ClassificationResults.count_row m r !! d
  = (fun n => (n + if String.eqb (ClassificationResults.disposition_of r) d
                   then 1 else 0)%nat) <$> m !! d.
Proof.
  unfold ClassificationResults.count_row.
  destruct (String.eqb_spec (ClassificationResults.disposition_of r) d)
    as [->|N].
  - destruct (m !! d) as [n|] eqn:E.
    + rewrite lookup_insert_eq. cbn. f_equal. lia.
    + now rewrite E.
  - destruct (m !! ClassificationResults.disposition_of r) as [n|].
    + rewrite lookup_insert_ne by exact N.
      destruct (m !! d); cbn; [f_equal; lia|reflexivity].
    + destruct (m !! d); cbn; [f_equal; lia|reflexivity].
Qed.

Lemma fold_count_row_lookup (rows : list row) (m : gmap string nat)
    (d : string) :
  fold_left ClassificationResults.count_row rows m !! d
  = (fun n => (n + length (ClassificationResults.filteredRows rows d))%nat)
      <$> m !! d.
Proof.
  revert m. induction rows as [|r rows IH]; intros m; cbn [fold_left].
  - destruct (m !! d); cbn; [f_equal; lia|reflexivity].
  - rewrite IH, count_row_lookup.
    unfold ClassificationResults.filteredRows. cbn [List.filter].
    destruct (m !! d) as [n|]; cbn; [|reflexivity].
    destruct (String.eqb (ClassificationResults.disposition_of r) d);
      cbn [length]; f_equal; lia.
Qed.

Lemma dispositionCounts_lookup (rows : list row) (d : string) :
  ClassificationResults.dispositionCounts rows !! d
  = if existsb (String.eqb d) card_keys
    then Some (length (ClassificationResults.filteredRows rows d))
    else None.
Proof.
  unfold ClassificationResults.dispositionCounts.
  rewrite fold_count_row_lookup.
  unfold ClassificationResults.initial_counts, card_keys. cbn [existsb].
  destruct (String.eqb_spec d "CONFIRMED") as [->|N1]; [reflexivity|].
  rewrite lookup_insert_ne by congruence.
  destruct (String.eqb_spec d "CANDIDATE") as [->|N2]; [reflexivity|].
  rewrite lookup_insert_ne by congruence.
  destruct (String.eqb_spec d "FALSE POSITIVE") as [->|N3]; [reflexivity|].
  rewrite lookup_insert_ne by congruence. reflexivity.
Qed.

(** X1: the count on a summary card is the number of rows the detail list
    has when that card is selected, and the counts have no key beside the
    three cards. *)
Theorem card_count_is_filtered_length (rows : list row) (d : string) :
  ClassificationResults.dispositionCounts rows !! d
  = (if existsb (String.eqb d) card_keys
     then Some (length (ClassificationResults.filteredRows rows d))
     else None)
  /\ map ClassificationResults.card_count (ClassificationResults.cards rows)
     = map (fun d => length (ClassificationResults.filteredRows rows d))
         card_keys.
Proof.
  split; [apply dispositionCounts_lookup|].
  unfold ClassificationResults.cards. rewrite map_map. cbn [map card_keys].
  now rewrite !dispositionCounts_lookup.
Qed.

Lemma filtered_is_filteredRows (cols : option (list string))
    (rows : list row) (d : string) :
  PlanetSystem3D.filtered
    (Some {| JS.columns := cols; JS.rows := Some rows |}) d
  = ClassificationResults.filteredRows rows d.
Proof. reflexivity. Qed.

(** X2: the 3D view and the classification view agree. On the same table and
    selection the bodies are made, in order, of the first 8 rows of the
    detail list, so the number of detected planets is the count of the
    selected card capped at 8. *)
Theorem bodies_are_first_rows_of_detail_list (cols : option (list string))
    (rows : list row) (d : string) (g : RNG) :
  let config :=
    fst (PlanetSystem3D.systemConfig
           (Some {| JS.columns := cols; JS.rows := Some rows |}) d g) in
  PlanetSystem3D.planets config
  = imap (fun i r => body d r i (g i))
      (take 8 (ClassificationResults.filteredRows rows d))
  /\ PlanetSystem3D.detectedCount config
     = Nat.min 8 (length (ClassificationResults.filteredRows rows d))
  /\ Nat.min 8 <$> ClassificationResults.dispositionCounts rows !! d
     = if existsb (String.eqb d) card_keys
       then Some (PlanetSystem3D.detectedCount config)
       else None.
Proof.
  cbv zeta.
  assert (E : PlanetSystem3D.detectedCount
                (fst (PlanetSystem3D.systemConfig
                        (Some {| JS.columns := cols; JS.rows := Some rows |})
                        d g))
              = Nat.min 8
                  (length (ClassificationResults.filteredRows rows d))).
  { pose proof (systemConfig_planets
                  (Some {| JS.columns := cols; JS.rows := Some rows |}) d g)
      as P.
    unfold PlanetSystem3D.systemConfig in *.
    destruct (PlanetSystem3D.map_planets _ _ _ _) as [ps g'].
    cbn [fst PlanetSystem3D.planets PlanetSystem3D.detectedCount] in *.
    rewrite P, length_imap, length_take, filtered_is_filteredRows. lia. }
  split; [|split].
  - rewrite systemConfig_planets. now rewrite filtered_is_filteredRows.
  - exact E.
  - rewrite dispositionCounts_lookup, E.
    now destruct (existsb (String.eqb d) card_keys).
Qed.

End CardFacts.

(** ** The geometry of the bodies *)

Section GeometryFacts.
Context `{Runtime}.

Local Open Scope Q_scope.

Lemma Math_max_floor (a : Q) (b : number) :
  (isNaN b = true /\ Math_max [Fin a; b] = NaN)
  \/ (isNaN b = false /\ num_le (Fin a) (Math_max [Fin a; b]) = true).
Proof.
  destruct b as [| | |q]; [left|right..]; try (split; reflexivity).
  - split; [reflexivity|]. now apply (num_le_refl (Fin a)).
  - split; [reflexivity|]. rewrite Math_max_pair.
    destruct (num_lt (Fin a) (Fin q)) eqn:E.
    + now apply num_lt_le.
    + now apply (num_le_refl (Fin a)).
Qed.

Lemma num_mul_lit_nan (n : number) (q : Q) :
  ~ q == 0 -> isNaN (num_mul n (lit q)) = isNaN n.
Proof.
  intros Hq. destruct n as [| | |x]; try reflexivity.
  - unfold num_mul, lit. cbn [num_sgn Qnum].
    assert (Qnum (Qred q) <> 0%Z).
    { intros E. apply Hq. rewrite <- (Qred_correct q).
      unfold Qeq. rewrite E. reflexivity. }
    destruct (Qnum (Qred q)); [congruence|reflexivity..].
  - unfold num_mul, lit. cbn [num_sgn Qnum].
    assert (Qnum (Qred q) <> 0%Z).
    { intros E. apply Hq. rewrite <- (Qred_correct q).
      unfold Qeq. rewrite E. reflexivity. }
    destruct (Qnum (Qred q)); [congruence|reflexivity..].
Qed.

Lemma planetRadius_of_floor (r : row) :
  if radius_not_numeric r
  then PlanetSystem3D.planetRadius_of r = NaN
  else num_le (lit 0.08) (PlanetSystem3D.planetRadius_of r) = true.
Proof.
  unfold radius_not_numeric, PlanetSystem3D.planetRadius_of.
  destruct (truthy (PlanetSystem3D.prad r)); cbn [andb]; [|reflexivity].
  change (lit 0.08) with (Fin (Qred 0.08)).
  destruct (Math_max_floor (Qred 0.08)
              (num_mul (Number (PlanetSystem3D.prad r)) (lit 0.05)))
    as [[N E]|[N E]];
    rewrite num_mul_lit_nan in N by (intros Q; discriminate Q);
    rewrite N; exact E.
Qed.

Lemma pow_fin_nonneg (x : Q) :
  0 <= x -> exists q, pow_fin x 3 10 = Fin q /\ 0 <= q.
Proof.
  intros Hx. unfold pow_fin. destruct x as [nx dx]. unfold Qle in Hx.
  cbn [Qnum Qden] in *. destruct nx as [|p|p]; try lia.
  - exists 0. split; [reflexivity|lra].
  - unfold pow_pos, on_grid, lit. eexists. split; [reflexivity|].
    rewrite Qred_correct. unfold Qle. cbn [Qnum Qden].
    rewrite Z.mul_1_r, Z.mul_0_l.
    apply iroot_spec. apply Z.div_pos; [|lia].
    apply Z.mul_nonneg_nonneg; [|lia]. apply Z.pow_nonneg. unfold grid. lia.
Qed.

Lemma pow_fin_negative (x : Q) : x < 0 -> pow_fin x 3 10 = NaN.
Proof.
  intros Hx. unfold pow_fin. destruct x as [nx dx]. unfold Qlt in Hx.
  cbn [Qnum Qden] in *. destruct nx; try lia. reflexivity.
Qed.

Lemma orbitalRadius_of_floor (r : row) (i : nat) :
  if period_out_of_domain r
  then PlanetSystem3D.orbitalRadius_of r i = NaN
  else num_le (lit 1.8) (PlanetSystem3D.orbitalRadius_of r i) = true.
Proof.
  unfold period_out_of_domain, PlanetSystem3D.orbitalRadius_of.
  destruct (truthy (PlanetSystem3D.period r)); cbn [andb].
  - rewrite Math_pow_03.
    destruct (Number (PlanetSystem3D.period r)) as [| | |x];
      try reflexivity.
    cbn [isNaN isFinite orb andb]. destruct (num_lt (Fin x) (Fin 0)) eqn:E.
    + apply num_lt_fin in E. now rewrite pow_fin_negative.
    + cbn [num_lt] in E. apply Bool.negb_false_iff, Qle_bool_iff in E.
      destruct (pow_fin_nonneg x E) as (q & -> & Hq).
      unfold num_add, lit at 2. apply num_le_lit.
      rewrite Qred_correct. lra.
  - unfold num_mul, num_add, of_nat, of_Z, lit at 2.
    change (lit 1.8) with (Fin (Qred 1.8)). apply num_le_fin.
    rewrite !Qred_correct.
    assert (0 <= Z.of_nat i # 1) by (unfold Qle; cbn; lia). lra.
Qed.

(** X3: a body is never smaller than the floor. The radius of the body of
    a row of the slice is at least 0.08, unless the radius of the row is
    given and is not a number: then the radius of the body is NaN. *)
Theorem body_radius_has_floor (data : option table) (disposition : string)
    (g : RNG) (i : nat) (r : row) :
  take 8 (PlanetSystem3D.filtered data disposition) !! i = Some r ->
  exists p,
    PlanetSystem3D.planets
      (fst (PlanetSystem3D.systemConfig data disposition g)) !! i = Some p
    /\ if radius_not_numeric r
       then PlanetSystem3D.planetRadius p = NaN
       else num_le (lit 0.08) (PlanetSystem3D.planetRadius p) = true.
Proof.
  intros Hi. exists (body disposition r i (g i)).
  rewrite systemConfig_lookup, Hi. split; [reflexivity|].
  apply planetRadius_of_floor.
Qed.

(** X4: an orbit is never inside the star. The orbital radius of the body of
    a row of the slice is at least 1.8, unless the period of the row is
    given and is not a number or is negative: then the orbital radius is
    NaN. *)
Theorem orbit_outside_star (data : option table) (disposition : string)
    (g : RNG) (i : nat) (r : row) :
  take 8 (PlanetSystem3D.filtered data disposition) !! i = Some r ->
  exists p,
    PlanetSystem3D.planets
      (fst (PlanetSystem3D.systemConfig data disposition g)) !! i = Some p
    /\ if period_out_of_domain r
       then PlanetSystem3D.orbitalRadius p = NaN
       else num_le (lit 1.8) (PlanetSystem3D.orbitalRadius p) = true.
Proof.
  intros Hi. exists (body disposition r i (g i)).
  rewrite systemConfig_lookup, Hi. split; [reflexivity|].
  apply orbitalRadius_of_floor.
Qed.

(** X5: the speeds are within [[0.25, 0.95)] when the draws of [Math.random]
    are within [[0, 1)]. *)
Theorem speeds_within_range (data : option table) (disposition : string)
    (g : RNG) :
  (forall i, unit_draw (g i)) ->
  Forall (fun p => num_le (lit 0.25) (PlanetSystem3D.speed p) = true
                   /\ num_lt (PlanetSystem3D.speed p) (lit 0.95) = true)
    (PlanetSystem3D.planets
       (fst (PlanetSystem3D.systemConfig data disposition g))).
Proof.
  intros Hg. rewrite systemConfig_planets. apply Forall_forall.
  intros p Hp. apply list_elem_of_lookup in Hp as [i Hp].
  rewrite list_lookup_imap in Hp.
  destruct (take 8 (PlanetSystem3D.filtered data disposition) !! i) as [r|];
    [|discriminate].
  injection Hp as <-. destruct (Hg i) as (q & E & Hq).
  change (PlanetSystem3D.speed (body disposition r i (g i)))
    with (PlanetSystem3D.speed_of (g i)).
  rewrite E. now apply speed_of_range.
Qed.

End GeometryFacts.

(** ** The summary of a column *)

Section SummaryOrderFacts.
Context `{Runtime}.

Local Open Scope Q_scope.

Lemma ascending_nth (l : list number) (i j : nat) (d : number) :
  no_nan l -> ascending l -> (i <= j < length l)%nat ->
  num_le (nth i l d) (nth j l d) = true.
Proof.
  intros Hn Hs. revert i j. induction Hs as [|a l Hs IH Ha]; intros i j Hij.
  - cbn in Hij. lia.
  - apply Forall_cons_iff in Hn as [Hna Hn]. destruct j as [|j].
    + replace i with O by lia. now apply num_le_refl.
    + destruct i as [|i]; cbn [nth].
      * rewrite Forall_forall in Ha. apply Ha, list_elem_of_In, nth_In.
        cbn [length] in Hij. lia.
      * apply IH; [exact Hn|]. cbn [length] in Hij. lia.
Qed.

Lemma spec_columnSummary_ordered (sorted : list number)
    (s : DataExploration.ColumnStatistic) :
  no_nan sorted -> ascending sorted ->
  spec_columnSummary sorted = Some s ->
  (1 <= DataExploration.count s)%nat
  /\ DataExploration.count s = length sorted
  /\ In (DataExploration.min s) sorted
  /\ In (DataExploration.median s) sorted
  /\ In (DataExploration.max s) sorted
  /\ Forall (fun v => num_le (DataExploration.min s) v = true
                      /\ num_le v (DataExploration.max s) = true) sorted.
Proof.
  intros Hn Hs. unfold spec_columnSummary.
  destruct (length sorted) as [|n] eqn:L; [discriminate|].
  intros E. injection E as <-.
  cbn [DataExploration.count DataExploration.min DataExploration.max
       DataExploration.median DataExploration.mean].
  assert (B : Forall (fun v => num_le (nth 0 sorted NaN) v = true
                               /\ num_le v (nth (S n - 1) sorted NaN) = true)
                sorted).
  { apply Forall_forall. intros v Hv. apply list_elem_of_In in Hv.
    destruct (In_nth _ _ NaN Hv) as (i & Hi & <-).
    split; apply ascending_nth; auto; lia. }
  split; [lia|]. split; [reflexivity|].
  split; [apply nth_In; lia|].
  assert (D : (S n / 2 < S n)%nat) by (apply Nat.div_lt; lia).
  split; [apply nth_In; rewrite L; exact D|].
  split; [apply nth_In; lia|exact B].
Qed.

(** X6: a summary is ordered. When [stats] has a summary for a column, it
    counts at least one value; its minimum, median and maximum are values of
    the column; every value of the column, the median among them, is
    between the minimum and the maximum. *)
Theorem summary_is_ordered (cols : option (list string)) (rows : list row)
    (col : string) (s : DataExploration.ColumnStatistic) :
  DataExploration.columns
    (DataExploration.stats
       (Some {| JS.columns := cols; JS.rows := Some rows |})) !! col
  = Some s ->
  (1 <= DataExploration.count s)%nat
  /\ DataExploration.count s = length (numeric_values rows col)
  /\ In (DataExploration.min s) (numeric_values rows col)
  /\ In (DataExploration.median s) (numeric_values rows col)
  /\ In (DataExploration.max s) (numeric_values rows col)
  /\ Forall (fun v => num_le (DataExploration.min s) v = true
                      /\ num_le v (DataExploration.max s) = true)
       (numeric_values rows col)
  /\ num_le (DataExploration.min s) (DataExploration.median s) = true
  /\ num_le (DataExploration.median s) (DataExploration.max s) = true.
Proof.
  cbn [DataExploration.stats DataExploration.columns].
  rewrite fold_summarize_lookup, lookup_empty. intros E.
  assert (E' : spec_columnSummary (DataExploration.column_values rows col)
               = Some s).
  { destruct (existsb _ _); [|discriminate].
    now destruct (spec_columnSummary _). }
  clear E.
  pose proof (Array_sort_perm (numeric_values rows col)) as P.
  fold (DataExploration.column_values rows col) in P.
  destruct (spec_columnSummary_ordered _ s
              (Array_sort_no_nan _ (numeric_values_no_nan rows col))
              (Array_sort_ascending _ (numeric_values_no_nan rows col)) E')
    as (C1 & C2 & I1 & I2 & I3 & B).
  fold (DataExploration.column_values rows col) in *.
  assert (Bm : num_le (DataExploration.min s) (DataExploration.median s)
               = true
               /\ num_le (DataExploration.median s) (DataExploration.max s)
                  = true).
  { rewrite Forall_forall in B. apply B, list_elem_of_In, I2. }
  split; [exact C1|]. split; [now rewrite (Permutation_length P)|].
  split; [now apply (Permutation_in _ (Permutation_sym P))|].
  split; [now apply (Permutation_in _ (Permutation_sym P))|].
  split; [now apply (Permutation_in _ (Permutation_sym P))|].
  split; [now rewrite P|exact Bm].
Qed.

End SummaryOrderFacts.

(** ** The bins of the histogram *)

Section BinFacts.
Context `{Runtime}.

Local Open Scope Q_scope.

Lemma increment_length (h : list nat) (i : number) :
  length (DataExploration.increment h i) = length h.
Proof.
  unfold DataExploration.increment.
  destruct (DataExploration.to_index i) as [k|]; [|reflexivity].
  destruct (h !! k); [apply length_insert|reflexivity].
Qed.

Lemma fold_increment_length (f : number -> number) (vs : list number)
    (h : list nat) :
  length (fold_left (fun h v => DataExploration.increment h (f v)) vs h)
  = length h.
Proof.
  revert h. induction vs as [|v vs IH]; intros h; [reflexivity|].
  cbn [fold_left]. now rewrite IH, increment_length.
Qed.

Lemma bin_index_first (m w : Q) (k : Z) :
  0 < w -> (1 <= k)%Z ->
  DataExploration.bin_index (Fin m) (Fin w) (of_Z k) (Fin m) = of_Z 0.
Proof.
  intros Hw Hk. rewrite bin_index_fin by lra. f_equal.
  assert (E : Qred (Qred (m - m) / w) == 0).
  { rewrite !Qred_correct. field. lra. }
  rewrite (Qfloor_comp _ _ E). change (Qfloor 0) with 0%Z. lia.
Qed.

(** A larger value is never filed in an earlier bin. *)
Lemma bin_index_mono (m w q q' : Q) (k : Z) :
  0 < w -> q <= q' ->
  exists i i',
    DataExploration.bin_index (Fin m) (Fin w) (of_Z k) (Fin q) = of_Z i
    /\ DataExploration.bin_index (Fin m) (Fin w) (of_Z k) (Fin q') = of_Z i'
    /\ (i <= i')%Z.
Proof.
  intros Hw Hq. rewrite !bin_index_fin by lra.
  eexists. eexists. split; [reflexivity|]. split; [reflexivity|].
  assert (L : Qred (Qred (q - m) / w) <= Qred (Qred (q' - m) / w)).
  { rewrite !Qred_correct. apply Qmult_le_compat_r; [lra|].
    apply Qlt_le_weak, Qinv_lt_0_compat, Hw. }
  apply Qfloor_resp_le in L. lia.
Qed.

(** X7: every period is filed within the array, and in order. When the
    periods are finite, the chart has as many bins as [bins] says, at least
    5; the bin of every period has an index within the array, so no period
    is filed beside it; the smallest period is in the first bin; and of two
    periods the larger one is never in an earlier bin than the smaller
    one. *)
Theorem periods_filed_in_order (data : option table)
    (h : DataExploration.Histogram) :
  DataExploration.HistogramChart data = Some h ->
  Forall (fun v => isFinite v = true) (DataExploration.periods data) ->
  let index :=
    DataExploration.bin_index (DataExploration.range_min h)
      (DataExploration.width h) (DataExploration.bins h) in
  exists k,
    DataExploration.bins h = of_Z k
    /\ (5 <= k)%Z
    /\ length (DataExploration.histogram h) = Z.to_nat k
    /\ index (DataExploration.range_min h) = of_Z 0
    /\ Forall (fun v => exists i, index v = of_Z i /\ (0 <= i < k)%Z)
         (DataExploration.periods data)
    /\ (forall v v',
          In v (DataExploration.periods data) ->
          In v' (DataExploration.periods data) ->
          num_le v v' = true ->
          exists i i', index v = of_Z i /\ index v' = of_Z i'
                       /\ (i <= i')%Z).
Proof.
  pose proof (periods_no_nan data) as Hn.
  pose proof (periods_ascending data) as Hs.
  intros Hh Hf. cbv zeta.
  destruct (DataExploration.periods data) as [|first ps] eqn:E.
  { unfold DataExploration.HistogramChart in Hh. rewrite E in Hh.
    discriminate. }
  destruct (HistogramChart_fields data h first ps E Hh)
    as (-> & -> & _ & Ew & ->).
  rewrite Ew. clear Ew Hh.
  pose proof (ascending_first first ps Hn Hs) as Hlow.
  assert (Hlast : In (List.last (first :: ps) first) (first :: ps))
    by (apply last_In; discriminate).
  destruct (bin_count_spec (length (first :: ps))) as (k & -> & Hk).
  assert (Hfin : forall v, In v (first :: ps) -> exists q, v = Fin q).
  { intros v Hv. rewrite Forall_forall in Hf.
    specialize (Hf v (proj2 (list_elem_of_In _ _) Hv)).
    destruct v; try discriminate. eauto. }
  destruct (Hfin first (or_introl eq_refl)) as [m Em]. rewrite Em in *.
  destruct (Hfin _ Hlast) as [M EM]. rewrite EM.
  assert (HM : m <= M).
  { rewrite Forall_forall in Hlow. apply num_le_fin. rewrite <- EM.
    apply Hlow, list_elem_of_In, Hlast. }
  destruct (bin_width_pos m M k HM) as (w & Ew & Hw); [lia|]. rewrite Ew.
  exists k. split; [reflexivity|]. split; [exact Hk|].
  split.
  { rewrite fold_increment_length, zeros_of_Z by lia. apply repeat_length. }
  split; [apply bin_index_first; [exact Hw|lia]|].
  split.
  - apply Forall_forall. intros v Hv. apply list_elem_of_In in Hv.
    destruct (Hfin v Hv) as [q ->].
    apply bin_index_range; [exact Hw| |lia].
    rewrite Forall_forall in Hlow.
    apply num_le_fin, (Hlow (Fin q)), list_elem_of_In, Hv.
  - intros v v' Hv Hv' L.
    destruct (Hfin v Hv) as [q ->]. destruct (Hfin v' Hv') as [q' ->].
    apply num_le_fin in L. now apply bin_index_mono.
Qed.

End BinFacts.

Section BarFacts.
Context `{Runtime}.

Local Open Scope Q_scope.

Lemma num_div_fin (a b : Q) :
  ~ b == 0 -> num_div (Fin a) (Fin b) = lit (a / b).
Proof.
  intros Hb. unfold num_div. now rewrite (proj2 (Qeq_bool_false b 0) Hb).
Qed.

Lemma fold_max_spec (l : list nat) (a : nat) :
  (a <= fold_left Nat.max l a)%nat
  /\ Forall (fun c => (c <= fold_left Nat.max l a)%nat) l
  /\ (fold_left Nat.max l a = a \/ In (fold_left Nat.max l a) l).
Proof.
  revert a. induction l as [|c l IH]; intros a; cbn [fold_left].
  - split; [lia|]. split; [constructor|now left].
  - destruct (IH (Nat.max a c)) as (I1 & I2 & I3).
    split; [lia|]. split; [constructor; [lia|exact I2]|].
    destruct I3 as [E|I]; [|right; now right].
    destruct (Nat.max_spec a c) as [[? M]|[? M]]; rewrite M in E |- *.
    + right. left. now symmetry.
    + now left.
Qed.

(** [Math.max(...histogram, 1)] is at least 1 and at least every count;
    it is a count when a count is positive. *)
Lemma maxCount_spec (l : list nat) :
  let mc := fold_left Nat.max (l ++ [1%nat]) O in
  (1 <= mc)%nat
  /\ Forall (fun c => (c <= mc)%nat) l
  /\ ((1 <= list_sum l)%nat -> In mc l).
Proof.
  cbv zeta. rewrite fold_left_app. cbn [fold_left].
  destruct (fold_max_spec l O) as (_ & I2 & I3).
  split; [lia|]. split.
  - eapply Forall_impl; [exact I2|]. cbn. intros; lia.
  - intros Hs. destruct I3 as [E|I].
    + exfalso. rewrite E in I2. clear E.
      induction l as [|c l IH]; [cbn in Hs; lia|].
      apply Forall_cons_iff in I2 as [Hc I2]. cbn in Hs.
      assert (c = O) by lia. subst c. apply IH; [exact I2|exact Hs].
    + assert (P : (1 <= fold_left Nat.max l O)%nat).
      { clear I. induction l as [|c l IH]; [cbn in Hs; lia|].
        apply Forall_cons_iff in I2 as [Hc I2].
        destruct c as [|c]; [|lia].
        cbn [fold_left Nat.max] in *. apply IH; [exact I2|exact Hs]. }
      now rewrite Nat.max_l by lia.
Qed.

Lemma HistogramChart_maxCount (data : option table)
    (h : DataExploration.Histogram) :
  DataExploration.HistogramChart data = Some h ->
  DataExploration.maxCount h
  = fold_left Nat.max (DataExploration.histogram h ++ [1%nat]) O
  /\ exists k, DataExploration.bins h = of_Z k /\ (5 <= k)%Z
               /\ length (DataExploration.histogram h) = Z.to_nat k.
Proof.
  intros Hh.
  destruct (DataExploration.periods data) as [|first ps] eqn:E.
  { unfold DataExploration.HistogramChart in Hh. rewrite E in Hh.
    discriminate. }
  split.
  - unfold DataExploration.HistogramChart in Hh. rewrite E in Hh.
    injection Hh as <-. reflexivity.
  - destruct (HistogramChart_fields data h first ps E Hh)
      as (Eb & _ & _ & _ & Eh).
    destruct (bin_count_spec (length (first :: ps))) as (k & Ek & Hk).
    exists k. rewrite Eb, Eh. split; [exact Ek|]. split; [exact Hk|].
    rewrite fold_increment_length, Ek, zeros_of_Z by lia. apply repeat_length.
Qed.

Lemma of_nat_nonneg (n : nat) : 0 <= Z.of_nat n # 1.
Proof. unfold Qle. cbn. lia. Qed.

Lemma of_nat_le (a b : nat) :
  (a <= b)%nat -> (Z.of_nat a # 1) <= (Z.of_nat b # 1).
Proof. intros L. unfold Qle. cbn. lia. Qed.

(** A bar of a histogram with [k] bins, for a count of at most [maxCount]. *)
Lemma bar_of_within (h : DataExploration.Histogram) (k : Z) (i c : nat) :
  DataExploration.bins h = of_Z k -> (5 <= k)%Z ->
  (Z.of_nat i < k)%Z -> (c <= DataExploration.maxCount h)%nat ->
  (1 <= DataExploration.maxCount h)%nat ->
  let b := HistogramBars.bar_of h i c in
  num_le (Fin 0) (HistogramBars.bar_height b) = true
  /\ num_le (HistogramBars.bar_height b) DataExploration.plot_height = true
  /\ num_le DataExploration.plot_top (HistogramBars.bar_y b) = true
  /\ num_le (HistogramBars.bar_y b) DataExploration.plot_bottom = true
  /\ num_le (lit 0.4) (HistogramBars.alpha b) = true
  /\ num_le (HistogramBars.alpha b) (Fin 1) = true
  /\ num_le DataExploration.plot_left (HistogramBars.bar_x b) = true
  /\ num_le (num_add (HistogramBars.bar_x b) (HistogramBars.barW b))
       (num_add DataExploration.plot_left DataExploration.plot_width) = true
  /\ (num_lt (Fin 0) (HistogramBars.barW b) = true <-> (k < 160)%Z)
  /\ (c = DataExploration.maxCount h ->
      HistogramBars.bar_height b = DataExploration.plot_height
      /\ HistogramBars.bar_y b = DataExploration.plot_top).
Proof.
  intros Ek Hk Hi Hc Hm. cbv zeta.
  unfold HistogramBars.bar_of.
  cbn [HistogramBars.bar_height HistogramBars.bar_y HistogramBars.alpha
       HistogramBars.bar_x HistogramBars.barW].
  rewrite Ek. unfold DataExploration.plot_height, DataExploration.plot_top,
    DataExploration.plot_bottom, DataExploration.plot_left,
    DataExploration.plot_width, of_nat, of_Z.
  set (mc := Z.of_nat (DataExploration.maxCount h) # 1).
  set (cq := Z.of_nat c # 1). set (iq := Z.of_nat i # 1). set (kq := k # 1).
  assert (Pm : 1 <= mc) by (apply (of_nat_le 1); exact Hm).
  assert (Pc : 0 <= cq) by apply of_nat_nonneg.
  assert (Pcm : cq <= mc) by (apply of_nat_le; exact Hc).
  assert (Pi : 0 <= iq) by apply of_nat_nonneg.
  assert (Pk : 5 <= kq) by (unfold kq, Qle; cbn; lia).
  assert (Pik : iq + 1 <= kq) by (unfold iq, kq, Qle, Qplus; cbn; lia).
  rewrite !num_div_fin by lra.
  assert (R : 0 <= cq / mc <= 1).
  { split; [apply Qle_shift_div_l; lra|apply Qle_shift_div_r; lra]. }
  assert (W : 0 < 320 / kq <= 64).
  { split; [apply Qlt_shift_div_l; lra|apply Qle_shift_div_r; lra]. }
  assert (X : (iq + 1) * (320 / kq) <= 320).
  { assert (E : 320 == kq * (320 / kq)) by (field; lra). nra. }
  unfold num_mul, num_add, num_sub, lit.
  repeat split; try (apply num_le_fin; rewrite ?Qred_correct; nra).
  - intros L. apply num_lt_fin in L. rewrite !Qred_correct in L.
    assert (2 * kq < 320).
    { assert (E : 320 == kq * (320 / kq)) by (field; lra). nra. }
    unfold kq, Qlt in *. cbn in *. lia.
  - intros L. apply num_lt_fin. rewrite !Qred_correct.
    assert (2 < 320 / kq); [|lra]. apply Qlt_shift_div_l; [lra|].
    unfold kq, Qlt. cbn. lia.
  - subst c. f_equal. apply (Qred_complete _ 180). rewrite Qred_correct.
    change cq with mc. clearbody mc. field. lra.
  - subst c. f_equal. apply (Qred_complete _ 30). rewrite !Qred_correct.
    change cq with mc. clearbody mc. field. lra.
Qed.

End BarFacts.

(** ** The bars drawn for the histogram *)

Section BarsDrawn.
Context `{Runtime}.

Local Open Scope Q_scope.

(** X8: the histogram draws one bar for each bin, and every bar stays
    inside the plot area, whatever the counts are: the divisor
    [Math.max(...histogram, 1)] is at least 1 and at least every count.
    The width of a bar, [plot.width / bins - 2], is positive exactly when
    there are fewer than 160 bins. When all periods are finite, one bar
    is as tall as the plot. *)
Theorem bars_within_plot (data : option table)
    (h : DataExploration.Histogram) :
  DataExploration.HistogramChart data = Some h ->
  length (HistogramBars.bars h) = length (DataExploration.histogram h)
  /\ Forall bar_within_plot (HistogramBars.bars h)
  /\ Forall
       (fun b =>
          num_lt (Fin 0) (HistogramBars.barW b) = true
          <-> num_lt (DataExploration.bins h) (Fin 160) = true)
       (HistogramBars.bars h)
  /\ (Forall (fun v => isFinite v = true) (DataExploration.periods data) ->
      Exists bar_reaches_top (HistogramBars.bars h)).
Proof.
  intros Hh.
  destruct (HistogramChart_maxCount data h Hh) as (Em & k & Ek & Hk & Hl).
  pose proof (maxCount_spec (DataExploration.histogram h)) as M.
  cbv zeta in M. rewrite <- Em in M. destruct M as (M1 & M2 & M3).
  assert (B : forall i c,
             DataExploration.histogram h !! i = Some c ->
             (Z.of_nat i < k)%Z /\ (c <= DataExploration.maxCount h)%nat).
  { intros i c L. split.
    - apply lookup_lt_Some in L. rewrite Hl in L. lia.
    - rewrite Forall_lookup in M2. exact (M2 i c L). }
  unfold HistogramBars.bars.
  split; [apply length_imap|]. split; [|split].
  - apply Forall_lookup. intros i b L.
    rewrite list_lookup_imap in L.
    destruct (DataExploration.histogram h !! i) as [c|] eqn:Ec;
      [|discriminate].
    injection L as <-. destruct (B i c Ec) as (Hi & Hc).
    pose proof (bar_of_within h k i c Ek Hk Hi Hc M1) as W. cbv zeta in W.
    unfold bar_within_plot. tauto.
  - apply Forall_lookup. intros i b L.
    rewrite list_lookup_imap in L.
    destruct (DataExploration.histogram h !! i) as [c|] eqn:Ec;
      [|discriminate].
    injection L as <-. destruct (B i c Ec) as (Hi & Hc).
    pose proof (bar_of_within h k i c Ek Hk Hi Hc M1) as W. cbv zeta in W.
    destruct W as (_ & _ & _ & _ & _ & _ & _ & _ & W & _).
    rewrite W, Ek. unfold of_Z. rewrite num_lt_fin.
    unfold Qlt. cbn [Qnum Qden]. lia.
  - intros F.
    pose proof (HistogramChart_total data h Hh F) as T.
    assert (P : (1 <= list_sum (DataExploration.histogram h))%nat).
    { rewrite T. unfold DataExploration.HistogramChart in Hh.
      destruct (DataExploration.periods data); [discriminate|].
      cbn [length]. lia. }
    apply M3 in P. apply list_elem_of_In, list_elem_of_lookup in P.
    destruct P as (i & Ei). destruct (B i _ Ei) as (Hi & Hc).
    pose proof (bar_of_within h k i _ Ek Hk Hi Hc M1) as W. cbv zeta in W.
    apply Exists_exists.
    exists (HistogramBars.bar_of h i (DataExploration.maxCount h)).
    split.
    + apply list_elem_of_lookup. exists i.
      rewrite list_lookup_imap, Ei. reflexivity.
    + unfold bar_reaches_top. apply W. reflexivity.
Qed.

End BarsDrawn.

(** ** The points of the scatter plot *)

Section PointsDrawn.
Context `{Runtime}.

Local Open Scope Q_scope.

Lemma max2_upper (a v : number) (q : Q) :
  num_le (max2 a v) (Fin q) = true ->
  num_le a (Fin q) = true /\ num_le v (Fin q) = true.
Proof.
  destruct a as [| | |a], v as [| | |v]; cbn [max2 num_lt num_le];
    try discriminate; try (intros E; split; [reflexivity|exact E]);
    try (intros E; split; [exact E|reflexivity]).
  destruct (negb (Qle_bool v a)) eqn:L; intros E.
  - apply Bool.negb_true_iff, Qle_bool_false in L.
    apply Qle_bool_iff in E. split; apply Qle_bool_iff; lra.
  - apply Bool.negb_false_iff, Qle_bool_iff in L.
    apply Qle_bool_iff in E. split; apply Qle_bool_iff; lra.
Qed.

Lemma fold_max2_upper (xs : list number) (acc : number) (q : Q) :
  num_le (fold_left max2 xs acc) (Fin q) = true ->
  num_le acc (Fin q) = true
  /\ Forall (fun v => num_le v (Fin q) = true) xs.
Proof.
  revert acc. induction xs as [|v xs IH]; intros acc E.
  - split; [exact E|constructor].
  - cbn [fold_left] in E. destruct (IH _ E) as (A & F).
    destruct (max2_upper acc v q A) as (A1 & A2).
    split; [exact A1|]. constructor; [exact A2|exact F].
Qed.

(** [Math.max(...xs, 1)] of finite numbers is a finite number, at least 1
    and at least every one of them. *)
Lemma Math_max_guard_upper (xs : list number) :
  Forall (fun v => isFinite v = true) xs ->
  exists q, Math_max (xs ++ [Fin 1]) = Fin q /\ 1 <= q
            /\ Forall (fun v => num_le v (Fin q) = true) xs.
Proof.
  intros F. destruct (Math_max_guard_finite xs F) as (q & E & Hq).
  exists q. split; [exact E|]. split; [exact Hq|].
  unfold Math_max in E.
  assert (L : num_le (fold_left max2 (xs ++ [Fin 1]) NInf) (Fin q) = true).
  { rewrite E. apply num_le_fin. lra. }
  apply fold_max2_upper in L. destruct L as (_ & L).
  apply Forall_app in L. tauto.
Qed.

(** A finite coordinate [a], divided by a maximum it does not exceed and
    stretched to a length [len]. *)
Lemma normalized_within (a q len : Q) :
  1 <= q -> a <= q -> 0 <= len ->
  exists n, num_mul (num_div (Fin a) (Fin q)) (Fin len) = Fin n
            /\ n <= len /\ (0 <= a -> 0 <= n) /\ (a <= 0 -> n <= 0).
Proof.
  intros Hq Ha Hl. rewrite num_div_fin by lra.
  unfold lit, num_mul, lit. eexists. split; [reflexivity|].
  rewrite !Qred_correct.
  assert (E : a == q * (a / q)) by (field; lra).
  split; [|split].
  - assert (a / q <= 1) by (apply Qle_shift_div_r; lra). nra.
  - intros P. assert (0 <= a / q) by (apply Qle_shift_div_l; lra). nra.
  - intros P. assert (a / q <= 0); [|nra].
    apply Qle_shift_div_r; lra.
Qed.

(** X9: when the coordinates of all the points of the scatter plot are
    finite, no circle is drawn right of the right edge of the plot or above
    its top edge; a point with a non-negative period is drawn at or right
    of the left edge, and one with a non-negative radius at or above the
    bottom edge, so it is within the plot area. A point with a coordinate
    that is not positive is not drawn inside the axis of that coordinate:
    at or left of the left edge, at or below the bottom edge. *)
Theorem scatter_points_within_plot (data : option table) :
  Forall (fun p => isFinite (DataExploration.x p) = true
                   /\ isFinite (DataExploration.y p) = true)
    (DataExploration.scatter data) ->
  Forall2
    (fun p c =>
       num_le (DataExploration.circle_cx c)
         (num_add DataExploration.plot_left DataExploration.plot_width) = true
       /\ num_le DataExploration.plot_top (DataExploration.circle_cy c) = true
       /\ (num_le (Fin 0) (DataExploration.x p) = true ->
           num_le DataExploration.plot_left (DataExploration.circle_cx c)
           = true)
       /\ (num_le (Fin 0) (DataExploration.y p) = true ->
           num_le (DataExploration.circle_cy c) DataExploration.plot_bottom
           = true)
       /\ (num_le (DataExploration.x p) (Fin 0) = true ->
           num_le (DataExploration.circle_cx c) DataExploration.plot_left
           = true)
       /\ (num_le (DataExploration.y p) (Fin 0) = true ->
           num_le DataExploration.plot_bottom (DataExploration.circle_cy c)
           = true))
    (DataExploration.scatter data) (DataExploration.ScatterPlot data).
Proof.
  intros F. unfold DataExploration.ScatterPlot. cbv zeta.
  set (pts := DataExploration.scatter data) in *.
  destruct (Math_max_guard_upper (map DataExploration.x pts))
    as (qx & Ex & Hx & Ux).
  { apply Forall_map. eapply Forall_impl; [exact F|]. cbn. tauto. }
  destruct (Math_max_guard_upper (map DataExploration.y pts))
    as (qy & Ey & Hy & Uy).
  { apply Forall_map. eapply Forall_impl; [exact F|]. cbn. tauto. }
  rewrite Forall_map in Ux, Uy.
  apply Forall2_fmap_r, Forall_Forall2_diag.
  apply Forall_forall. intros p Hp.
  rewrite Forall_forall in F, Ux, Uy.
  destruct (F p Hp) as (Fx & Fy).
  specialize (Ux p Hp). specialize (Uy p Hp). cbn beta in Ux, Uy.
  unfold compose. cbn beta.
  cbn [DataExploration.circle_cx DataExploration.circle_cy].
  unfold DataExploration.cx, DataExploration.cy,
    DataExploration.normalized_x, DataExploration.normalized_y,
    DataExploration.maxX, DataExploration.maxY.
  fold pts. rewrite Ex, Ey.
  destruct (DataExploration.x p) as [| | |a]; try discriminate.
  destruct (DataExploration.y p) as [| | |b]; try discriminate.
  apply num_le_fin in Ux, Uy.
  unfold DataExploration.plot_width, DataExploration.plot_height,
    DataExploration.plot_left, DataExploration.plot_bottom,
    DataExploration.plot_top.
  destruct (normalized_within a qx 320 Hx Ux) as (n & -> & N1 & N2 & N3);
    [lra|].
  destruct (normalized_within b qy 180 Hy Uy) as (m & -> & M1 & M2 & M3);
    [lra|].
  unfold num_add, num_sub, lit.
  rewrite !num_le_fin, !Qred_correct.
  repeat split; intros; lra.
Qed.

End PointsDrawn.

(** ** The donut chart of the overview *)

Section DonutFacts.
Context `{Runtime}.

Local Open Scope Q_scope.

Lemma totalConfirmed_from (entries : list (string * nat)) (a : nat) :
  fold_left (fun a e => (a + snd e)%nat) entries a
  = (a + list_sum (map snd entries))%nat.
Proof.
  revert a. induction entries as [|e entries IH]; intros a;
    cbn [fold_left map list_sum fold_right].
  - lia.
  - rewrite IH. fold (list_sum (map snd entries)). lia.
Qed.

Lemma totalConfirmed_sum (entries : list (string * nat)) :
  OverviewPanel.totalConfirmed entries = list_sum (map snd entries).
Proof. unfold OverviewPanel.totalConfirmed. now rewrite totalConfirmed_from. Qed.

(** The entries of a tally, in any order, add up to its total count. *)
Lemma totalConfirmed_tally (m : gmap string nat)
    (entries : list (string * nat)) :
  entries ≡ₚ map_to_list m ->
  OverviewPanel.totalConfirmed entries = total_count m.
Proof.
  intros P. rewrite totalConfirmed_sum, P. clear P entries.
  induction m as [|k n m Hk IH] using map_ind.
  - rewrite map_to_list_empty. reflexivity.
  - rewrite total_count_insert by exact Hk.
    rewrite (map_to_list_insert m k n Hk).
    cbn [map list_sum fold_right snd].
    fold (list_sum (map snd (map_to_list m))). now rewrite IH.
Qed.

Lemma segments_from_length (total : nat) (entries : list (string * nat))
    (i c : nat) :
  length (OverviewPanel.segments_from total entries i c) = length entries.
Proof.
  revert i c. induction entries as [|[d n] entries IH]; intros i c;
    cbn [OverviewPanel.segments_from length]; [reflexivity|].
  now rewrite IH.
Qed.

(** The [k]-th segment runs from the share of the counts before it to the
    share of the counts up to it. *)
Lemma segments_from_lookup (total : nat) (entries : list (string * nat))
    (i c k : nat) (s : OverviewPanel.segment) :
  OverviewPanel.segments_from total entries i c !! k = Some s ->
  OverviewPanel.seg_start s
  = OverviewPanel.share (c + list_sum (map snd (take k entries))) total
  /\ OverviewPanel.seg_end s
     = OverviewPanel.share (c + list_sum (map snd (take (S k) entries))) total
  /\ OverviewPanel.strokeDashoffset s
     = num_sub (Fin 100) (OverviewPanel.seg_end s)
  /\ OverviewPanel.stroke s = OverviewPanel.color_at (i + k).
Proof.
  revert i c k. induction entries as [|[d n] entries IH]; intros i c k L.
  - discriminate.
  - cbn [OverviewPanel.segments_from] in L. destruct k as [|k].
    + injection L as <-.
      cbn [OverviewPanel.seg_start OverviewPanel.seg_end
           OverviewPanel.strokeDashoffset OverviewPanel.stroke
           take map list_sum fold_right snd].
      rewrite !Nat.add_0_r. repeat split; reflexivity.
    + change ((?x :: ?l) !! S k) with (l !! k) in L.
      destruct (IH _ _ _ L) as (E1 & E2 & E3 & E4).
      split; [|split; [|split; [exact E3|]]].
      * rewrite E1. cbn [take map list_sum fold_right snd]. unfold list_sum.
        f_equal. lia.
      * rewrite E2. cbn [take map list_sum fold_right snd]. unfold list_sum.
        f_equal. lia.
      * rewrite E4. f_equal. lia.
Qed.

Lemma share_fin (a total : nat) :
  (0 < total)%nat ->
  OverviewPanel.share a total
  = lit ((Z.of_nat a # 1) / (Z.of_nat total # 1) * 100).
Proof.
  intros P. unfold OverviewPanel.share, of_nat, of_Z.
  rewrite num_div_fin by (unfold Qeq; cbn; lia).
  unfold num_mul, lit. f_equal. apply Qred_complete.
  now rewrite !Qred_correct.
Qed.

Lemma share_none (total : nat) :
  (0 < total)%nat -> OverviewPanel.share 0 total = Fin 0.
Proof.
  intros P. rewrite share_fin by exact P. apply (lit_eq _ 0).
  change (Z.of_nat 0 # 1) with 0. field. unfold Qeq; cbn; lia.
Qed.

Lemma share_all (total : nat) :
  (0 < total)%nat -> OverviewPanel.share total total = Fin 100.
Proof.
  intros P. rewrite share_fin by exact P. apply (lit_eq _ 100).
  field. unfold Qeq; cbn; lia.
Qed.

Lemma share_le (a b total : nat) :
  (0 < total)%nat -> (a <= b)%nat ->
  num_le (OverviewPanel.share a total) (OverviewPanel.share b total) = true.
Proof.
  intros P L. rewrite !share_fin by exact P. apply num_le_lit.
  assert (T : 0 < Z.of_nat total # 1) by (unfold Qlt; cbn; lia).
  assert (AB : Z.of_nat a # 1 <= Z.of_nat b # 1) by (unfold Qle; cbn; lia).
  apply Qmult_le_compat_r; [|lra].
  unfold Qdiv. apply Qmult_le_compat_r; [exact AB|].
  apply Qlt_le_weak, Qinv_lt_0_compat, T.
Qed.

(** X10: the donut chart of the overview, drawn from the entries of the
    tally of dispositions taken in any order: when there is an entry, the
    counts of the entries add up to the number of rows, there is one
    segment for each entry, the first segment starts at 0, each next one
    starts where the one before it ends, the last one ends at 100, no
    segment ends before it starts, and the dash offset of a segment is 100
    minus its end. *)
Theorem donut_segments_cover_circle (data : option table)
    (entries : list (string * nat)) :
  entries ≡ₚ map_to_list
               (DataExploration.dispositions (DataExploration.stats data)) ->
  entries <> [] ->
  let segs := OverviewPanel.segments entries in
  OverviewPanel.totalConfirmed entries
  = DataExploration.total (DataExploration.stats data)
  /\ length segs = length entries
  /\ (forall s, head segs = Some s -> OverviewPanel.seg_start s = Fin 0)
  /\ (forall k s t,
        segs !! k = Some s -> segs !! S k = Some t ->
        OverviewPanel.seg_start t = OverviewPanel.seg_end s)
  /\ (forall s, last segs = Some s -> OverviewPanel.seg_end s = Fin 100)
  /\ Forall
       (fun s =>
          num_le (OverviewPanel.seg_start s) (OverviewPanel.seg_end s) = true
          /\ OverviewPanel.strokeDashoffset s
             = num_sub (Fin 100) (OverviewPanel.seg_end s))
       segs.
Proof.
  intros P N. cbv zeta.
  pose proof (totalConfirmed_tally _ _ P) as T.
  assert (R : total_count
                (DataExploration.dispositions (DataExploration.stats data))
              = DataExploration.total (DataExploration.stats data)).
  { destruct data as [[cols [rs|]]|]; try reflexivity.
    cbn [DataExploration.stats DataExploration.dispositions
         DataExploration.total].
    now rewrite fold_count_disposition_total. }
  rewrite R in T. split; [exact T|].
  pose proof (totalConfirmed_sum entries) as S.
  set (total := OverviewPanel.totalConfirmed entries) in *.
  assert (Pos : (0 < total)%nat).
  { destruct (Nat.eq_dec total 0%nat) as [Z|Z]; [|lia]. exfalso.
    apply N, Permutation_nil_r. rewrite P. rewrite Z in T.
    destruct data as [[cols [rs|]]|];
      cbn [DataExploration.stats DataExploration.dispositions
           DataExploration.total] in T |- *;
      try (now rewrite map_to_list_empty).
    destruct rs; [|discriminate].
    cbn [fold_left]. now rewrite map_to_list_empty. }
  unfold OverviewPanel.segments. fold total.
  split; [apply segments_from_length|].
  split; [|split; [|split]].
  - intros s Hs. rewrite head_lookup in Hs.
    destruct (segments_from_lookup _ _ _ _ _ _ Hs) as (E & _).
    rewrite E. cbn [take map list_sum fold_right]. now apply share_none.
  - intros k s t Hs Ht.
    destruct (segments_from_lookup _ _ _ _ _ _ Hs) as (_ & E & _).
    destruct (segments_from_lookup _ _ _ _ _ _ Ht) as (E' & _).
    now rewrite E, E'.
  - intros s Hs. rewrite last_lookup, segments_from_length in Hs.
    destruct (segments_from_lookup _ _ _ _ _ _ Hs) as (_ & E & _).
    rewrite E. rewrite take_ge by (destruct entries; cbn; lia).
    rewrite <- S. now apply share_all.
  - apply Forall_lookup. intros k s Hs.
    destruct (segments_from_lookup _ _ _ _ _ _ Hs) as (E1 & E2 & E3 & _).
    split; [|exact E3]. rewrite E1, E2. apply share_le; [exact Pos|].
    apply lookup_lt_Some in Hs. rewrite segments_from_length in Hs.
    rewrite (take_S_r entries k (default ("", O) (entries !! k)))
      by (destruct (entries !! k) eqn:E;
          [reflexivity|apply lookup_ge_None in E; lia]).
    rewrite map_app, list_sum_app. lia.
Qed.

End DonutFacts.

(** ** The earlier histogram, with its 20 bins *)

Section FixedBinsFacts.
Context `{Runtime}.

Local Open Scope Q_scope.

Lemma validPeriods_no_nan (data : option table) :
  no_nan (DataExplorationFixedBins.validPeriods data).
Proof.
  unfold DataExplorationFixedBins.validPeriods. cbv zeta.
  apply Array_sort_no_nan, Forall_forall.
  intros v Hv. apply list_elem_of_In, filter_In in Hv as [_ Hv].
  apply Bool.andb_true_iff in Hv as [Hv _]. now apply Bool.negb_true_iff.
Qed.

Lemma validPeriods_ascending (data : option table) :
  ascending (DataExplorationFixedBins.validPeriods data).
Proof.
  unfold DataExplorationFixedBins.validPeriods. cbv zeta.
  apply Array_sort_ascending, Forall_forall.
  intros v Hv. apply list_elem_of_In, filter_In in Hv as [_ Hv].
  apply Bool.andb_true_iff in Hv as [Hv _]. now apply Bool.negb_true_iff.
Qed.

(** The counts of the bins the chart is drawn from are the counts of the
    array the periods were filed in. *)
Lemma histogram_bins_counts (f g : nat -> number) (h : list nat) :
  map DataExplorationFixedBins.count
    (imap (fun index count =>
             {| DataExplorationFixedBins.binStart := f index;
                DataExplorationFixedBins.binEnd := g index;
                DataExplorationFixedBins.count := count |}) h)
  = h.
Proof.
  revert f g. induction h as [|c h IH]; intros f g; [reflexivity|].
  cbn [imap map DataExplorationFixedBins.count]. f_equal.
  apply (IH (f ∘ S) (g ∘ S)).
Qed.

(** With a width of 0 the index of the one value of the range is
    [floor(0 / 0)]: no index at all. *)
Lemma binIndex_zero_width (m w q : Q) :
  w == 0 -> q == m ->
  DataExplorationFixedBins.binIndex (Fin m) (Fin w) (Fin q) = NaN.
Proof.
  intros Hw Hq. unfold DataExplorationFixedBins.binIndex.
  unfold num_sub at 2. unfold lit, num_div.
  rewrite (proj2 (Qeq_bool_iff w 0) Hw).
  assert (Z : Qnum (Qred (q - m)) = 0%Z).
  { assert (E : Qred (q - m) == 0) by (rewrite Qred_correct; lra).
    unfold Qeq in E. cbn [Qnum Qden] in E. lia. }
  cbn [num_sgn]. rewrite Z. reflexivity.
Qed.

(** An increment adds at most one to the total. *)
Lemma increment_sum_le (h : list nat) (i : number) :
  (list_sum (DataExploration.increment h i) <= S (list_sum h))%nat.
Proof.
  unfold DataExploration.increment.
  destruct (DataExploration.to_index i) as [k|]; [|lia].
  destruct (h !! k) as [c|] eqn:E; [|lia].
  rewrite (list_sum_insert h k c E). lia.
Qed.

Lemma fold_increment_sum_le (f : number -> number) (vs : list number)
    (h : list nat) :
  (list_sum (fold_left (fun h v => DataExploration.increment h (f v)) vs h)
   <= list_sum h + length vs)%nat.
Proof.
  revert h. induction vs as [|v vs IH]; intros h; cbn [fold_left length];
    [lia|].
  pose proof (IH (DataExploration.increment h (f v))) as L.
  pose proof (increment_sum_le h (f v)). lia.
Qed.

(** X11: the earlier histogram of a column with a positive period, all
    of them finite: it has 20 bins, and their counts never sum to more
    than the number of periods; when the width of a bin,
    [(max - min) / bins], is positive, every period is counted and the
    counts sum to their number; when the smallest and the largest period
    are equal, no period is counted and every bin stays at 0. *)
Theorem histogramData_counts (data : option table) (min : number)
    (ps : list number) :
  DataExplorationFixedBins.validPeriods data = min :: ps ->
  Forall (fun v => isFinite v = true) (min :: ps) ->
  let hist := DataExplorationFixedBins.histogramData data in
  let max := List.last (min :: ps) min in
  let binWidth := num_div (num_sub max min) DataExplorationFixedBins.bins in
  length hist = 20%nat
  /\ (list_sum (map DataExplorationFixedBins.count hist)
      <= length (min :: ps))%nat
  /\ (num_lt (Fin 0) binWidth = true ->
      list_sum (map DataExplorationFixedBins.count hist)
      = length (min :: ps))
  /\ (num_eq min max = true ->
      Forall (fun b => DataExplorationFixedBins.count b = O) hist).
Proof.
  pose proof (validPeriods_no_nan data) as Hn.
  pose proof (validPeriods_ascending data) as Hs.
  intros E Hf. cbv zeta.
  unfold DataExplorationFixedBins.histogramData. cbv zeta.
  rewrite E in *.
  pose proof (ascending_first min ps Hn Hs) as Hlow.
  pose proof (ascending_last (min :: ps) min Hn Hs) as Hhigh.
  assert (Hfin : forall v, In v (min :: ps) -> exists q, v = Fin q).
  { intros v Hv. rewrite Forall_forall in Hf.
    specialize (Hf v (proj2 (list_elem_of_In _ _) Hv)).
    destruct v; try discriminate. eauto. }
  destruct (Hfin min (or_introl eq_refl)) as [m Em]. rewrite Em in *.
  destruct (Hfin _ (last_In (Fin m :: ps) (Fin m) ltac:(discriminate)))
    as [M EM].
  rewrite EM in *.
  assert (HM : m <= M).
  { rewrite Forall_forall in Hlow. apply num_le_fin. rewrite <- EM.
    apply Hlow, list_elem_of_In, last_In. discriminate. }
  assert (Ew : num_div (num_sub (Fin M) (Fin m)) DataExplorationFixedBins.bins
               = Fin (Qred (Qred (M - m) / 20))).
  { unfold num_sub, lit, DataExplorationFixedBins.bins.
    apply num_div_fin. lra. }
  rewrite Ew. set (w := Qred (Qred (M - m) / 20)).
  assert (Hw : w == (M - m) / 20).
  { unfold w. now rewrite !Qred_correct. }
  change (DataExploration.zeros DataExplorationFixedBins.bins)
    with (DataExploration.zeros (of_Z 20)).
  rewrite zeros_of_Z by lia.
  split; [|split; [|split]].
  - rewrite length_imap.
    rewrite (fold_increment_length
               (DataExplorationFixedBins.binIndex (Fin m) (Fin w))).
    apply repeat_length.
  - rewrite histogram_bins_counts.
    pose proof (fold_increment_sum_le
                  (DataExplorationFixedBins.binIndex (Fin m) (Fin w))
                  (Fin m :: ps) (repeat O (Z.to_nat 20))) as L.
    rewrite list_sum_repeat_0 in L. exact L.
  - intros L. apply num_lt_fin in L. rewrite histogram_bins_counts.
    assert (Hvs : Forall (fun v => exists q, v = Fin q /\ m <= q)
                    (Fin m :: ps)).
    { apply Forall_forall. intros v Hv. apply list_elem_of_In in Hv.
      destruct (Hfin v Hv) as [q ->]. exists q. split; [reflexivity|].
      rewrite Forall_forall in Hlow.
      apply num_le_fin, (Hlow (Fin q)), list_elem_of_In, Hv. }
    change (fun h period =>
              DataExploration.increment h
                (DataExplorationFixedBins.binIndex (Fin m) (Fin w) period))
      with (fun h v =>
              DataExploration.increment h
                (DataExploration.bin_index (Fin m) (Fin w) (of_Z 20) v)).
    rewrite (histogram_fold_total m w 20);
      [now rewrite list_sum_repeat_0|exact L|lia|apply repeat_length
      |exact Hvs].
  - intros L. cbn [num_eq] in L. apply Qeq_bool_iff in L.
    assert (HmM : M == m) by lra.
    assert (Hvs : Forall (fun v => exists q, v = Fin q /\ q == m)
                    (Fin m :: ps)).
    { apply Forall_forall. intros v Hv. apply list_elem_of_In in Hv.
      destruct (Hfin v Hv) as [q ->]. exists q. split; [reflexivity|].
      rewrite Forall_forall in Hlow, Hhigh.
      pose proof (Hlow (Fin q) (proj2 (list_elem_of_In _ _) Hv)) as L1.
      pose proof (Hhigh (Fin q) (proj2 (list_elem_of_In _ _) Hv)) as L2.
      apply num_le_fin in L1, L2. lra. }
    assert (Hz : w == 0) by (rewrite Hw, HmM; field).
    assert (Eh : fold_left
                   (fun h period =>
                      DataExploration.increment h
                        (DataExplorationFixedBins.binIndex (Fin m) (Fin w)
                           period))
                   (Fin m :: ps) (repeat O (Z.to_nat 20))
                 = repeat O (Z.to_nat 20)).
    { generalize (repeat O (Z.to_nat 20)). revert Hvs.
      generalize (Fin m :: ps). intros vs Hvs.
      induction Hvs as [|v vs (q & -> & Hq) _ IH]; intros h;
        cbn [fold_left]; [reflexivity|].
      rewrite binIndex_zero_width by assumption.
      rewrite increment_nan. apply IH. }
    rewrite Eh. apply Forall_lookup. intros i b Hb.
    rewrite list_lookup_imap in Hb.
    destruct (repeat O (Z.to_nat 20) !! i) as [c|] eqn:Ec; [|discriminate].
    injection Hb as <-. cbn [DataExplorationFixedBins.count].
    apply list_elem_of_lookup_2, list_elem_of_In, repeat_spec in Ec.
    exact Ec.
Qed.

End FixedBinsFacts.

(** ** The earlier scatter plot, without the guard on its maxima *)

Section FixedBinsScatter.
Context `{Runtime}.

Local Open Scope Q_scope.

Lemma fold_max2_fin (xs : list number) (a : Q) :
  Forall (fun v => isFinite v = true) xs ->
  exists q, fold_left max2 xs (Fin a) = Fin q.
Proof.
  intros F. revert a. induction F as [|v xs Hv _ IH]; intros a;
    cbn [fold_left]; [eauto|].
  destruct v as [| | |b]; try discriminate. cbn [max2].
  destruct (num_lt (Fin a) (Fin b)); apply IH.
Qed.

(** [scatterData.length > 0 ? Math.max(...values) : 0] on finite values: a
    finite number that none of the values exceeds. *)
Lemma guarded_max_upper (xs : list number) :
  Forall (fun v => isFinite v = true) xs ->
  exists q,
    (if (0 <? length xs)%nat then Math_max xs else Fin 0) = Fin q
    /\ Forall (fun v => num_le v (Fin q) = true) xs.
Proof.
  intros F. destruct xs as [|v xs]; [exists 0; split; [reflexivity|constructor]|].
  cbn [length Nat.ltb Nat.leb]. unfold Math_max. cbn [fold_left].
  pose proof F as F'. apply Forall_cons_iff in F' as [Hv Hxs].
  destruct v as [| | |a]; try discriminate.
  change (max2 NInf (Fin a)) with (Fin a).
  destruct (fold_max2_fin xs a Hxs) as [q E]. exists q. split; [exact E|].
  assert (L : num_le (fold_left max2 xs (Fin a)) (Fin q) = true).
  { rewrite E. apply num_le_fin. lra. }
  apply fold_max2_upper in L as [L1 L2]. now constructor.
Qed.

(** A coordinate [a] of a range with the positive maximum [q]. *)
Lemma normalized_positive_max (a q len : Q) :
  0 < q -> a <= q -> 0 <= len ->
  exists n, num_mul (num_div (Fin a) (Fin q)) (Fin len) = Fin n
            /\ n <= len /\ (0 <= a -> 0 <= n).
Proof.
  intros Hq Ha Hl. rewrite num_div_fin by lra.
  unfold lit, num_mul, lit. eexists. split; [reflexivity|].
  rewrite !Qred_correct.
  assert (E : a == q * (a / q)) by (field; lra).
  split.
  - assert (a / q <= 1) by (apply Qle_shift_div_r; lra). nra.
  - intros P. assert (0 <= a / q) by (apply Qle_shift_div_l; lra). nra.
Qed.

(** The coordinate 0 of a range whose maximum is 0: [0 / 0]. *)
Lemma normalized_zero_max (a q len : Q) :
  q == 0 -> a == 0 ->
  num_mul (num_div (Fin a) (Fin q)) (Fin len) = NaN.
Proof.
  intros Hq Ha. unfold num_div. rewrite (proj2 (Qeq_bool_iff q 0) Hq).
  assert (Z : Qnum a = 0%Z).
  { unfold Qeq in Ha. cbn [Qnum Qden] in Ha. lia. }
  cbn [num_sgn]. rewrite Z. reflexivity.
Qed.

(** X21: the earlier scatter plot, on points with finite coordinates. Its
    maxima are finite numbers. On an axis whose maximum is positive no
    point is drawn past the far edge of the plot (right of 360, above 30),
    and a point with a non-negative coordinate is drawn inside the plot.
    On an axis whose maximum is 0 the position of every point at 0 is
    NaN: the division the later component guards with [Math.max(..., 1)]
    is [0 / 0] here. *)
Theorem earlier_scatter_positions (data : option table) :
  let pts := DataExplorationFixedBins.scatterData data in
  Forall (fun p => isFinite (DataExplorationFixedBins.x p) = true
                   /\ isFinite (DataExplorationFixedBins.y p) = true) pts ->
  exists qx qy,
    DataExplorationFixedBins.maxX pts = Fin qx
    /\ DataExplorationFixedBins.maxY pts = Fin qy
    /\ (0 < qx ->
        Forall2
          (fun p c =>
             num_le (fst c) (Fin 360) = true
             /\ (num_le (Fin 0) (DataExplorationFixedBins.x p) = true ->
                 num_le (Fin 40) (fst c) = true))
          pts (DataExplorationFixedBins.ScatterPlot data))
    /\ (0 < qy ->
        Forall2
          (fun p c =>
             num_le (Fin 30) (snd c) = true
             /\ (num_le (Fin 0) (DataExplorationFixedBins.y p) = true ->
                 num_le (snd c) (Fin 210) = true))
          pts (DataExplorationFixedBins.ScatterPlot data))
    /\ (qx == 0 ->
        Forall2
          (fun p c =>
             num_eq (DataExplorationFixedBins.x p) (Fin 0) = true ->
             fst c = NaN)
          pts (DataExplorationFixedBins.ScatterPlot data))
    /\ (qy == 0 ->
        Forall2
          (fun p c =>
             num_eq (DataExplorationFixedBins.y p) (Fin 0) = true ->
             snd c = NaN)
          pts (DataExplorationFixedBins.ScatterPlot data)).
Proof.
  cbv zeta. intros F.
  unfold DataExplorationFixedBins.ScatterPlot. cbv zeta.
  set (pts := DataExplorationFixedBins.scatterData data) in *.
  destruct (guarded_max_upper (map DataExplorationFixedBins.x pts))
    as (qx & Ex & Ux).
  { apply Forall_map. eapply Forall_impl; [exact F|]. cbn. tauto. }
  destruct (guarded_max_upper (map DataExplorationFixedBins.y pts))
    as (qy & Ey & Uy).
  { apply Forall_map. eapply Forall_impl; [exact F|]. cbn. tauto. }
  rewrite length_map in Ex, Ey. rewrite Forall_map in Ux, Uy.
  exists qx, qy.
  split; [exact Ex|]. split; [exact Ey|].
  assert (G : forall P : DataExplorationFixedBins.ScatterPoint
                         -> number * number -> Prop,
             (forall p a b,
                DataExplorationFixedBins.x p = Fin a ->
                DataExplorationFixedBins.y p = Fin b ->
                a <= qx -> b <= qy ->
                P p (DataExplorationFixedBins.circle_x pts p,
                     DataExplorationFixedBins.circle_y pts p)) ->
             Forall2 P pts
               (map (fun p => (DataExplorationFixedBins.circle_x pts p,
                               DataExplorationFixedBins.circle_y pts p))
                  pts)).
  { intros P HP. apply Forall2_fmap_r, Forall_Forall2_diag.
    apply Forall_forall. intros p Hp.
    rewrite Forall_forall in F, Ux, Uy.
    destruct (F p Hp) as (Fx & Fy).
    specialize (Ux p Hp). specialize (Uy p Hp). cbn beta in Ux, Uy.
    unfold compose.
    destruct (DataExplorationFixedBins.x p) as [| | |a] eqn:Ea;
      try discriminate.
    destruct (DataExplorationFixedBins.y p) as [| | |b] eqn:Eb;
      try discriminate.
    apply num_le_fin in Ux, Uy. now apply (HP p a b). }
  split; [|split; [|split]].
  - intros Q. apply G. intros p a b Ea Eb La Lb. cbn [fst].
    unfold DataExplorationFixedBins.circle_x,
      DataExplorationFixedBins.normalized_x, DataExplorationFixedBins.maxX.
    rewrite Ea, Ex.
    destruct (normalized_positive_max a qx 320 Q La) as (n & -> & N1 & N2);
      [lra|].
    unfold num_add, lit. rewrite !num_le_fin, !Qred_correct.
    split; [lra|]. intros P. apply N2 in P. lra.
  - intros Q. apply G. intros p a b Ea Eb La Lb. cbn [snd].
    unfold DataExplorationFixedBins.circle_y,
      DataExplorationFixedBins.normalized_y, DataExplorationFixedBins.maxY.
    rewrite Eb, Ey.
    destruct (normalized_positive_max b qy 180 Q Lb) as (n & -> & N1 & N2);
      [lra|].
    unfold num_sub, lit. rewrite !num_le_fin, !Qred_correct.
    split; [lra|]. intros P. apply N2 in P. lra.
  - intros Q. apply G. intros p a b Ea Eb La Lb. cbn [fst].
    unfold DataExplorationFixedBins.circle_x,
      DataExplorationFixedBins.normalized_x, DataExplorationFixedBins.maxX.
    rewrite Ea, Ex. intros Z. apply Qeq_bool_iff in Z.
    now rewrite normalized_zero_max.
  - intros Q. apply G. intros p a b Ea Eb La Lb. cbn [snd].
    unfold DataExplorationFixedBins.circle_y,
      DataExplorationFixedBins.normalized_y, DataExplorationFixedBins.maxY.
    rewrite Eb, Ey. intros Z. apply Qeq_bool_iff in Z.
    now rewrite normalized_zero_max.
Qed.

End FixedBinsScatter.

(** ** The histogram of 25 bins *)

Section TwentyFiveBins.
Context `{Runtime}.

Local Open Scope Q_scope.

Lemma bin_index_zero_width (m w q : Q) (k : number) :
  w == 0 -> q == m ->
  DataExploration.bin_index (Fin m) (Fin w) k (Fin q) = NaN.
Proof.
  intros Hw Hq. unfold DataExploration.bin_index.
  unfold num_sub at 2. unfold lit, num_div.
  rewrite (proj2 (Qeq_bool_iff w 0) Hw).
  assert (Z : Qnum (Qred (q - m)) = 0%Z).
  { assert (E : Qred (q - m) == 0) by (rewrite Qred_correct; lra).
    unfold Qeq in E. cbn [Qnum Qden] in E. lia. }
  cbn [num_sgn]. rewrite Z. cbn [inf_of_sign Math_floor].
  now destruct (num_sub k (Fin 1)).
Qed.

Lemma max2_of_nat (a b : nat) :
  max2 (of_nat a) (of_nat b) = of_nat (Nat.max a b).
Proof.
  unfold of_nat, of_Z. cbn [max2].
  destruct (num_lt (Fin (Z.of_nat a # 1)) (Fin (Z.of_nat b # 1))) eqn:L.
  - apply num_lt_fin in L. unfold Qlt in L. cbn [Qnum Qden] in L.
    do 3 f_equal. lia.
  - assert (N : ~ (Z.of_nat a # 1) < (Z.of_nat b # 1)).
    { intros N. apply num_lt_fin in N. congruence. }
    unfold Qlt in N. cbn [Qnum Qden] in N. do 3 f_equal. lia.
Qed.

(** [Math.max(...histogram)] of an array that is not empty is its largest
    count. *)
Lemma Math_max_counts (c : nat) (l : list nat) :
  Math_max (map of_nat (c :: l)) = of_nat (fold_left Nat.max l c).
Proof.
  unfold Math_max. cbn [map fold_left].
  change (max2 NInf (of_nat c)) with (of_nat c).
  revert c. induction l as [|d l IH]; intros c; [reflexivity|].
  cbn [map fold_left]. now rewrite max2_of_nat, IH.
Qed.

(** X24: the histogram of 25 bins, on periods that are all finite. It has
    25 counts and 25 bars. When the width of a bin, [(max - min) / bins],
    is positive, the counts sum to the number of periods, the largest
    count is at least 1, every bar is within the plot and one is as tall
    as the plot. When the smallest and the largest period are equal, no
    period is counted, the largest count is 0, and the height and the top
    of every bar are NaN. *)
Theorem histogram25_counts_and_bars (data : option table)
    (h : DataExploration25.Histogram) :
  DataExploration25.HistogramChart data = Some h ->
  Forall (fun v => isFinite v = true) (DataExploration.periods data) ->
  length (DataExploration25.histogram h) = 25%nat
  /\ length (DataExploration25.bars h) = 25%nat
  /\ (num_lt (Fin 0) (DataExploration25.width h) = true ->
      list_sum (DataExploration25.histogram h)
      = length (DataExploration.periods data)
      /\ num_le (Fin 1) (DataExploration25.maxCount h) = true
      /\ Forall bar25_within_plot (DataExploration25.bars h)
      /\ Exists (fun b => DataExploration25.bar_height b = Fin 180)
           (DataExploration25.bars h))
  /\ (num_eq (DataExploration25.range_min h) (DataExploration25.range_max h)
      = true ->
      Forall (fun c => c = O) (DataExploration25.histogram h)
      /\ DataExploration25.maxCount h = Fin 0
      /\ Forall (fun b => DataExploration25.bar_height b = NaN
                          /\ DataExploration25.bar_y b = NaN)
           (DataExploration25.bars h)).
Proof.
  pose proof (periods_no_nan data) as Hn.
  pose proof (periods_ascending data) as Hs.
  intros Hh Hf. unfold DataExploration25.HistogramChart in Hh.
  cbv zeta in Hh.
  destruct (DataExploration.periods data) as [|min ps] eqn:E;
    [discriminate|].
  pose proof (ascending_first min ps Hn Hs) as Hlow.
  pose proof (ascending_last (min :: ps) min Hn Hs) as Hhigh.
  assert (Hfin : forall v, In v (min :: ps) -> exists q, v = Fin q).
  { intros v Hv. rewrite Forall_forall in Hf.
    specialize (Hf v (proj2 (list_elem_of_In _ _) Hv)).
    destruct v; try discriminate. eauto. }
  destruct (Hfin min (or_introl eq_refl)) as [m Em]. rewrite Em in *.
  destruct (Hfin _ (last_In (Fin m :: ps) (Fin m) ltac:(discriminate)))
    as [M EM].
  rewrite EM in *.
  assert (HM : m <= M).
  { rewrite Forall_forall in Hlow. apply num_le_fin. rewrite <- EM.
    apply Hlow, list_elem_of_In, last_In. discriminate. }
  assert (Ew : num_div (num_sub (Fin M) (Fin m)) DataExploration25.bins
               = Fin (Qred (Qred (M - m) / 25))).
  { unfold num_sub, lit, DataExploration25.bins. apply num_div_fin. lra. }
  rewrite Ew in Hh. set (w := Qred (Qred (M - m) / 25)) in *.
  assert (Hw : w == (M - m) / 25).
  { unfold w. now rewrite !Qred_correct. }
  change (DataExploration.zeros DataExploration25.bins)
    with (DataExploration.zeros (of_Z 25)) in Hh.
  rewrite zeros_of_Z in Hh by lia.
  change DataExploration25.bins with (of_Z 25) in Hh.
  set (hist := fold_left
                 (fun h v =>
                    DataExploration.increment h
                      (DataExploration.bin_index (Fin m) (Fin w) (of_Z 25) v))
                 (Fin m :: ps) (repeat O (Z.to_nat 25))) in *.
  assert (Lh : length hist = 25%nat).
  { unfold hist.
    rewrite (fold_increment_length
               (DataExploration.bin_index (Fin m) (Fin w) (of_Z 25))).
    apply repeat_length. }
  injection Hh as <-.
  cbn [DataExploration25.histogram DataExploration25.bars
       DataExploration25.range_min DataExploration25.range_max
       DataExploration25.maxCount DataExploration25.width].
  split; [exact Lh|]. split; [now rewrite length_imap|].
  destruct hist as [|c hist'] eqn:Eh; [discriminate|].
  rewrite Math_max_counts.
  set (mc := fold_left Nat.max hist' c).
  destruct (fold_max_spec hist' c) as (M1 & M2 & M3). fold mc in M1, M2, M3.
  assert (Mall : Forall (fun k => (k <= mc)%nat) (c :: hist'))
    by (constructor; assumption).
  assert (Min : In mc (c :: hist')) by (destruct M3; [left|right]; auto).
  split.
  - intros L. apply num_lt_fin in L.
    assert (Hvs : Forall (fun v => exists q, v = Fin q /\ m <= q)
                    (Fin m :: ps)).
    { apply Forall_forall. intros v Hv. apply list_elem_of_In in Hv.
      destruct (Hfin v Hv) as [q ->]. exists q. split; [reflexivity|].
      rewrite Forall_forall in Hlow.
      apply num_le_fin, (Hlow (Fin q)), list_elem_of_In, Hv. }
    assert (T : list_sum (c :: hist') = length (Fin m :: ps)).
    { rewrite <- Eh. unfold hist.
      rewrite (histogram_fold_total m w 25);
        [now rewrite list_sum_repeat_0|exact L|lia|apply repeat_length
        |exact Hvs]. }
    assert (P : (1 <= mc)%nat).
    { destruct (Nat.eq_dec mc 0%nat) as [Z|Z]; [|lia]. exfalso.
      assert (S0 : list_sum (c :: hist') = O).
      { clear - Mall Z. rewrite Z in Mall.
        induction Mall as [|k l Hk _ IH]; [reflexivity|].
        cbn [list_sum fold_right]. fold (list_sum l). lia. }
      rewrite T in S0. discriminate. }
    split; [exact T|]. split.
    { unfold of_nat, of_Z. apply num_le_fin. unfold Qle. cbn. lia. }
    assert (B : forall i k, (k <= mc)%nat ->
                  bar25_within_plot
                    (DataExploration25.bar_of (of_nat mc) i k)
                  /\ (k = mc ->
                      DataExploration25.bar_height
                        (DataExploration25.bar_of (of_nat mc) i k)
                      = Fin 180)).
    { intros i k Hk. unfold bar25_within_plot, DataExploration25.bar_of.
      cbv zeta.
      cbn [DataExploration25.bar_height DataExploration25.bar_y].
      unfold of_nat, of_Z.
      assert (Pm : 1 <= Z.of_nat mc # 1) by (unfold Qle; cbn; lia).
      assert (Pk : 0 <= Z.of_nat k # 1 <= Z.of_nat mc # 1)
        by (unfold Qle; cbn; lia).
      destruct (normalized_positive_max (Z.of_nat k # 1) (Z.of_nat mc # 1)
                  180) as (n & En & N1 & N2); try lra.
      split.
      - rewrite En. unfold num_sub, lit.
        rewrite !num_le_fin, !Qred_correct.
        specialize (N2 (proj1 Pk)). repeat split; lra.
      - intros ->. rewrite num_div_fin by lra. unfold num_mul, lit.
        f_equal. apply (Qred_complete _ 180). rewrite Qred_correct.
        field. lra. }
    split.
    + apply Forall_lookup. intros i b Hb. rewrite list_lookup_imap in Hb.
      destruct ((c :: hist') !! i) as [k|] eqn:Ek; [|discriminate].
      injection Hb as <-. apply B.
      rewrite Forall_lookup in Mall. exact (Mall i k Ek).
    + apply list_elem_of_In, list_elem_of_lookup in Min.
      destruct Min as (i & Ei). apply Exists_exists.
      exists (DataExploration25.bar_of (of_nat mc) i mc). split.
      * apply list_elem_of_lookup. exists i.
        now rewrite list_lookup_imap, Ei.
      * apply (B i mc); lia.
  - intros L. cbn [num_eq] in L. apply Qeq_bool_iff in L.
    assert (HmM : M == m) by lra.
    assert (Hvs : Forall (fun v => exists q, v = Fin q /\ q == m)
                    (Fin m :: ps)).
    { apply Forall_forall. intros v Hv. apply list_elem_of_In in Hv.
      destruct (Hfin v Hv) as [q ->]. exists q. split; [reflexivity|].
      rewrite Forall_forall in Hlow, Hhigh.
      pose proof (Hlow (Fin q) (proj2 (list_elem_of_In _ _) Hv)) as L1.
      pose proof (Hhigh (Fin q) (proj2 (list_elem_of_In _ _) Hv)) as L2.
      apply num_le_fin in L1, L2. lra. }
    assert (Hz : w == 0) by (rewrite Hw, HmM; field).
    assert (Z : c :: hist' = repeat O (Z.to_nat 25)).
    { rewrite <- Eh. unfold hist.
      generalize (repeat O (Z.to_nat 25)). revert Hvs.
      generalize (Fin m :: ps). intros vs Hvs.
      induction Hvs as [|v vs (q & -> & Hq) _ IH]; intros l;
        cbn [fold_left]; [reflexivity|].
      rewrite bin_index_zero_width by assumption.
      rewrite increment_nan. apply IH. }
    assert (A0 : Forall (fun k => k = O) (c :: hist')).
    { rewrite Z. apply Forall_forall. intros k Hk.
      apply list_elem_of_In, repeat_spec in Hk. exact Hk. }
    assert (Z0 : mc = O).
    { rewrite Forall_forall in A0. apply A0, list_elem_of_In, Min. }
    split; [exact A0|]. split; [now rewrite Z0|].
    apply Forall_lookup. intros i b Hb. rewrite list_lookup_imap in Hb.
    destruct ((c :: hist') !! i) as [k|] eqn:Ek; [|discriminate].
    injection Hb as <-.
    rewrite Forall_lookup in A0. rewrite (A0 i k Ek), Z0.
    split; reflexivity.
Qed.

End TwentyFiveBins.

(** ** DataPreview: pages, navigation, search and sort *)

Section PreviewFacts.
Context `{Runtime}.

Local Open Scope Z_scope.

Lemma totalPages_spec (l : list row) :
  DataPreview.totalPages l = (Z.of_nat (length l) + 9) / 10.
Proof.
  unfold DataPreview.totalPages, DataPreview.rowsPerPage, Qceiling, Qfloor.
  cbn [inject_Z Qdiv Qmult Qinv Qopp Qnum Qden].
  change (Z.pos (1 * 10)) with 10. rewrite Z.mul_1_r.
  Z.div_mod_to_equations. lia.
Qed.

(** A page in terms of the list. *)
Lemma currentRows_spec (l : list row) (p : nat) :
  DataPreview.currentRows l (Z.of_nat p) = take 10 (drop (10 * p) l).
Proof.
  unfold DataPreview.currentRows, DataPreview.rowsPerPage,
    JSText.Array_slice, JSText.relative_index. cbv zeta.
  destruct (Z.ltb_spec (Z.of_nat p * 10) 0) as [L|_]; [lia|].
  destruct (Z.ltb_spec (Z.of_nat p * 10 + 10) 0) as [L|_]; [lia|].
  destruct (le_lt_dec (length l) (10 * p)) as [G|G].
  - rewrite !Z.min_r by lia. rewrite Z.sub_diag.
    rewrite (drop_ge l (10 * p)) by lia. now rewrite take_nil.
  - rewrite (Z.min_l (Z.of_nat p * 10)) by lia.
    replace (Z.to_nat (Z.of_nat p * 10)) with (10 * p)%nat by lia.
    destruct (le_lt_dec (length l) (10 * p + 10)) as [G'|G'].
    + rewrite Z.min_r by lia.
      rewrite !take_ge; [reflexivity|rewrite length_drop; lia..].
    + rewrite Z.min_l by lia. f_equal. lia.
Qed.

Lemma pages_concat (k : nat) (l : list row) :
  (length l <= 10 * k)%nat ->
  concat (map (fun p => take 10 (drop (10 * p) l)) (seq 0 k)) = l.
Proof.
  revert l. induction k as [|k IH]; intros l Hl.
  - destruct l; [reflexivity|cbn in Hl; lia].
  - rewrite <- cons_seq, <- seq_shift. cbn [map concat].
    rewrite List.map_map, Nat.mul_0_r, drop_0.
    rewrite <- (take_drop 10 l) at 2. f_equal.
    rewrite <- (IH (drop 10 l)) by (rewrite length_drop; lia).
    f_equal. apply map_ext. intros p. rewrite drop_drop. do 2 f_equal. lia.
Qed.

Lemma currentRows_length (l : list row) (p : Z) :
  0 <= p ->
  length (DataPreview.currentRows l p)
  = Nat.min 10 (length l - 10 * Z.to_nat p).
Proof.
  intros Hp. rewrite <- (Z2Nat.id p Hp) at 1.
  now rewrite currentRows_spec, length_take, length_drop.
Qed.

Lemma totalPages_bounds (l : list row) :
  Z.of_nat (length l) <= 10 * DataPreview.totalPages l
  < Z.of_nat (length l) + 10.
Proof. rewrite totalPages_spec. Z.div_mod_to_equations. lia. Qed.

(** X12: the pages of the preview cut the rows it shows into consecutive
    runs of 10: laid end to end, the pages 0 to [totalPages - 1] are these
    rows; every one of these pages has a row and at most 10 of them, every
    one but the last has 10; a page past the last one has none. *)
Theorem pages_partition_rows (rows : list row) (st : DataPreview.state) :
  let all := DataPreview.shown rows st in
  let n := DataPreview.totalPages all in
  concat (map (fun p => DataPreview.currentRows all (Z.of_nat p))
            (seq 0 (Z.to_nat n))) = all
  /\ (forall p, 0 <= p < n ->
        (1 <= length (DataPreview.currentRows all p) <= 10)%nat)
  /\ (forall p, 0 <= p < n - 1 ->
        length (DataPreview.currentRows all p) = 10%nat)
  /\ (forall p, n <= p -> DataPreview.currentRows all p = []).
Proof.
  cbv zeta. generalize (DataPreview.shown rows st). intros l.
  pose proof (totalPages_bounds l) as D.
  pose proof (currentRows_length l) as C.
  set (n := DataPreview.totalPages l) in *.
  split; [|split; [|split]].
  - erewrite map_ext; [apply pages_concat; lia|].
    intros p. apply currentRows_spec.
  - intros p Hp. rewrite C by lia. lia.
  - intros p Hp. rewrite C by lia. lia.
  - intros p Hp. apply length_zero_iff_nil. rewrite C by lia. lia.
Qed.

(** *** Navigation *)

Lemma sort_insert_by_perm {A : Type} (compare : A -> A -> number) (x : A)
    (l : list A) :
  JSText.sort_insert_by compare x l ≡ₚ x :: l.
Proof.
  induction l as [|y l IH]; cbn [JSText.sort_insert_by]; [reflexivity|].
  destruct (num_gt (compare x y) (Fin 0)); [|reflexivity].
  rewrite IH. apply Permutation_swap.
Qed.

Lemma Array_sort_by_perm {A : Type} (compare : A -> A -> number)
    (l : list A) :
  JSText.Array_sort_by compare l ≡ₚ l.
Proof.
  induction l as [|x l IH]; cbn [JSText.Array_sort_by fold_right];
    [reflexivity|].
  fold (JSText.Array_sort_by compare l).
  now rewrite sort_insert_by_perm, IH.
Qed.

Lemma filteredAndSortedRows_perm (rows : list row) (term : string)
    (column : option string) (d : DataPreview.direction) :
  DataPreview.filteredAndSortedRows rows term column d
  ≡ₚ List.filter (DataPreview.matches term) rows.
Proof.
  unfold DataPreview.filteredAndSortedRows. cbv zeta.
  destruct column as [[|c column]|]; try reflexivity.
  apply Array_sort_by_perm.
Qed.

Lemma shown_length (rows : list row) (st : DataPreview.state) :
  length (DataPreview.shown rows st)
  = length (List.filter (DataPreview.matches (DataPreview.searchTerm st))
              rows).
Proof.
  unfold DataPreview.shown. apply Permutation_length,
    filteredAndSortedRows_perm.
Qed.

Lemma totalPages_length (l l' : list row) :
  length l = length l' -> DataPreview.totalPages l = DataPreview.totalPages l'.
Proof. intros E. now rewrite !totalPages_spec, E. Qed.

Lemma step_in_range (rows : list row) (st : DataPreview.state)
    (e : DataPreview.event) :
  page_in_range rows st -> page_in_range rows (DataPreview.step rows st e).
Proof.
  unfold page_in_range. intros (P0 & P1).
  destruct e as [term|column| |]; cbn [DataPreview.step].
  - cbn [DataPreview.currentPage]. split; [lia|now left].
  - assert (E : DataPreview.currentPage (DataPreview.handleSort st column)
                = DataPreview.currentPage st
                /\ DataPreview.searchTerm (DataPreview.handleSort st column)
                   = DataPreview.searchTerm st).
    { unfold DataPreview.handleSort.
      destruct (decide (DataPreview.sortColumn st = Some column));
        split; reflexivity. }
    destruct E as (E1 & E2). rewrite E1.
    rewrite (totalPages_length _ (DataPreview.shown rows st))
      by (now rewrite !shown_length, E2).
    tauto.
  - destruct (Z.eqb_spec (DataPreview.currentPage st) 0) as [Z|Z];
      [tauto|].
    cbn [DataPreview.currentPage].
    change (DataPreview.shown rows _) with (DataPreview.shown rows st).
    lia.
  - destruct (Z.leb_spec (DataPreview.totalPages (DataPreview.shown rows st)
                          - 1) (DataPreview.currentPage st)) as [Z|Z];
      [tauto|].
    cbn [DataPreview.currentPage].
    change (DataPreview.shown rows
              {| DataPreview.currentPage := _;
                 DataPreview.searchTerm := DataPreview.searchTerm st;
                 DataPreview.sortColumn := DataPreview.sortColumn st;
                 DataPreview.sortDirection := DataPreview.sortDirection st |})
      with (DataPreview.shown rows st).
    lia.
Qed.

(** X13: whatever the user does in the preview (searching, sorting, going
    to the previous or the next page), the page shown is one of the pages
    of the rows that match; so as long as a row matches the search, the
    page shown has a row. When no row matches, the preview is on its first
    page and counts 0 pages. *)
Theorem navigation_stays_in_range (rows : list row)
    (events : list DataPreview.event) :
  let st := preview_after rows events in
  page_in_range rows st
  /\ (DataPreview.shown rows st <> [] ->
      DataPreview.currentRows (DataPreview.shown rows st)
        (DataPreview.currentPage st) <> [])
  /\ (DataPreview.shown rows st = [] ->
      DataPreview.currentPage st = 0
      /\ DataPreview.totalPages (DataPreview.shown rows st) = 0).
Proof.
  cbv zeta.
  assert (I : page_in_range rows (preview_after rows events)).
  { unfold preview_after.
    induction events as [|e events IH] using rev_ind.
    - split; [cbn; lia|now left].
    - rewrite fold_left_app. cbn [fold_left]. now apply step_in_range. }
  split; [exact I|].
  destruct I as (I0 & I1).
  pose proof (totalPages_bounds
                (DataPreview.shown rows (preview_after rows events))) as B.
  split.
  - intros N E. apply (f_equal (@length row)) in E.
    rewrite currentRows_length in E by exact I0.
    destruct (DataPreview.shown rows (preview_after rows events)) as [|r l];
      [congruence|].
    cbn [length] in *. lia.
  - intros E. rewrite E in *. cbn [length] in B. lia.
Qed.

(** *** Search *)

Lemma lower_upper_ascii (c : ascii) :
  JSText.lower_ascii (upper_ascii c) = JSText.lower_ascii c.
Proof.
  destruct c as [[] [] [] [] [] [] [] []]; vm_compute; reflexivity.
Qed.

Lemma toLowerCase_toUpperCase (s : string) :
  JSText.toLowerCase (toUpperCase s) = JSText.toLowerCase s.
Proof.
  induction s as [|c s IH]; [reflexivity|].
  cbn [toUpperCase JSText.toLowerCase]. now rewrite IH, lower_upper_ascii.
Qed.

Lemma includes_empty (s : string) : JSText.includes s "" = true.
Proof. destruct s; reflexivity. Qed.

(** X14: the search of the preview does not tell a term from the same term
    in capital letters; a row without a cell matches no term, not even the
    empty one; the empty term matches every row with a cell. *)
Theorem search_matching (term : string) (r : row) :
  DataPreview.matches (toUpperCase term) r = DataPreview.matches term r
  /\ DataPreview.matches term ∅ = false
  /\ (DataPreview.matches "" r = true <-> r <> ∅).
Proof.
  split; [|split].
  - unfold DataPreview.matches. now rewrite toLowerCase_toUpperCase.
  - unfold DataPreview.matches. now rewrite map_to_list_empty.
  - unfold DataPreview.matches.
    change (JSText.toLowerCase "") with ""%string.
    rewrite <- (map_to_list_empty_iff r).
    destruct (map_to_list r) as [|[k v] l].
    + split; [discriminate|congruence].
    + cbn [map existsb snd]. rewrite includes_empty.
      split; [discriminate|reflexivity].
Qed.

(** *** Sort *)

Lemma sort_insert_by_sorted {A : Type} (compare : A -> A -> number)
    (le : A -> A -> Prop) (P : A -> Prop) (x : A) (l : list A) :
  (forall a b c, P a -> P b -> P c -> le a b -> le b c -> le a c) ->
  (forall a b, P a -> P b ->
     if num_gt (compare a b) (Fin 0) then le b a else le a b) ->
  P x -> Forall P l -> StronglySorted le l ->
  StronglySorted le (JSText.sort_insert_by compare x l).
Proof.
  intros T C Px Pl S. induction S as [|y l S IH F];
    cbn [JSText.sort_insert_by]; [repeat constructor|].
  apply Forall_cons_iff in Pl as [Py Pl].
  pose proof (C x y Px Py) as Cxy.
  destruct (num_gt (compare x y) (Fin 0)).
  - constructor; [now apply IH|].
    rewrite (sort_insert_by_perm compare x l). now constructor.
  - constructor; [now constructor|]. constructor; [exact Cxy|].
    rewrite Forall_forall in F, Pl |- *. intros z Hz.
    apply (T x y z); auto.
Qed.

Lemma Array_sort_by_sorted {A : Type} (compare : A -> A -> number)
    (le : A -> A -> Prop) (P : A -> Prop) (l : list A) :
  (forall a b c, P a -> P b -> P c -> le a b -> le b c -> le a c) ->
  (forall a b, P a -> P b ->
     if num_gt (compare a b) (Fin 0) then le b a else le a b) ->
  Forall P l ->
  StronglySorted le (JSText.Array_sort_by compare l).
Proof.
  intros T C Pl. induction Pl as [|x l Px Pl IH];
    cbn [JSText.Array_sort_by fold_right]; [constructor|].
  fold (JSText.Array_sort_by compare l).
  apply (sort_insert_by_sorted compare le P); auto.
  now rewrite Array_sort_by_perm.
Qed.

(** X15: sorting the preview on a column keeps the rows that match the
    search, each as often as before; when the cells of the column are
    numbers, none of them NaN, the rows come out in the order of the
    column, ascending or descending as asked. *)
Theorem sorted_on_numeric_column (rows : list row) (term column : string)
    (d : DataPreview.direction) :
  column <> ""%string ->
  let out :=
    DataPreview.filteredAndSortedRows rows term (Some column) d in
  out ≡ₚ List.filter (DataPreview.matches term) rows
  /\ (Forall (fun r => exists n, get r column = JNum n /\ isNaN n = false)
        rows ->
      in_order column d out).
Proof.
  intros N. cbv zeta. split; [apply filteredAndSortedRows_perm|].
  intros F. unfold DataPreview.filteredAndSortedRows. cbv zeta.
  destruct column as [|c column]; [congruence|].
  set (col := String c column) in *.
  unfold in_order.
  apply (Array_sort_by_sorted _ _
           (fun r => exists n, get r col = JNum n /\ isNaN n = false)).
  - intros x y z (a & Ea & Na) (b & Eb & Nb) (e & Ee & Ne).
    rewrite Ea, Eb, Ee. cbn [Number].
    destruct d; intros L1 L2; eapply num_le_trans; eauto.
  - intros x y (a & Ea & Na) (b & Eb & Nb).
    unfold DataPreview.compare. cbv zeta. rewrite Ea, Eb.
    cbn [JSText.less_than Number].
    destruct (num_lt a b) eqn:L1; destruct (num_lt b a) eqn:L2; destruct d;
      cbn [num_gt num_lt];
      try (apply num_lt_le; assumption);
      try (apply num_lt_false; assumption).
  - rewrite Forall_forall in F |- *. intros r Hr.
    apply list_elem_of_In, filter_In in Hr as [Hr _].
    apply F, list_elem_of_In, Hr.
Qed.

End PreviewFacts.

(** ** ClassificationResults: the table of the selected rows *)

Section ResultsTableFacts.
Context `{Runtime}.

Lemma dispositionConfig_keys (k : string) :
  is_Some (ResultsTable.dispositionConfig k) <-> In k card_keys.
Proof.
  unfold ResultsTable.dispositionConfig, card_keys. cbn [In].
  destruct (String.eqb_spec k "CONFIRMED") as [->|N1];
    [split; [auto|eauto]|].
  destruct (String.eqb_spec k "CANDIDATE") as [->|N2];
    [split; [auto|eauto]|].
  destruct (String.eqb_spec k "FALSE POSITIVE") as [->|N3];
    [split; [auto|eauto]|].
  split; [intros [c E]; discriminate|].
  intros [E|[E|[E|[]]]]; congruence.
Qed.

Lemma card_keys_upper (k : string) : In k card_keys -> toUpperCase k = k.
Proof. intros [<-|[<-|[<-|[]]]]; reflexivity. Qed.

Lemma fixed_or_dash_printable (v : jsval) (digits : nat) :
  is_Some (ResultsTable.fixed_or_dash v digits) <-> printable v.
Proof.
  unfold ResultsTable.fixed_or_dash, printable.
  destruct (truthy v) eqn:T.
  - destruct v; split; intros E;
      try (destruct E as [x E]; discriminate);
      try (destruct E as [E|[m E]]; discriminate);
      eauto.
  - split; [now left|eauto].
Qed.

(** A row of the selection can be drawn exactly when its label is spelled
    as the selection is and its cells are printable. *)
Lemma detail_drawable (selected : string) (r : row) (i : nat) :
  In selected card_keys ->
  ClassificationResults.disposition_of r = selected ->
  is_Some (ResultsTable.detail r i) <-> drawable selected r.
Proof.
  intros K D. unfold ResultsTable.detail, drawable.
  rewrite <- (fixed_or_dash_printable (get r "koi_period") 2).
  rewrite <- (fixed_or_dash_printable (get r "koi_prad") 2).
  rewrite <- (fixed_or_dash_printable (get r "koi_teff") 0).
  assert (C : is_Some (ResultsTable.dispositionConfig
                         (ToString (get r "Predicted_Disposition")))
              <-> ToString (get r "Predicted_Disposition") = selected).
  { rewrite dispositionConfig_keys. split.
    - intros Hk. unfold ClassificationResults.disposition_of, or_else in D.
      destruct (truthy (get r "Predicted_Disposition")).
      + now rewrite (card_keys_upper _ Hk) in D.
      + cbn in D. subst selected. destruct K as [E|[E|[E|[]]]]; discriminate.
    - intros ->. exact K. }
  rewrite <- C.
  destruct (ResultsTable.dispositionConfig _) as [c|].
  - destruct (ResultsTable.fixed_or_dash (get r "koi_period") 2),
      (ResultsTable.fixed_or_dash (get r "koi_prad") 2),
      (ResultsTable.fixed_or_dash (get r "koi_teff") 0);
      split; intros E; try (destruct E as (_ & E1 & E2 & E3));
      repeat split; eauto;
      try (destruct E1 as [x E1]; discriminate);
      try (destruct E2 as [x E2]; discriminate);
      try (destruct E3 as [x E3]; discriminate);
      try (destruct E as [x E]; discriminate).
  - split; [intros [x E]; discriminate|].
    intros ([x E] & _). discriminate.
Qed.

(** X16: the table under the cards, when one of the three cards is
    selected. The rows it lists are picked by their label in capital
    letters, and drawn by their label as it is written: the table is
    rendered exactly when each of the first 20 rows of the selection has
    the selected label letter for letter and a period, a radius and a
    temperature that are numbers or missing. Rendered, it has a line for
    each of these rows, and the notice below it exactly when the selection
    has more than 20 rows. *)
Theorem detail_table_renders (rows : list row) (selected : string) :
  In selected card_keys ->
  let filteredRows := ClassificationResults.filteredRows rows selected in
  (is_Some (ResultsTable.DetailedResults rows selected)
   <-> Forall (drawable selected) (take 20 filteredRows))
  /\ (forall t, ResultsTable.DetailedResults rows selected = Some t ->
        ResultsTable.results t = length filteredRows
        /\ length (ResultsTable.lines t) = Nat.min 20 (length filteredRows)
        /\ (is_Some (ResultsTable.notice t)
            <-> (20 < length filteredRows)%nat)).
Proof.
  intros K. cbv zeta. unfold ResultsTable.DetailedResults. cbv zeta.
  set (fr := ClassificationResults.filteredRows rows selected).
  assert (Hfr : Forall (fun r => ClassificationResults.disposition_of r
                                 = selected) (take 20 fr)).
  { apply Forall_take, Forall_forall. intros r Hr.
    apply list_elem_of_In, filter_In in Hr as [_ Hr].
    now apply String.eqb_eq. }
  split.
  - assert (M : is_Some (mapM id (imap (fun i r => ResultsTable.detail r i)
                                    (take 20 fr)))
                <-> Forall (drawable selected) (take 20 fr)).
    { rewrite mapM_is_Some. rewrite !Forall_lookup. split.
      - intros A i r L. specialize (A i (ResultsTable.detail r i)).
        rewrite list_lookup_imap, L in A. specialize (A eq_refl).
        apply (detail_drawable selected r i K); [|exact A].
        rewrite Forall_lookup in Hfr. exact (Hfr i r L).
      - intros A i o L. rewrite list_lookup_imap in L.
        destruct (take 20 fr !! i) as [r|] eqn:E; [|discriminate].
        injection L as <-.
        apply (detail_drawable selected r i K); [|exact (A i r E)].
        rewrite Forall_lookup in Hfr. exact (Hfr i r E). }
    rewrite <- M.
    destruct (mapM id _) as [ls|]; split; intros [x E]; eauto; discriminate.
  - intros t E.
    destruct (mapM id (imap (fun i r => ResultsTable.detail r i)
                         (take 20 fr))) as [ls|] eqn:M; [|discriminate].
    injection E as <-.
    cbn [ResultsTable.results ResultsTable.lines ResultsTable.notice].
    split; [reflexivity|]. split.
    + apply length_mapM in M. rewrite <- M, length_imap, length_take.
      reflexivity.
    + destruct (Nat.ltb_spec 20 (length fr)); split; intros E; eauto; try lia.
      destruct E as [x E]; discriminate.
Qed.

End ResultsTableFacts.

(** ** FileUpload and App: what the handling of a file does *)

Section UploadFacts.

(** X17: the protocol of [handleFiles], whatever the file and however the
    two requests end. A request is sent only for a file whose name ends in
    an allowed extension. Once the spinner is switched on, switching it off
    is the last thing the handler does. The classification is requested
    only after the preview has been delivered, and it is delivered only
    when both requests have succeeded, after the preview. *)
Theorem handleFiles_protocol (file : option string)
    (preview classify : FileUpload.response) :
  let acts := FileUpload.handleFiles file preview classify in
  (forall url, In (FileUpload.Fetch url) acts ->
     exists name, file = Some name /\ FileUpload.accepted name = true)
  /\ (In (FileUpload.SetLoading true) acts ->
      List.last acts (FileUpload.SetLoading true)
      = FileUpload.SetLoading false)
  /\ (In (FileUpload.Fetch FileUpload.classify_url) acts ->
      exists d before after,
        acts = before ++ FileUpload.OnUpload d :: after
        /\ In (FileUpload.Fetch FileUpload.classify_url) after
        /\ ~ In (FileUpload.Fetch FileUpload.classify_url) before)
  /\ (forall d, In (FileUpload.OnClassify d) acts ->
        FileUpload.request "Classification failed: " classify = inl d
        /\ exists d' before after,
             FileUpload.request "Preview upload failed: " preview = inl d'
             /\ acts = before ++ FileUpload.OnUpload d' :: after
             /\ In (FileUpload.OnClassify d) after).
Proof.
  cbv zeta. unfold FileUpload.handleFiles.
  destruct file as [name|].
  2:{ repeat split; intros; contradiction. }
  destruct (FileUpload.accepted name) eqn:A; cbn [negb].
  2:{ split; [|split; [|split]].
      - intros url [E|[]]; discriminate.
      - intros [E|[]]; discriminate.
      - intros [E|[]]; discriminate.
      - intros d [E|[]]; discriminate. }
  split; [intros; eauto|].
  destruct (FileUpload.request "Preview upload failed: " preview)
    as [d1|t1] eqn:P.
  2:{ split; [reflexivity|]. split.
      - intros [E|[E|[E|[E|[E|[]]]]]]; discriminate.
      - intros d [E|[E|[E|[E|[E|[]]]]]]; discriminate. }
  destruct (FileUpload.request "Classification failed: " classify)
    as [d2|t2] eqn:C.
  - split; [reflexivity|]. split.
    + intros _. exists d1.
      exists [FileUpload.SetError None; FileUpload.SetLoading true;
              FileUpload.Fetch FileUpload.preview_url].
      eexists. split; [reflexivity|]. split; [now left|].
      intros [E|[E|[E|[]]]]; discriminate.
    + intros d [E|[E|[E|[E|[E|[E|[E|[E|[]]]]]]]]]; try discriminate.
      injection E as <-. split; [reflexivity|].
      exists d1.
      exists [FileUpload.SetError None; FileUpload.SetLoading true;
              FileUpload.Fetch FileUpload.preview_url].
      eexists. split; [reflexivity|]. split; [reflexivity|].
      right. right. now left.
  - split; [reflexivity|]. split.
    + intros _. exists d1.
      exists [FileUpload.SetError None; FileUpload.SetLoading true;
              FileUpload.Fetch FileUpload.preview_url].
      eexists. split; [reflexivity|]. split; [now left|].
      intros [E|[E|[E|[]]]]; discriminate.
    + intros d [E|[E|[E|[E|[E|[E|[E|[]]]]]]]]; discriminate.
Qed.

(** X18: what the handling of an accepted file leaves of the state of App,
    when nothing else happens meanwhile. The spinner is off and the
    selection untouched. When both requests succeed, App holds both data
    and is on the classification tab; when only the preview succeeds, it
    holds the preview and is on the preview tab; when the preview fails,
    tab and data are as before. Data that is [null] leaves the panel of its
    tab empty. *)
Theorem upload_outcome (st : App.state) (name : string)
    (preview classify : FileUpload.response) :
  FileUpload.accepted name = true ->
  let st' :=
    fold_left App.handle
      (FileUpload.handleFiles (Some name) preview classify) st in
  App.loading st' = false
  /\ App.selectedDisposition st' = App.selectedDisposition st
  /\ match FileUpload.request "Preview upload failed: " preview,
           FileUpload.request "Classification failed: " classify with
     | inl d1, inl d2 =>
         App.activeTab st' = App.classification
         /\ App.previewData st' = d1
         /\ App.classificationData st' = d2
         /\ App.main st'
            = match d2 with
              | Some data =>
                  App.ClassificationResultsPanel data
                    (App.selectedDisposition st)
              | None => App.Nothing
              end
     | inl d1, inr _ =>
         App.activeTab st' = App.preview
         /\ App.previewData st' = d1
         /\ App.classificationData st' = App.classificationData st
         /\ App.main st'
            = match d1 with
              | Some data => App.DataPreviewPanel data
              | None => App.Nothing
              end
     | inr _, _ =>
         App.activeTab st' = App.activeTab st
         /\ App.previewData st' = App.previewData st
         /\ App.classificationData st' = App.classificationData st
     end.
Proof.
  intros A. cbv zeta. unfold FileUpload.handleFiles. rewrite A. cbn [negb].
  destruct (FileUpload.request "Preview upload failed: " preview)
    as [d1|t1].
  - destruct (FileUpload.request "Classification failed: " classify)
      as [d2|t2].
    + repeat split; reflexivity.
    + repeat split; reflexivity.
  - repeat split; reflexivity.
Qed.

(** X20: whatever happens to App (clicks on tabs, actions of FileUpload in
    any order and with any data, clicks on the cards that are shown), the
    selection it hands to ClassificationResults and to PlanetSystem3D is
    one of the three keys of the cards. *)
Theorem selection_is_a_card_key `{Runtime} (events : list App.event) :
  In (App.selectedDisposition (fold_left App.step events App.initial))
    card_keys.
Proof.
  induction events as [|e events IH] using rev_ind; [now left|].
  rewrite fold_left_app. cbn [fold_left].
  set (st := fold_left App.step events App.initial) in *.
  destruct e as [tab|a|disp]; cbn [App.step].
  - unfold App.click. now destruct (App.disabled st tab).
  - now destruct a.
  - destruct (existsb (String.eqb disp) (App.cards_shown st)) eqn:E;
      [|exact IH].
    cbn [App.selectedDisposition].
    apply existsb_exists in E as (k & Hk & E).
    apply String.eqb_eq in E. subst k.
    unfold App.cards_shown in Hk.
    destruct (App.main st) as [|d|d sel|sel d|d|]; try contradiction.
    unfold ClassificationResults.ClassificationResults in Hk.
    destruct d as [[cols|] [rows|]]; try contradiction.
    cbn [ClassificationResults.view_cards] in Hk.
    unfold ClassificationResults.cards in Hk. cbv zeta in Hk.
    rewrite List.map_map in Hk. exact Hk.
Qed.

End UploadFacts.

(** ** ClassificationResults: the percentages of the cards *)

Section PercentageFacts.
Context `{Runtime}.

Local Open Scope Q_scope.

Lemma filter_length_all {A : Type} (f : A -> bool) (l : list A) :
  length (List.filter f l) = length l -> List.filter f l = l.
Proof.
  induction l as [|a l IH]; [reflexivity|]. cbn [List.filter].
  pose proof (filter_length_le f l) as L.
  destruct (f a); cbn [length]; intros E; [f_equal; apply IH|]; lia.
Qed.

Lemma card_counts (rows : list row) (c : ClassificationResults.card) :
  In c (ClassificationResults.cards rows) ->
  ClassificationResults.card_count c
  = length (ClassificationResults.filteredRows rows
              (ClassificationResults.card_disposition c))
  /\ ClassificationResults.card_percentage c
     = ClassificationResults.percentage
         (ClassificationResults.card_count c) rows.
Proof.
  unfold ClassificationResults.cards. cbv zeta. cbn [map In].
  rewrite !dispositionCounts_lookup.
  intros [<-|[<-|[<-|[]]]]; split; reflexivity.
Qed.

(** X19: on a table with rows, the percentage of every summary card,
    before it is printed, is a number between 0 and 100, so the bar of the
    card is never wider than the card's track; it is 100 exactly when every
    row of the table has the label of the card, and 0 exactly when none
    has. *)
Theorem card_percentage_within_bounds (rows : list row) :
  rows <> [] ->
  Forall
    (fun c =>
       exists q,
         ClassificationResults.percentage_value
           (ClassificationResults.card_count c) rows = Fin q
         /\ 0 <= q <= 100
         /\ (q == 100 <->
             ClassificationResults.filteredRows rows
               (ClassificationResults.card_disposition c) = rows)
         /\ (q == 0 <->
             ClassificationResults.filteredRows rows
               (ClassificationResults.card_disposition c) = []))
    (ClassificationResults.cards rows).
Proof.
  intros N. apply Forall_forall. intros c Hc.
  apply list_elem_of_In, card_counts in Hc. destruct Hc as (-> & _).
  set (d := ClassificationResults.card_disposition c).
  pose proof (filter_length_le
                (fun r => String.eqb (ClassificationResults.disposition_of r)
                            d) rows) as L.
  fold (ClassificationResults.filteredRows rows d) in L.
  assert (P : (0 < length rows)%nat) by (destruct rows; [congruence|cbn; lia]).
  change (ClassificationResults.percentage_value ?n rows)
    with (OverviewPanel.share n (length rows)).
  rewrite share_fin by exact P. unfold lit. eexists. split; [reflexivity|].
  rewrite Qred_correct.
  set (n := length (ClassificationResults.filteredRows rows d)) in *.
  assert (T : 0 < Z.of_nat (length rows) # 1) by (unfold Qlt; cbn; lia).
  assert (A : 0 <= Z.of_nat n # 1 <= Z.of_nat (length rows) # 1)
    by (unfold Qle; cbn; lia).
  assert (E : Z.of_nat n # 1
              == (Z.of_nat (length rows) # 1)
                 * ((Z.of_nat n # 1) / (Z.of_nat (length rows) # 1)))
    by (field; lra).
  assert (R : 0 <= (Z.of_nat n # 1) / (Z.of_nat (length rows) # 1) <= 1).
  { split; [apply Qle_shift_div_l; lra|apply Qle_shift_div_r; lra]. }
  split; [lra|]. split.
  - split.
    + intros Q. apply filter_length_all. change (n = length rows).
      assert (Z.of_nat n # 1 == Z.of_nat (length rows) # 1) by nra.
      unfold Qeq in *. cbn [Qnum Qden] in *. lia.
    + intros Q. unfold n. rewrite Q.
      assert (X : (Z.of_nat (length rows) # 1) / (Z.of_nat (length rows) # 1)
                  == 1) by (field; lra).
      rewrite X. reflexivity.
  - split.
    + intros Q. apply length_zero_iff_nil. change (n = O).
      assert (Z.of_nat n # 1 == 0) by nra.
      unfold Qeq in *. cbn [Qnum Qden] in *. lia.
    + intros Q. unfold n. rewrite Q. reflexivity.
Qed.

End PercentageFacts.

(** ** RetrainModel *)

Section RetrainFacts.
Variable payload : Type.

(** X22: what [handleRetrain] leaves, however the request ends and
    whatever was shown before. The spinner is off and the
    hyperparameters are as they were. Either the request succeeded, and
    the result is the data of the answer with no error; or it failed, and
    there is no result and an error message that is not empty. So the
    dialog never shows a result and an error together, and nothing of an
    earlier run is left. *)
Theorem handleRetrain_outcome (st : RetrainModel.state payload)
    (r : RetrainModel.response payload) :
  let st' := RetrainModel.handleRetrain payload st r in
  RetrainModel.loading payload st' = false
  /\ RetrainModel.request_body payload st'
     = RetrainModel.request_body payload st
  /\ ((exists data,
         RetrainModel.request payload r = inl data
         /\ RetrainModel.result payload st' = data
         /\ RetrainModel.error payload st' = None)
      \/ (exists t message,
            RetrainModel.request payload r = inr t
            /\ message <> ""%string
            /\ RetrainModel.error payload st' = Some message
            /\ RetrainModel.result payload st' = None)).
Proof.
  cbv zeta. unfold RetrainModel.handleRetrain. cbv zeta.
  split; [reflexivity|].
  destruct (RetrainModel.request payload r) as [data|t] eqn:E.
  - split; [reflexivity|]. left. exists data. repeat split; reflexivity.
  - split; [reflexivity|]. right. exists t.
    exists (RetrainModel.message_of t). split; [reflexivity|].
    split; [|split; reflexivity].
    destruct t as [[|c m]|]; discriminate.
Qed.

(** *** Reading the text of a control *)

Ltac digit_step :=
  cbn [NilEmpty.string_of_uint digits];
  match goal with
  | |- context [digit_of ?c] =>
      let v := eval vm_compute in (digit_of c) in
      change (digit_of c) with v
  end;
  cbv iota beta;
  match goal with
  | |- context [(?k <? 10)%Z] => change (k <? 10)%Z with true
  end;
  cbv iota.

(** The digits of a numeral, read after the value [a]. *)
Lemma digits_numeral_acc (d : Decimal.uint) (a : positive) (n : nat) :
  digits 10 (NilEmpty.string_of_uint d) (Z.pos a) n
  = (Z.pos (Pos.of_uint_acc d a), (n + Decimal.nb_digits d)%nat, ""%string).
Proof.
  revert a n. induction d as [|d IH|d IH|d IH|d IH|d IH|d IH|d IH|d IH|d IH
                              |d IH]; intros a n.
  - cbn [NilEmpty.string_of_uint digits Pos.of_uint_acc Decimal.nb_digits].
    now rewrite Nat.add_0_r.
  - digit_step.
    replace (10 * Z.pos a + 0)%Z with (Z.pos (10 * a)) by lia.
    rewrite IH. cbn [Pos.of_uint_acc Decimal.nb_digits]. do 2 f_equal. lia.
  - digit_step.
    replace (10 * Z.pos a + 1)%Z with (Z.pos (1 + 10 * a)) by lia.
    rewrite IH. cbn [Pos.of_uint_acc Decimal.nb_digits]. do 2 f_equal. lia.
  - digit_step.
    replace (10 * Z.pos a + 2)%Z with (Z.pos (2 + 10 * a)) by lia.
    rewrite IH. cbn [Pos.of_uint_acc Decimal.nb_digits]. do 2 f_equal. lia.
  - digit_step.
    replace (10 * Z.pos a + 3)%Z with (Z.pos (3 + 10 * a)) by lia.
    rewrite IH. cbn [Pos.of_uint_acc Decimal.nb_digits]. do 2 f_equal. lia.
  - digit_step.
    replace (10 * Z.pos a + 4)%Z with (Z.pos (4 + 10 * a)) by lia.
    rewrite IH. cbn [Pos.of_uint_acc Decimal.nb_digits]. do 2 f_equal. lia.
  - digit_step.
    replace (10 * Z.pos a + 5)%Z with (Z.pos (5 + 10 * a)) by lia.
    rewrite IH. cbn [Pos.of_uint_acc Decimal.nb_digits]. do 2 f_equal. lia.
  - digit_step.
    replace (10 * Z.pos a + 6)%Z with (Z.pos (6 + 10 * a)) by lia.
    rewrite IH. cbn [Pos.of_uint_acc Decimal.nb_digits]. do 2 f_equal. lia.
  - digit_step.
    replace (10 * Z.pos a + 7)%Z with (Z.pos (7 + 10 * a)) by lia.
    rewrite IH. cbn [Pos.of_uint_acc Decimal.nb_digits]. do 2 f_equal. lia.
  - digit_step.
    replace (10 * Z.pos a + 8)%Z with (Z.pos (8 + 10 * a)) by lia.
    rewrite IH. cbn [Pos.of_uint_acc Decimal.nb_digits]. do 2 f_equal. lia.
  - digit_step.
    replace (10 * Z.pos a + 9)%Z with (Z.pos (9 + 10 * a)) by lia.
    rewrite IH. cbn [Pos.of_uint_acc Decimal.nb_digits]. do 2 f_equal. lia.
Qed.

(** The digits of a numeral, read from the start. *)
Lemma digits_numeral (d : Decimal.uint) (n : nat) :
  digits 10 (NilEmpty.string_of_uint d) 0 n
  = (Z.of_N (N.of_uint d), (n + Decimal.nb_digits d)%nat, ""%string).
Proof.
  unfold N.of_uint. revert n.
  induction d as [|d IH|d IH|d IH|d IH|d IH|d IH|d IH|d IH|d IH|d IH];
    intros n;
    [cbn [NilEmpty.string_of_uint digits Pos.of_uint Decimal.nb_digits];
     now rewrite Nat.add_0_r
    |digit_step; change (10 * 0 + 0)%Z with 0%Z; rewrite IH;
     cbn [Pos.of_uint Decimal.nb_digits]; do 2 f_equal; lia
    |digit_step;
     match goal with
     | |- context [(10 * 0 + ?k)%Z] =>
         let v := eval vm_compute in (10 * 0 + k)%Z in
         change (10 * 0 + k)%Z with v
     end;
     rewrite digits_numeral_acc;
     cbn [Pos.of_uint Decimal.nb_digits Z.of_N]; do 2 f_equal; lia ..].
Qed.

(** [parseInt] on a text that starts with a decimal digit, and not with
    the prefix of a hexadecimal number. *)
Lemma parseInt_decimal (c : ascii) (rest : string) :
  (exists k, digit_of c = Some k /\ (k < 10)%Z) ->
  (c = "0"%char ->
   match rest with
   | String c' _ => (Ascii.eqb c' "x" || Ascii.eqb c' "X")%bool = false
   | EmptyString => True
   end) ->
  RetrainModel.parseInt (String c rest)
  = match digits 10 (String c rest) 0 0 with
    | (n, S _, _) => RetrainModel.Number_of_integer n
    | _ => NaN
    end.
Proof.
  intros (k & Dk & Hk) Hx. unfold RetrainModel.parseInt.
  assert (Sp : is_space c = false).
  { destruct c as [[] [] [] [] [] [] [] []]; try reflexivity;
      vm_compute in Dk; discriminate. }
  cbn [trim_left]. rewrite Sp.
  assert (Sg : c <> "+"%char /\ c <> "-"%char).
  { split; intros ->; vm_compute in Dk; discriminate. }
  destruct Sg as (S1 & S2).
  destruct (Ascii.eqb_spec c "0") as [->|N0].
  - specialize (Hx eq_refl). destruct rest as [|c' rest].
    + reflexivity.
    + cbv iota beta. rewrite Hx.
      destruct (digits 10 (String "0" (String c' rest)) 0 0) as [[n [|m]] r];
        [reflexivity|]. now rewrite Z.mul_1_l.
  - assert (E : forall (A : Type) (f : string -> A) (g : string -> A)
                       (h : A),
               match String c rest with
               | String "+"%char r => f r
               | String "-"%char r => g r
               | _ => h
               end = h).
    { intros A f g h.
      destruct c as [[] [] [] [] [] [] [] []]; try reflexivity; congruence. }
    rewrite E.
    assert (E' : forall (A : Type) (f : ascii -> string -> A) (h : A),
               match String c rest with
               | String "0"%char (String c' r) => f c' r
               | _ => h
               end = h).
    { intros A f h.
      destruct c as [[] [] [] [] [] [] [] []]; try reflexivity; congruence. }
    rewrite E'.
    destruct (digits 10 (String c rest) 0 0) as [[n [|m]] r];
      [reflexivity|]. now rewrite Z.mul_1_l.
Qed.

(** [parseInt] reads back a decimal numeral. *)
Lemma parseInt_uint (d : Decimal.uint) :
  RetrainModel.parseInt (NilZero.string_of_uint d)
  = RetrainModel.Number_of_integer (Z.of_N (N.of_uint d)).
Proof.
  assert (G : forall (c : ascii) (d' e : Decimal.uint),
             NilEmpty.string_of_uint e
             = String c (NilEmpty.string_of_uint d') ->
             (exists k, digit_of c = Some k /\ (k < 10)%Z) ->
             (c = "0"%char ->
              match NilEmpty.string_of_uint d' with
              | String c' _ =>
                  (Ascii.eqb c' "x" || Ascii.eqb c' "X")%bool = false
              | EmptyString => True
              end) ->
             RetrainModel.parseInt (NilEmpty.string_of_uint e)
             = RetrainModel.Number_of_integer (Z.of_N (N.of_uint e))).
  { intros c d' e E K X. rewrite E, parseInt_decimal by assumption.
    rewrite <- E, digits_numeral.
    assert (L : exists m, (0 + Decimal.nb_digits e)%nat = S m).
    { destruct e; try (cbn; eauto). discriminate E. }
    destruct L as [m ->]. reflexivity. }
  destruct d as [|d|d|d|d|d|d|d|d|d|d]; [reflexivity| ..];
    cbn [NilZero.string_of_uint];
    (eapply G;
     [reflexivity
     |eexists; split; [vm_compute; reflexivity|lia]
     |try (intros E; discriminate E)]).
  intros _. destruct d; cbn [NilEmpty.string_of_uint]; reflexivity || exact I.
Qed.

(** An integer of at most 53 bits is a Number. *)
Lemma Number_of_integer_exact (z : Z) :
  (0 <= z <= 2 ^ 53)%Z -> RetrainModel.Number_of_integer z = of_Z z.
Proof.
  intros Hz. unfold RetrainModel.Number_of_integer. cbv zeta.
  rewrite Z.abs_eq by lia.
  destruct (Z.leb_spec z (2 ^ 53)) as [_|L]; [reflexivity|lia].
Qed.

(** X23: what the controls of [n_estimators] and [max_depth], which read
    their text with [parseInt], make of it. The decimal numeral of a
    natural number of at most [2 ^ 53] is read back as that number, and the
    request carries it. A text that is empty or white space makes the
    hyperparameter NaN, and the request carries [null] for it. The two
    other hyperparameters are sent as they were. *)
Theorem control_reads_its_text (st : RetrainModel.state payload)
    (c : RetrainModel.control) (value : string) :
  c <> RetrainModel.LearningRate ->
  let st' := RetrainModel.onChange payload st c value in
  (forall z, (0 <= z <= 2 ^ 53)%Z -> value = string_of_Z z ->
     field_of c st' = Some (inject_Z z))
  /\ (trim_left value = ""%string -> field_of c st' = None)
  /\ (forall c', c' <> c -> field_of c' st' = field_of c' st).
Proof.
  intros L. cbv zeta. split; [|split].
  - intros z Hz ->.
    destruct c; [congruence| |];
      unfold field_of, RetrainModel.request_body, RetrainModel.onChange;
      cbn [RetrainModel.n_estimators RetrainModel.max_depth
           RetrainModel.nEstimators RetrainModel.maxDepth];
      unfold string_of_Z; rewrite parseInt_uint;
      rewrite DecimalN.Unsigned.of_to;
      rewrite Z2N.id by lia;
      rewrite Number_of_integer_exact by exact Hz; reflexivity.
  - intros B.
    destruct c; [congruence| |];
      unfold field_of, RetrainModel.request_body, RetrainModel.onChange;
      cbn [RetrainModel.n_estimators RetrainModel.max_depth
           RetrainModel.nEstimators RetrainModel.maxDepth];
      unfold RetrainModel.parseInt; rewrite B; reflexivity.
  - intros c' N. destruct c, c'; try congruence; reflexivity.
Qed.

End RetrainFacts.

(** ** Scenarios of the further properties *)

Section FurtherScenarios.

#[local] Existing Instance decimal_runtime.

Local Open Scope string_scope.

(** The first planet of the catalogue has radius 1: its body has the
    radius of the floor. *)
Lemma body_radius_has_floor_witness :
  take 8 (PlanetSystem3D.filtered catalogue "CONFIRMED") !! 0%nat
  = Some (koi (JNum (Fin 1)) (JNum (Fin 1)))
  /\ exists p,
       PlanetSystem3D.planets
         (fst (PlanetSystem3D.systemConfig catalogue "CONFIRMED"
                 (fun _ => lit 0.5))) !! 0%nat = Some p
       /\ num_le (lit 0.08) (PlanetSystem3D.planetRadius p) = true.
Proof.
  split; [reflexivity|].
  exact (body_radius_has_floor catalogue "CONFIRMED" (fun _ => lit 0.5) 0
           (koi (JNum (Fin 1)) (JNum (Fin 1))) eq_refl).
Defined.

(** The second planet of the catalogue, with a period of 8 days. *)
Lemma orbit_outside_star_witness :
  take 8 (PlanetSystem3D.filtered catalogue "CONFIRMED") !! 1%nat
  = Some (koi (JNum (Fin 8)) (JNum (Fin 4)))
  /\ exists p,
       PlanetSystem3D.planets
         (fst (PlanetSystem3D.systemConfig catalogue "CONFIRMED"
                 (fun _ => lit 0.5))) !! 1%nat = Some p
       /\ num_le (lit 1.8) (PlanetSystem3D.orbitalRadius p) = true.
Proof.
  split; [reflexivity|].
  exact (orbit_outside_star catalogue "CONFIRMED" (fun _ => lit 0.5) 1
           (koi (JNum (Fin 8)) (JNum (Fin 4))) eq_refl).
Defined.

(** Every draw is 0.5. *)
Lemma speeds_within_range_witness :
  (forall i : nat, unit_draw ((fun _ => lit 0.5) i))
  /\ Forall (fun p => num_le (lit 0.25) (PlanetSystem3D.speed p) = true
                      /\ num_lt (PlanetSystem3D.speed p) (lit 0.95) = true)
       (PlanetSystem3D.planets
          (fst (PlanetSystem3D.systemConfig catalogue "CONFIRMED"
                  (fun _ => lit 0.5)))).
Proof.
  assert (U : forall i : nat, unit_draw ((fun _ => lit 0.5) i)).
  { intros _. exists (1 # 2)%Q. split; [reflexivity|].
    split; [discriminate|reflexivity]. }
  split; [exact U|].
  exact (speeds_within_range catalogue "CONFIRMED" (fun _ => lit 0.5) U).
Defined.

(** The summary of the periods 3, 5 and 4. *)
Lemma summary_is_ordered_witness :
  DataExploration.columns
    (DataExploration.stats
       (Some {| JS.columns := Some ["koi_period"; "period"];
                JS.rows := Some three_periods |})) !! "koi_period"
  = Some {| DataExploration.min := Fin 3;
            DataExploration.max := Fin 5;
            DataExploration.mean := Fin 4;
            DataExploration.median := Fin 4;
            DataExploration.count := 3 |}
  /\ Forall (fun v => num_le (Fin 3) v = true /\ num_le v (Fin 5) = true)
       (numeric_values three_periods "koi_period").
Proof.
  split; [reflexivity|].
  exact (proj1 (proj2 (proj2 (proj2 (proj2 (proj2
           (summary_is_ordered (Some ["koi_period"; "period"]) three_periods
              "koi_period" _ eq_refl))))))).
Defined.

(** The histogram of the periods 3, 5 and 4 has 5 bins. *)
Lemma periods_filed_in_order_witness :
  exists h,
    DataExploration.HistogramChart (make_table ["period"] three_periods)
    = Some h
    /\ Forall (fun v => isFinite v = true)
         (DataExploration.periods (make_table ["period"] three_periods))
    /\ exists k,
         DataExploration.bins h = of_Z k
         /\ (5 <= k)%Z
         /\ length (DataExploration.histogram h) = Z.to_nat k.
Proof.
  eexists. split; [vm_compute; reflexivity|].
  assert (F : Forall (fun v => isFinite v = true)
                (DataExploration.periods
                   (make_table ["period"] three_periods)))
    by (vm_compute; repeat constructor).
  split; [exact F|].
  destruct (periods_filed_in_order (make_table ["period"] three_periods) _
              eq_refl F) as (k & E1 & E2 & E3 & _).
  exists k. split; [exact E1|]. split; [exact E2|exact E3].
Defined.

(** The bars of the histogram of the periods 3, 5 and 4. *)
Lemma bars_within_plot_witness :
  exists h,
    DataExploration.HistogramChart (make_table ["period"] three_periods)
    = Some h
    /\ length (HistogramBars.bars h) = 5%nat
    /\ Forall bar_within_plot (HistogramBars.bars h).
Proof.
  eexists. split; [vm_compute; reflexivity|].
  destruct (bars_within_plot (make_table ["period"] three_periods) _ eq_refl)
    as (E1 & E2 & _).
  split; [exact E1|exact E2].
Defined.

(** Two points, one at the right edge and one at the top edge. *)
Lemma scatter_points_within_plot_witness :
  Forall (fun p => isFinite (DataExploration.x p) = true
                   /\ isFinite (DataExploration.y p) = true)
    (DataExploration.scatter
       (make_table ["period"; "radius"] [point 2 3; point 4 1]))
  /\ map DataExploration.circle_cx
       (DataExploration.ScatterPlot
          (make_table ["period"; "radius"] [point 2 3; point 4 1]))
     = [Fin 200; Fin 360]
  /\ Forall2
       (fun p c =>
          num_le (DataExploration.circle_cx c)
            (num_add DataExploration.plot_left DataExploration.plot_width)
          = true
          /\ num_le DataExploration.plot_top (DataExploration.circle_cy c)
             = true
          /\ (num_le (Fin 0) (DataExploration.x p) = true ->
              num_le DataExploration.plot_left (DataExploration.circle_cx c)
              = true)
          /\ (num_le (Fin 0) (DataExploration.y p) = true ->
              num_le (DataExploration.circle_cy c)
                DataExploration.plot_bottom = true)
          /\ (num_le (DataExploration.x p) (Fin 0) = true ->
              num_le (DataExploration.circle_cx c) DataExploration.plot_left
              = true)
          /\ (num_le (DataExploration.y p) (Fin 0) = true ->
              num_le DataExploration.plot_bottom (DataExploration.circle_cy c)
              = true))
       (DataExploration.scatter
          (make_table ["period"; "radius"] [point 2 3; point 4 1]))
       (DataExploration.ScatterPlot
          (make_table ["period"; "radius"] [point 2 3; point 4 1])).
Proof.
  assert (F : Forall (fun p => isFinite (DataExploration.x p) = true
                               /\ isFinite (DataExploration.y p) = true)
                (DataExploration.scatter
                   (make_table ["period"; "radius"] [point 2 3; point 4 1])))
    by (repeat constructor).
  split; [exact F|]. split; [reflexivity|].
  exact (scatter_points_within_plot
           (make_table ["period"; "radius"] [point 2 3; point 4 1]) F).
Defined.

(** The donut of three classified rows and a row without a label. *)
Lemma donut_segments_cover_circle_witness :
  [("CONFIRMED", 2%nat); ("CANDIDATE", 1%nat); ("UNKNOWN", 1%nat)]
  ≡ₚ map_to_list
       (DataExploration.dispositions (DataExploration.stats classified))
  /\ OverviewPanel.totalConfirmed
       [("CONFIRMED", 2%nat); ("CANDIDATE", 1%nat); ("UNKNOWN", 1%nat)]
     = 4%nat
  /\ map (fun s => (OverviewPanel.seg_start s, OverviewPanel.seg_end s))
       (OverviewPanel.segments
          [("CONFIRMED", 2%nat); ("CANDIDATE", 1%nat); ("UNKNOWN", 1%nat)])
     = [(Fin 0, Fin 50); (Fin 50, Fin 75); (Fin 75, Fin 100)]
  /\ forall s,
       last (OverviewPanel.segments
               [("CONFIRMED", 2%nat); ("CANDIDATE", 1%nat);
                ("UNKNOWN", 1%nat)]) = Some s ->
       OverviewPanel.seg_end s = Fin 100.
Proof.
  assert (P : [("CONFIRMED", 2%nat); ("CANDIDATE", 1%nat); ("UNKNOWN", 1%nat)]
              ≡ₚ map_to_list
                   (DataExploration.dispositions
                      (DataExploration.stats classified)))
    by reflexivity.
  split; [exact P|]. split; [reflexivity|]. split; [reflexivity|].
  exact (proj1 (proj2 (proj2 (proj2 (proj2
           (donut_segments_cover_circle classified _ P
              ltac:(discriminate))))))).
Defined.

(** The earlier histogram of the periods 3, 5, 4 and -2. *)
Lemma histogramData_counts_witness :
  DataExplorationFixedBins.validPeriods
    (make_table ["koi_period"] (with_period (-2) :: three_periods))
  = [Fin 3; Fin 4; Fin 5]
  /\ length
       (DataExplorationFixedBins.histogramData
          (make_table ["koi_period"] (with_period (-2) :: three_periods)))
     = 20%nat
  /\ list_sum
       (map DataExplorationFixedBins.count
          (DataExplorationFixedBins.histogramData
             (make_table ["koi_period"] (with_period (-2) :: three_periods))))
     = 3%nat.
Proof.
  split; [reflexivity|].
  destruct (histogramData_counts
              (make_table ["koi_period"] (with_period (-2) :: three_periods))
              (Fin 3) [Fin 4; Fin 5] eq_refl
              ltac:(repeat constructor)) as (E1 & _ & E2 & _).
  split; [exact E1|exact (E2 eq_refl)].
Defined.

(** The preview sorted on the period, descending. *)
Lemma sorted_on_numeric_column_witness :
  "period" <> ""
  /\ Forall (fun r => exists n, get r "period" = JNum n /\ isNaN n = false)
       three_periods
  /\ DataPreview.filteredAndSortedRows three_periods "" (Some "period")
       DataPreview.desc
     = [with_period 5; with_period 4; with_period 3]
  /\ in_order "period" DataPreview.desc
       (DataPreview.filteredAndSortedRows three_periods "" (Some "period")
          DataPreview.desc).
Proof.
  assert (N : "period" <> "") by discriminate.
  assert (F : Forall (fun r => exists n, get r "period" = JNum n
                                         /\ isNaN n = false) three_periods).
  { repeat constructor; eexists; split; reflexivity. }
  split; [exact N|]. split; [exact F|]. split; [reflexivity|].
  exact (proj2 (sorted_on_numeric_column three_periods "" "period"
                  DataPreview.desc N) F).
Defined.

(** A confirmed planet with a period and a radius, and no temperature. *)
Lemma detail_table_renders_witness :
  In "CONFIRMED" card_keys
  /\ Forall (drawable "CONFIRMED")
       (take 20
          (ClassificationResults.filteredRows
             [koi (JNum (Fin 1)) (JNum (lit 2.5))] "CONFIRMED"))
  /\ is_Some
       (ResultsTable.DetailedResults [koi (JNum (Fin 1)) (JNum (lit 2.5))]
          "CONFIRMED").
Proof.
  assert (K : In "CONFIRMED" card_keys) by (left; reflexivity).
  assert (D : Forall (drawable "CONFIRMED")
                (take 20
                   (ClassificationResults.filteredRows
                      [koi (JNum (Fin 1)) (JNum (lit 2.5))] "CONFIRMED"))).
  { constructor; [|constructor].
    split; [reflexivity|]. split; [right; eexists; reflexivity|].
    split; [right; eexists; reflexivity|left; reflexivity]. }
  split; [exact K|]. split; [exact D|].
  exact (proj2 (proj1 (detail_table_renders
                         [koi (JNum (Fin 1)) (JNum (lit 2.5))]
                         "CONFIRMED" K)) D).
Defined.

(** A row labelled in small letters is among the rows of the selection,
    and the table of the selection cannot be drawn. *)
Example lower_case_label_not_drawn :
  ClassificationResults.filteredRows
    [labelled "CONFIRMED"; labelled "confirmed"] "CONFIRMED"
  = [labelled "CONFIRMED"; labelled "confirmed"]
  /\ ResultsTable.DetailedResults
       [labelled "CONFIRMED"; labelled "confirmed"] "CONFIRMED" = None
  /\ is_Some (ResultsTable.DetailedResults [labelled "CONFIRMED"] "CONFIRMED").
Proof. split; [reflexivity|]. split; [reflexivity|]. eexists. reflexivity. Qed.

(** A file with its extension in capital letters, and two requests that
    succeed. *)
Lemma upload_outcome_witness :
  FileUpload.accepted "Kepler.CSV" = true
  /\ App.main
       (fold_left App.handle
          (FileUpload.handleFiles (Some "Kepler.CSV")
             (FileUpload.Status true "OK" (FileUpload.Json catalogue))
             (FileUpload.Status true "OK" (FileUpload.Json classified)))
          App.initial)
     = match classified with
       | Some data => App.ClassificationResultsPanel data "CONFIRMED"
       | None => App.Nothing
       end.
Proof.
  split; [reflexivity|].
  exact (proj2 (proj2 (proj2 (proj2 (proj2
           (upload_outcome App.initial "Kepler.CSV"
              (FileUpload.Status true "OK" (FileUpload.Json catalogue))
              (FileUpload.Status true "OK" (FileUpload.Json classified))
              eq_refl)))))).
Defined.

(** Two rows of three carry the label of the first card. *)
Lemma card_percentage_within_bounds_witness :
  [labelled "CONFIRMED"; labelled "candidate"; labelled "confirmed"] <> []
  /\ map ClassificationResults.card_percentage
       (ClassificationResults.cards
          [labelled "CONFIRMED"; labelled "candidate"; labelled "confirmed"])
     = ["66.7"; "33.3"; "0.0"]
  /\ Forall
       (fun c =>
          exists q,
            ClassificationResults.percentage_value
              (ClassificationResults.card_count c)
              [labelled "CONFIRMED"; labelled "candidate";
               labelled "confirmed"] = Fin q
            /\ (0 <= q <= 100)%Q)
       (ClassificationResults.cards
          [labelled "CONFIRMED"; labelled "candidate"; labelled "confirmed"]).
Proof.
  assert (N : [labelled "CONFIRMED"; labelled "candidate";
               labelled "confirmed"] <> []) by discriminate.
  split; [exact N|]. split; [reflexivity|].
  eapply Forall_impl; [exact (card_percentage_within_bounds _ N)|].
  intros c (q & E & B & _). exists q. split; [exact E|exact B].
Defined.

(** The earlier scatter plot of the catalogue: the maxima are 8 and 4. *)
Lemma earlier_scatter_positions_witness :
  Forall (fun p => isFinite (DataExplorationFixedBins.x p) = true
                   /\ isFinite (DataExplorationFixedBins.y p) = true)
    (DataExplorationFixedBins.scatterData catalogue)
  /\ DataExplorationFixedBins.ScatterPlot catalogue
     = [(Fin 80, Fin 165); (Fin 360, Fin 30)]
  /\ exists qx qy,
       DataExplorationFixedBins.maxX
         (DataExplorationFixedBins.scatterData catalogue) = Fin qx
       /\ DataExplorationFixedBins.maxY
            (DataExplorationFixedBins.scatterData catalogue) = Fin qy.
Proof.
  assert (F : Forall
                (fun p => isFinite (DataExplorationFixedBins.x p) = true
                          /\ isFinite (DataExplorationFixedBins.y p) = true)
                (DataExplorationFixedBins.scatterData catalogue))
    by (repeat constructor).
  split; [exact F|]. split; [reflexivity|].
  destruct (earlier_scatter_positions catalogue F) as (qx & qy & Ex & Ey & _).
  exists qx, qy. split; [exact Ex|exact Ey].
Defined.

(** The histogram of 25 bins of the periods 3, 5 and 4. *)
Lemma histogram25_counts_and_bars_witness :
  exists h,
    DataExploration25.HistogramChart (make_table ["period"] three_periods)
    = Some h
    /\ Forall (fun v => isFinite v = true)
         (DataExploration.periods (make_table ["period"] three_periods))
    /\ length (DataExploration25.bars h) = 25%nat
    /\ list_sum (DataExploration25.histogram h) = 3%nat
    /\ Forall bar25_within_plot (DataExploration25.bars h).
Proof.
  eexists. split; [vm_compute; reflexivity|].
  assert (F : Forall (fun v => isFinite v = true)
                (DataExploration.periods
                   (make_table ["period"] three_periods)))
    by (vm_compute; repeat constructor).
  split; [exact F|].
  destruct (histogram25_counts_and_bars
              (make_table ["period"] three_periods) _ eq_refl F)
    as (_ & E1 & E2 & _).
  destruct (E2 eq_refl) as (E3 & _ & E4 & _).
  split; [exact E1|]. split; [exact E3|exact E4].
Defined.

(** Three times the period 10: no bar of the 25 has a height. *)
Example histogram25_constant_column :
  DataExploration25.bars
    <$> DataExploration25.HistogramChart
          (make_table ["period"]
             [with_period 10; with_period 10; with_period 10])
  = Some (imap (fun i _ =>
                  {| DataExploration25.bar_x :=
                       num_add (Fin 40) (num_mul (of_nat i) (lit 12.8));
                     DataExploration25.bar_y := NaN;
                     DataExploration25.bar_width := lit 10.8;
                     DataExploration25.bar_height := NaN |})
            (repeat tt 25)).
Proof. vm_compute. reflexivity. Qed.

(** 750 trees. *)
Lemma control_reads_its_text_witness :
  RetrainModel.NEstimators <> RetrainModel.LearningRate
  /\ RetrainModel.request_body unit
       (RetrainModel.onChange unit (RetrainModel.initial unit)
          RetrainModel.NEstimators "750")
     = {| RetrainModel.learning_rate := Some (1 # 20)%Q;
          RetrainModel.n_estimators := Some 750%Q;
          RetrainModel.max_depth := Some 6%Q;
          RetrainModel.threshold := Some (3 # 5)%Q |}
  /\ field_of RetrainModel.NEstimators
       (RetrainModel.onChange unit (RetrainModel.initial unit)
          RetrainModel.NEstimators "750")
     = Some (inject_Z 750).
Proof.
  assert (N : RetrainModel.NEstimators <> RetrainModel.LearningRate)
    by discriminate.
  split; [exact N|]. split; [reflexivity|].
  exact (proj1 (control_reads_its_text unit (RetrainModel.initial unit)
                  RetrainModel.NEstimators "750" N)
           750%Z ltac:(split; discriminate) eq_refl).
Defined.

(** What [parseInt] reads. *)
Example parseInt_texts :
  map RetrainModel.parseInt
    ["500"; " 12px"; "0x1F"; "-7.9"; ""; "abc"; "+"; "1e3";
     "9007199254740993"; "9007199254740995"]
  = [Fin 500; Fin 12; Fin 31; Fin (-7); NaN; NaN; NaN; Fin 1;
     Fin 9007199254740992; Fin 9007199254740996]
  /\ RetrainModel.parseInt (string_of_Z (10 ^ 400)) = PInf.
Proof. split; vm_compute; reflexivity. Qed.

(** What the other components do on small inputs. *)
Example preview_scenarios :
  DataPreview.matches "conf" (labelled "CONFIRMED") = true
  /\ DataPreview.matches "" (make_row []) = false
  /\ DataPreview.totalPages (repeat (labelled "CONFIRMED") 21) = 3%Z
  /\ length (DataPreview.currentRows (repeat (labelled "CONFIRMED") 21) 2)
     = 1%nat
  /\ DataPreview.cell (with_period 3) "period" = "3.0000"
  /\ DataPreview.cell (with_period 3) "radius" = "—"
  /\ map FileUpload.accepted ["Kepler.CSV"; "notes.txt"; ".xls"; "a.csv.bak"]
     = [true; false; true; false].
Proof. repeat split; vm_compute; reflexivity. Qed.

End FurtherScenarios.
